(** * Image preprocessing pipeline of inspired-outfitting

    A shallow embedding of [src/lib/imageProcessing.ts],
    [src/lib/backgroundRemoval.ts], [src/lib/garmentSegmentation.ts], the
    preprocessing pipeline ([preprocessImages]) and
    [src/lib/backgroundCompositing.ts], with the properties the
    specification states about them; and of the code around them: the
    server route [src/app/api/remove-background/route.ts], the masking
    segmenter [segmentGarmentAdvanced], the try-on page
    ([src/unnamed/part_002]) and the second version of the compositor
    ([src/unnamed/part_007]), with further properties read off the code.

    Conventions of the embedding.
    - Pixel channels, pixel counts and image dimensions are integers ([Z]);
      array indices are [nat] (stdpp list lookup and insert).
    - A JavaScript [number] that the code obtains by a guarded division or
      from integer data is an exact rational ([Q]).  A [number] obtained by
      an unguarded division (an aspect ratio) lives in [number], which adds
      the two infinities and NaN.  Rounding of binary64 arithmetic and the
      sign of zero are not modelled.
    - [async] functions are computations in a state-and-exception monad.
      The state carries a clock: every interaction with the browser (file
      reader, image decoder, network, canvas allocation, timer) reads the
      [World] at the current clock value and advances the clock, so the
      same request may be answered differently at different times.
    - [console.log] / [console.warn] calls have no effect on any returned
      value and are left out. *)

From Stdlib Require Import ZArith QArith Qround Qminmax Lqa Ascii String List Lia.
From stdpp Require Import base list strings pretty.

Open Scope string_scope.
Open Scope list_scope.

(** ** JavaScript numbers *)

Module Number.

Inductive number : Type :=
| Finite (q : Q)
| Infinity
| NegInfinity
| NaN.

Definition of_Z (z : Z) : number := Finite (inject_Z z).

Definition Qgtb (x y : Q) : bool := negb (Qle_bool x y).
Definition Qltb (x y : Q) : bool := negb (Qle_bool y x).

(** [a / b]: IEEE division, the divisor zero being +0. *)
Definition div (a b : number) : number :=
  match a, b with
  | NaN, _ | _, NaN => NaN
  | Finite x, Finite y =>
      if Qeq_bool y 0
      then (if Qgtb x 0 then Infinity else if Qltb x 0 then NegInfinity else NaN)
      else Finite (x / y)
  | Finite _, (Infinity | NegInfinity) => Finite 0
  | Infinity, Finite y => if Qltb y 0 then NegInfinity else Infinity
  | NegInfinity, Finite y => if Qltb y 0 then Infinity else NegInfinity
  | (Infinity | NegInfinity), (Infinity | NegInfinity) => NaN
  end.

Definition neg (a : number) : number :=
  match a with
  | Finite x => Finite (- x)
  | Infinity => NegInfinity
  | NegInfinity => Infinity
  | NaN => NaN
  end.

(** [a * b] *)
Definition mul (a b : number) : number :=
  let scale_inf (inf : number) (y : Q) : number :=
    if Qeq_bool y 0 then NaN else if Qltb y 0 then neg inf else inf in
  match a, b with
  | NaN, _ | _, NaN => NaN
  | Finite x, Finite y => Finite (x * y)
  | Finite x, Infinity => scale_inf Infinity x
  | Finite x, NegInfinity => scale_inf NegInfinity x
  | Infinity, Finite y => scale_inf Infinity y
  | NegInfinity, Finite y => scale_inf NegInfinity y
  | Infinity, Infinity | NegInfinity, NegInfinity => Infinity
  | Infinity, NegInfinity | NegInfinity, Infinity => NegInfinity
  end.

(** [a - b] *)
Definition sub (a b : number) : number :=
  match a, b with
  | NaN, _ | _, NaN => NaN
  | Finite x, Finite y => Finite (x - y)
  | Finite _, Infinity => NegInfinity
  | Finite _, NegInfinity => Infinity
  | Infinity, (Finite _ | NegInfinity) => Infinity
  | NegInfinity, (Finite _ | Infinity) => NegInfinity
  | Infinity, Infinity | NegInfinity, NegInfinity => NaN
  end.

(** [a > b] and [a < b]; every comparison with NaN is false. *)
Definition gtb (a b : number) : bool :=
  match a, b with
  | NaN, _ | _, NaN => false
  | Finite x, Finite y => Qgtb x y
  | Infinity, (Finite _ | NegInfinity) => true
  | Finite _, NegInfinity => true
  | _, _ => false
  end.

Definition ltb (a b : number) : bool := gtb b a.

(** [Math.max(a, b)] *)
Definition max (a b : number) : number :=
  match a, b with
  | NaN, _ | _, NaN => NaN
  | _, _ => if gtb b a then b else a
  end.

(** [Math.round] on a rational: the nearest integer, ties upwards. *)
Definition Qround (x : Q) : Z := Qfloor (x + (1 # 2)).

(** [Math.round(x * 100) / 100] and [Math.round(x * 1000) / 1000]. *)
Definition Qround_to (scale : Z) (x : Q) : Q :=
  inject_Z (Qround (x * inject_Z scale)) / inject_Z scale.

Definition round_to (scale : Z) (a : number) : number :=
  match a with
  | Finite x => Finite (Qround_to scale x)
  | other => other
  end.

(** Conversion to a WebIDL [unsigned long], as performed by the setters
    [canvas.width = v] and [canvas.height = v]: NaN and the infinities
    become 0, a finite value is truncated towards zero and reduced
    modulo 2^32. *)
Definition Qtrunc (x : Q) : Z :=
  if Qle_bool 0 x then Qfloor x else Qceiling x.

Definition to_unsigned_long (a : number) : Z :=
  match a with
  | Finite x => (Qtrunc x) mod (2 ^ 32)
  | _ => 0
  end.

(** The value [canvas.width] (or [canvas.height]) holds after the
    assignment of [a]: the attribute reflects a content attribute limited
    to 0 .. 2^31 - 1, and a value outside that range is replaced by the
    attribute's default (300 for the width, 150 for the height). *)
Definition canvas_dimension (default_value : Z) (a : number) : Z :=
  let n := to_unsigned_long a in
  if (2147483647 <? n)%Z then default_value else n.

End Number.

Import Number.

(** ** JavaScript values shared by the modules *)

(** A thrown or rejected value.  [Error] objects carry a message; DOM
    events (the rejection of [loadImage] or of the file reader) have none. *)
Record Exn : Type := mkExn { message : option string }.

Definition Error (msg : string) : Exn := {| message := Some msg |}.

(** Truthiness of a string: only the empty string is falsy. *)
Definition truthy (s : string) : bool := negb (String.eqb s "").

(** [value || fallback] for a possibly undefined string. *)
Definition or_else (value : option string) (fallback : string) : string :=
  match value with
  | Some s => if truthy s then s else fallback
  | None => fallback
  end.

(** [fileName.includes(part)] *)
Definition includes (part s : string) : bool :=
  match index 0 part s with
  | Some _ => true
  | None => false
  end.

Record Blob : Type := mkBlob {
  blob_type : string;
  blob_bytes : list Byte.byte;
}.

(** A [File] is a [Blob] with a name. *)
Record File : Type := mkFile {
  file_name : string;
  file_type : string;
  file_bytes : list Byte.byte;
}.

Definition blob_of_file (f : File) : Blob :=
  {| blob_type := file_type f; blob_bytes := file_bytes f |}.

(** [new File([blob], name, { type })] *)
Definition new_File (b : Blob) (name type : string) : File :=
  {| file_name := name; file_type := type; file_bytes := blob_bytes b |}.

(** A decoded [HTMLImageElement]: its size and its RGBA samples, row by
    row, four per pixel. *)
Record HTMLImageElement : Type := mkImage {
  img_width : Z;
  img_height : Z;
  img_data : list Z;
}.

(** A canvas holding pixels, as used for reading and writing samples. *)
Record Canvas : Type := mkCanvas {
  cv_width : Z;
  cv_height : Z;
  cv_data : list Z;
}.

Record ImageData : Type := mkImageData {
  id_width : Z;
  id_height : Z;
  id_data : list Z;
}.

Record Dimensions : Type := mkDimensions { dim_width : Z; dim_height : Z }.

(** A canvas that is drawn on with scaling, as the compositor does: its
    size and the drawing calls made on it, oldest first.  Its pixels are
    whatever the browser rasterises from them. *)
Inductive DrawCall : Type :=
| FillRect (fillStyle : string) (x y width height : number)
| DrawImage (img : HTMLImageElement) (x y width height : number).

Record DrawnCanvas : Type := mkDrawnCanvas {
  dc_width : Z;
  dc_height : Z;
  dc_calls : list DrawCall;
}.

(** ** Computations that may throw *)

Inductive Completion (A : Type) : Type :=
| Normal (a : A)
| Throw (e : Exn).

Arguments Normal {A} a.
Arguments Throw {A} e.

Definition Js (S A : Type) : Type := S -> Completion A * S.

Definition ret {S A} (a : A) : Js S A := fun s => (Normal a, s).

Definition throw {S A} (e : Exn) : Js S A := fun s => (Throw e, s).

Definition bind {S A B} (m : Js S A) (k : A -> Js S B) : Js S B :=
  fun s =>
    match m s with
    | (Normal a, s') => k a s'
    | (Throw e, s') => (Throw e, s')
    end.

(** [try { m } catch (error) { handler error }]: the state reached when
    the exception was thrown is the one the handler starts from. *)
Definition try_catch {S A} (m : Js S A) (handler : Exn -> Js S A) : Js S A :=
  fun s =>
    match m s with
    | (Normal a, s') => (Normal a, s')
    | (Throw e, s') => handler e s'
    end.

(** [await p] for a promise that is already settled. *)
Definition settle {S A} (c : Completion A) : Js S A := fun s => (c, s).

Declare Scope js_scope.
Delimit Scope js_scope with js.
Notation "'let!' x ':=' m 'in' k" := (bind m (fun x => k))
  (at level 10, x pattern, m at level 100, k at level 200) : js_scope.
Notation "m ';!' k" := (bind m (fun _ => k))
  (at level 100, k at level 200, right associativity) : js_scope.
Open Scope js_scope.

(** Running a computation that only uses the clock inside one that also
    has local variables. *)
Definition with_clock {L A} (m : Js nat A) : Js (L * nat) A :=
  fun '(l, n) => let '(r, n') := m n in (r, (l, n')).

Definition get_locals {L} : Js (L * nat) L := fun s => (Normal (fst s), s).
Definition set_locals {L} (f : L -> L) : Js (L * nat) unit :=
  fun s => (Normal tt, (f (fst s), snd s)).

(** ** The browser and the network *)

Inductive JsonValue : Type :=
| JsonNull
| JsonObject (error : option string).

(** The response of a [fetch]: [resp_json] is [None] when the body is not
    JSON ([response.json()] rejects). *)
Record Response : Type := mkResponse {
  resp_ok : bool;
  resp_status : Z;
  resp_json : option JsonValue;
  resp_blob : Completion Blob;
}.

Record World : Type := mkWorld {
  (** [performance.now()] *)
  now_at : nat -> Q;
  (** [FileReader.readAsDataURL(file)], [onload] or [onerror] *)
  read_as_data_url_at : nat -> File -> Completion string;
  (** [fetch(url)] followed by [response.blob()] *)
  fetch_blob_at : nat -> string -> Completion Blob;
  (** [fetch('/api/remove-background', { method: 'POST', body })] *)
  post_image_at : nat -> string -> File -> Completion Response;
  (** [new Image(); img.src = src], [onload] or [onerror] *)
  image_at : nat -> string -> Completion HTMLImageElement;
  (** whether [canvas.getContext('2d')] yields a context *)
  context2d_at : nat -> bool;
  (** [URL.createObjectURL(blob)] *)
  object_url_at : nat -> Blob -> string;
  (** [canvas.toDataURL(mimeType, quality)] *)
  to_data_url : Canvas -> string -> string;
  (** the blob handed to the callback of [canvas.toBlob], if any *)
  to_blob_at : nat -> Canvas -> string -> option Blob;
  (** the same two encoders for a canvas that was drawn on *)
  drawn_to_data_url : DrawnCanvas -> string -> string;
  drawn_to_blob_at : nat -> DrawnCanvas -> string -> option Blob;
}.

Definition ask {A} (answer : nat -> Completion A) : Js nat A :=
  fun n => (answer n, S n).

Definition ask_total {A} (answer : nat -> A) : Js nat A :=
  fun n => (Normal (answer n), S n).

(** ** imageProcessing.ts *)

Module ImageProcessing.
Section WithWorld.
Variable w : World.

Definition performance_now : Js nat Q := ask_total (now_at w).

Definition fileToDataUrl (file : File) : Js nat string :=
  ask (fun n => read_as_data_url_at w n file).

Definition loadImage (src : string) : Js nat HTMLImageElement :=
  ask (fun n => image_at w n src).

Definition getContext2d : Js nat bool := ask_total (context2d_at w).

Definition createObjectURL (b : Blob) : Js nat string :=
  ask_total (fun n => object_url_at w n b).

(** [URL.revokeObjectURL(url)] returns nothing. *)
Definition revokeObjectURL (url : string) : Js nat unit := ret tt.

Definition imageToCanvas (img : HTMLImageElement) : Js nat Canvas :=
  let! ctx := getContext2d in
  if negb ctx then throw (Error "Could not get canvas context")
  else ret {| cv_width := img_width img;
              cv_height := img_height img;
              cv_data := img_data img |}.

Definition canvasToDataUrl (canvas : Canvas) (mimeType : string) : string :=
  to_data_url w canvas mimeType.

Definition canvasToBlob (canvas : Canvas) (mimeType : string) : Js nat Blob :=
  let! blob := ask_total (fun n => to_blob_at w n canvas mimeType) in
  match blob with
  | Some b => ret b
  | None => throw (Error "Failed to convert canvas to blob")
  end.

Definition canvasToFile (canvas : Canvas) (fileName mimeType : string)
  : Js nat File :=
  let! blob := canvasToBlob canvas mimeType in
  ret (new_File blob fileName mimeType).

(** The three branches of the source ([data:], [blob:], other URLs) all
    fetch the URL and read the response as a blob. *)
Definition dataUrlToFile (dataUrl fileName : string) : Js nat File :=
  let! blob := ask (fun n => fetch_blob_at w n dataUrl) in
  if negb (String.eqb (blob_type blob) "image/png")
     && includes "bg-removed" fileName
  then
    let! img := loadImage dataUrl in
    let! canvas := imageToCanvas img in
    let! pngBlob := canvasToBlob canvas "image/png" in
    ret (new_File pngBlob fileName "image/png")
  else
    let fileType :=
      if includes "bg-removed" fileName then "image/png"
      else or_else (Some (blob_type blob)) "image/png" in
    ret (new_File blob fileName fileType).

(** [ctx.getImageData(0, 0, canvas.width, canvas.height)]; the call
    throws an [IndexSizeError] when the width or the height is zero. *)
Definition getImageData (canvas : Canvas) : Js nat ImageData :=
  if ((cv_width canvas <=? 0) || (cv_height canvas <=? 0))%Z
  then throw (Error "IndexSizeError")
  else ret {| id_width := cv_width canvas;
              id_height := cv_height canvas;
              id_data := cv_data canvas |}.

(** [ctx.putImageData(imageData, 0, 0)] for data of the canvas's size. *)
Definition putImageData (canvas : Canvas) (imageData : ImageData) : Canvas :=
  {| cv_width := cv_width canvas;
     cv_height := cv_height canvas;
     cv_data := id_data imageData |}.

End WithWorld.
End ImageProcessing.

Import ImageProcessing.

(** Running a block that has local variables, from their initial value. *)
Definition with_locals {L A} (init : L) (m : Js (L * nat) A) : Js nat A :=
  fun n => let '(r, s') := m (init, n) in (r, snd s').

(** ** backgroundRemoval.ts *)

Module BackgroundRemoval.

Inductive Method : Type := replicate | client_side.

Record BackgroundRemovalDebugInfo : Type := mkDebugInfo {
  method : Method;
  processingTimeMs : Q;
  originalDimensions : Dimensions;
  processedDimensions : Dimensions;
  originalImageDataUrl : option string;
  processedImageDataUrl : option string;
  warnings : option (list string);
}.

Record BackgroundRemovalResult : Type := mkResult {
  imageDataUrl : string;
  success : bool;
  error : option string;
  debug : option BackgroundRemovalDebugInfo;
}.

(** [fallbackResult.debug.warnings = ws] *)
Definition set_warnings (ws : list string) (r : BackgroundRemovalResult)
  : BackgroundRemovalResult :=
  match debug r with
  | Some d =>
      {| imageDataUrl := imageDataUrl r;
         success := success r;
         error := error r;
         debug := Some {| method := method d;
                          processingTimeMs := processingTimeMs d;
                          originalDimensions := originalDimensions d;
                          processedDimensions := processedDimensions d;
                          originalImageDataUrl := originalImageDataUrl d;
                          processedImageDataUrl := processedImageDataUrl d;
                          warnings := Some ws |} |}
  | None => r
  end.

(** One iteration of the loop of [removeBackgroundClientSide] at offset
    [i]: a sample read past the end of the array is [undefined], the
    brightness is then NaN and the comparison is false. *)
Definition brightness (r g b : Z) : Q := (inject_Z (r + g + b) / 3)%Q.

Definition lightenPixelAt (i : nat) (data : list Z) : list Z :=
  match data !! i, data !! (i + 1)%nat, data !! (i + 2)%nat with
  | Some r, Some g, Some b =>
      if Qgtb (brightness r g b) 240 then <[(i + 3)%nat := 0%Z]> data else data
  | _, _, _ => data
  end.

(** [for (let i = 0; i < data.length; i += 4) { ... }] *)
Fixpoint lightenFrom (fuel i : nat) (data : list Z) : list Z :=
  match fuel with
  | O => data
  | S fuel' =>
      if (i <? length data)%nat
      then lightenFrom fuel' (i + 4)%nat (lightenPixelAt i data)
      else data
  end.

Definition makeLightPixelsTransparent (data : list Z) : list Z :=
  lightenFrom (length data) 0%nat data.

Section WithWorld.
Variable w : World.

Definition removeBackgroundWithReplicate (imageFile : File) (includeDebug : bool)
  : Js nat BackgroundRemovalResult :=
  let! startTime := performance_now w in
  with_locals (None : option string)
    (try_catch
       ((if includeDebug
         then (let! url := with_clock (fileToDataUrl w imageFile) in
               set_locals (fun _ => Some url))
         else ret tt) ;!
        let! response :=
          with_clock
            (ask (fun n => post_image_at w n "/api/remove-background" imageFile)) in
        (if negb (resp_ok response)
         then
           match default (JsonObject (Some "Unknown error")) (resp_json response) with
           | JsonObject err =>
               throw (Error (or_else err
                               ("API error: " +:+ pretty (resp_status response))))
           | JsonNull =>
               throw (Error "Cannot read properties of null (reading 'error')")
           end
         else ret tt) ;!
        let! blob := settle (resp_blob response) in
        let! (dataUrl, imgForDimensions) :=
          with_clock
            (if negb (String.eqb (blob_type blob) "image/png")
             then
               let! blobUrl := createObjectURL w blob in
               let! img := loadImage w blobUrl in
               let! canvas := imageToCanvas w img in
               let dataUrl := canvasToDataUrl w canvas "image/png" in
               revokeObjectURL blobUrl ;!
               ret (dataUrl, img)
             else
               let! dataUrl := createObjectURL w blob in
               let! img := loadImage w dataUrl in
               ret (dataUrl, img)) in
        let! endTime := with_clock (performance_now w) in
        let processingTime := (endTime - startTime)%Q in
        let img := imgForDimensions in
        let processedDims :=
          {| dim_width := img_width img; dim_height := img_height img |} in
        let! originalUrl := get_locals in
        let! originalDims :=
          match originalUrl with
          | Some url =>
              if includeDebug && truthy url
              then
                let! originalImg := with_clock (loadImage w url) in
                ret {| dim_width := img_width originalImg;
                       dim_height := img_height originalImg |}
              else ret {| dim_width := 0; dim_height := 0 |}
          | None => ret {| dim_width := 0; dim_height := 0 |}
          end in
        ret {| imageDataUrl := dataUrl;
               success := true;
               error := None;
               debug :=
                 if includeDebug
                 then Some {| method := replicate;
                              processingTimeMs := Qround_to 100 processingTime;
                              originalDimensions := originalDims;
                              processedDimensions := processedDims;
                              originalImageDataUrl := originalUrl;
                              processedImageDataUrl := Some dataUrl;
                              warnings := None |}
                 else None |})
       (fun e =>
          let msg := or_else (message e) "Replicate API failed" in
          let! originalUrl := get_locals in
          let! dbg :=
            if includeDebug
            then
              let! endTime := with_clock (performance_now w) in
              ret (Some {| method := replicate;
                           processingTimeMs := Qround_to 100 (endTime - startTime);
                           originalDimensions := {| dim_width := 0; dim_height := 0 |};
                           processedDimensions := {| dim_width := 0; dim_height := 0 |};
                           originalImageDataUrl := originalUrl;
                           processedImageDataUrl := None;
                           warnings := Some [msg] |})
            else ret None in
          ret {| imageDataUrl := "";
                 success := false;
                 error := Some msg;
                 debug := dbg |})).

Definition clientSideWarning : string :=
  "Using basic client-side removal. For better results, configure REPLICATE_API_TOKEN.".

Definition removeBackgroundClientSide (imageFile : File) (includeDebug : bool)
  : Js nat BackgroundRemovalResult :=
  let! startTime := performance_now w in
  with_locals (None : option string)
    (try_catch
       (let! imageUrl := with_clock (createObjectURL w (blob_of_file imageFile)) in
        let! img := with_clock (loadImage w imageUrl) in
        (if includeDebug then set_locals (fun _ => Some imageUrl) else ret tt) ;!
        let! canvas := with_clock (imageToCanvas w img) in
        let! ctx := with_clock (getContext2d w) in
        (if negb ctx then throw (Error "Could not get canvas context") else ret tt) ;!
        let originalDims :=
          {| dim_width := img_width img; dim_height := img_height img |} in
        let! imageData := with_clock (getImageData canvas) in
        let data := makeLightPixelsTransparent (id_data imageData) in
        let canvas' :=
          putImageData canvas {| id_width := id_width imageData;
                                 id_height := id_height imageData;
                                 id_data := data |} in
        let resultDataUrl := canvasToDataUrl w canvas' "image/png" in
        let! endTime := with_clock (performance_now w) in
        let processingTime := (endTime - startTime)%Q in
        (if negb includeDebug then with_clock (revokeObjectURL imageUrl) else ret tt) ;!
        let! originalUrl := get_locals in
        ret {| imageDataUrl := resultDataUrl;
               success := true;
               error := None;
               debug :=
                 if includeDebug
                 then Some {| method := client_side;
                              processingTimeMs := Qround_to 100 processingTime;
                              originalDimensions := originalDims;
                              processedDimensions := originalDims;
                              originalImageDataUrl := originalUrl;
                              processedImageDataUrl := Some resultDataUrl;
                              warnings := Some [clientSideWarning] |}
                 else None |})
       (fun e =>
          let msg := or_else (message e) "Client-side removal failed" in
          let! originalUrl := get_locals in
          let! dbg :=
            if includeDebug
            then
              let! endTime := with_clock (performance_now w) in
              ret (Some {| method := client_side;
                           processingTimeMs := Qround_to 100 (endTime - startTime);
                           originalDimensions := {| dim_width := 0; dim_height := 0 |};
                           processedDimensions := {| dim_width := 0; dim_height := 0 |};
                           originalImageDataUrl := originalUrl;
                           processedImageDataUrl := None;
                           warnings := Some [msg] |})
            else ret None in
          ret {| imageDataUrl := "";
                 success := false;
                 error := Some msg;
                 debug := dbg |})).

(** [`Replicate failed: ${replicateResult.error}`] *)
Definition replicateFailed (err : option string) : string :=
  "Replicate failed: " +:+ default "undefined" err.

Definition removeBackground (imageFile : File) (includeDebug : bool)
  : Js nat BackgroundRemovalResult :=
  let! replicateResult := removeBackgroundWithReplicate imageFile includeDebug in
  if success replicateResult then ret replicateResult
  else
    let! fallbackResult := removeBackgroundClientSide imageFile includeDebug in
    match debug replicateResult, debug fallbackResult with
    | Some rd, Some fd =>
        if includeDebug
        then ret (set_warnings
                    (default [] (warnings rd)
                     ++ [replicateFailed (error replicateResult)]
                     ++ default [] (warnings fd))
                    fallbackResult)
        else ret fallbackResult
    | _, _ => ret fallbackResult
    end.

End WithWorld.
End BackgroundRemoval.

Import BackgroundRemoval.

(** ** garmentSegmentation.ts *)

Module GarmentSegmentation.

Inductive GarmentType : Type := top | bottom | fullBody | completeOutfit.

#[global] Instance GarmentType_eq_dec : EqDecision GarmentType.
Proof. solve_decision. Defined.

Inductive AspectRatioAnalysis : Type := likelyTop | likelyBottom | likelyFullBody.

#[global] Instance AspectRatioAnalysis_eq_dec : EqDecision AspectRatioAnalysis.
Proof. solve_decision. Defined.

Inductive Decision : Type := using_full_image | using_region_cropping.

Record EdgeDensity : Type := mkEdgeDensity {
  topEdgeDensity : Q;
  bottomEdgeDensity : Q;
}.

Record Region : Type := mkRegion {
  region_x : Q;
  region_y : Q;
  region_width : Q;
  region_height : Q;
}.

Record SegmentationDebugInfo : Type := mkSegmentationDebugInfo {
  selectedGarmentType : GarmentType;
  aspectRatio : number;
  aspectRatioAnalysis : AspectRatioAnalysis;
  edgeDensity : EdgeDensity;
  detectionConfidence : Q;
  debug_isSingleGarment : bool;
  debug_detectedType : option GarmentType;
  decision : Decision;
  regionCoordinates : option Region;
  seg_originalDimensions : Dimensions;
  seg_processedDimensions : Dimensions;
  seg_originalImageDataUrl : option string;
  debug_segmentedImageDataUrl : option string;
}.

Record SegmentationResult : Type := mkSegmentationResult {
  segmentedImageDataUrl : string;
  success : bool;
  error : option string;
  debug : option SegmentationDebugInfo;
}.

Record SingleGarmentDetection : Type := mkDetection {
  isSingleGarment : bool;
  confidence : Q;
  detectedType : option GarmentType;
}.

Definition detectGarmentTypeByAspectRatio (width height : number)
  : AspectRatioAnalysis :=
  let aspectRatio := div width height in
  if gtb aspectRatio (Finite 1.2) then likelyTop
  else if ltb aspectRatio (Finite 0.8) then likelyBottom
  else likelyFullBody.

(** Whether the gradient at a pixel exceeds the threshold.  The three
    offsets are those of the pixel, of its right neighbour and of the one
    below.  For integer differences [dx], [dy],
    [Math.sqrt(dx^2 + dy^2) > 30] holds exactly when [dx^2 + dy^2 > 900].
    A sample read past the end of the array is [undefined]; the gradient is
    then NaN and the comparison false. *)
Definition gradientAboveThreshold (data : list Z) (idx idxRight idxBottom : nat)
  : bool :=
  default false
    (r ← data !! idx; g ← data !! (idx + 1)%nat; b ← data !! (idx + 2)%nat;
     rR ← data !! idxRight; gR ← data !! (idxRight + 1)%nat;
     bR ← data !! (idxRight + 2)%nat;
     rB ← data !! idxBottom; gB ← data !! (idxBottom + 1)%nat;
     bB ← data !! (idxBottom + 2)%nat;
     let dx := (Z.abs (r - rR) + Z.abs (g - gR) + Z.abs (b - bR))%Z in
     let dy := (Z.abs (r - rB) + Z.abs (g - gB) + Z.abs (b - bB))%Z in
     Some (900 <? dx * dx + dy * dy)%Z).

Record EdgeCounts : Type := mkEdgeCounts {
  topEdges : Z;
  bottomEdges : Z;
  topPixels : Z;
  bottomPixels : Z;
}.

(** The body of the inner loop of [analyzeEdgeDensity] at pixel [(x, y)]. *)
Definition countPixel (width topHalfHeight : Z) (data : list Z)
  (acc : EdgeCounts) (y x : Z) : EdgeCounts :=
  let idx := Z.to_nat ((y * width + x) * 4) in
  let idxRight := Z.to_nat ((y * width + (x + 1)) * 4) in
  let idxBottom := Z.to_nat (((y + 1) * width + x) * 4) in
  let isEdge := gradientAboveThreshold data idx idxRight idxBottom in
  let inTop := (y <? topHalfHeight)%Z in
  {| topEdges := if isEdge && inTop then topEdges acc + 1 else topEdges acc;
     bottomEdges :=
       if isEdge && negb inTop then bottomEdges acc + 1 else bottomEdges acc;
     topPixels := if inTop then topPixels acc + 1 else topPixels acc;
     bottomPixels := if inTop then bottomPixels acc else bottomPixels acc + 1 |}%Z.

(** The two nested loops: [y] from 1 to [height - 2], [x] from 1 to
    [width - 2]. *)
Definition countEdges (imageData : ImageData) : EdgeCounts :=
  let width := id_width imageData in
  let height := id_height imageData in
  let topHalfHeight := (height / 2)%Z in
  foldl
    (fun acc y =>
       foldl (fun acc' x => countPixel width topHalfHeight (id_data imageData) acc' y x)
         acc (seqZ 1 (width - 2)))
    {| topEdges := 0; bottomEdges := 0; topPixels := 0; bottomPixels := 0 |}
    (seqZ 1 (height - 2)).

Definition analyzeEdgeDensity (imageData : ImageData) : EdgeDensity :=
  let c := countEdges imageData in
  {| topEdgeDensity :=
       if (0 <? topPixels c)%Z
       then (inject_Z (topEdges c) / inject_Z (topPixels c))%Q else 0%Q;
     bottomEdgeDensity :=
       if (0 <? bottomPixels c)%Z
       then (inject_Z (bottomEdges c) / inject_Z (bottomPixels c))%Q else 0%Q |}.

(** The scoring part of [detectSingleGarment] (the two [if] blocks on the
    selected type and the final conjunction). *)
Definition scoreSelection (userSelectedType : GarmentType)
  (aspectRatioType : AspectRatioAnalysis) (topEdgeDensity bottomEdgeDensity : Q)
  : SingleGarmentDetection :=
  let '(confidence1, detected1) :=
    if bool_decide (userSelectedType = top)
    then
      let aspectRatioMatch :=
        if bool_decide (aspectRatioType = likelyTop) then 0.3%Q else 0%Q in
      let edgeMatch :=
        if Qgtb topEdgeDensity bottomEdgeDensity
        then Qmin ((topEdgeDensity - bottomEdgeDensity) * 2) 0.7 else 0%Q in
      let c := (aspectRatioMatch + edgeMatch)%Q in
      (c, if Qgtb c 0.6 then Some top else None)
    else (0%Q, None) in
  let '(confidence2, detected2) :=
    if bool_decide (userSelectedType = bottom)
    then
      let aspectRatioMatch :=
        if bool_decide (aspectRatioType = likelyBottom) then 0.3%Q else 0%Q in
      let edgeMatch :=
        if Qgtb bottomEdgeDensity topEdgeDensity
        then Qmin ((bottomEdgeDensity - topEdgeDensity) * 2) 0.7 else 0%Q in
      let c := (aspectRatioMatch + edgeMatch)%Q in
      (c, if Qgtb c 0.6 then Some bottom else detected1)
    else (confidence1, detected1) in
  {| isSingleGarment :=
       Qgtb confidence2 0.6
       && ((bool_decide (userSelectedType = top)
            && bool_decide (detected2 = Some top))
           || (bool_decide (userSelectedType = bottom)
               && bool_decide (detected2 = Some bottom)));
     confidence := confidence2;
     detectedType := detected2 |}.

Section WithWorld.
Variable w : World.

Definition detectSingleGarment (imageDataUrl : string) (userSelectedType : GarmentType)
  : Js nat SingleGarmentDetection :=
  try_catch
    (if bool_decide (userSelectedType = fullBody)
        || bool_decide (userSelectedType = completeOutfit)
     then ret {| isSingleGarment := true;
                 confidence := 1.0;
                 detectedType := Some fullBody |}
     else
       let! img := loadImage w imageDataUrl in
       let! canvas := imageToCanvas w img in
       let! ctx := getContext2d w in
       (if negb ctx then throw (Error "Could not get canvas context") else ret tt) ;!
       let width := cv_width canvas in
       let height := cv_height canvas in
       let aspectRatioType :=
         detectGarmentTypeByAspectRatio (of_Z width) (of_Z height) in
       let! imageData := getImageData canvas in
       let density := analyzeEdgeDensity imageData in
       ret (scoreSelection userSelectedType aspectRatioType
              (topEdgeDensity density) (bottomEdgeDensity density)))
    (fun _ => ret {| isSingleGarment := false;
                     confidence := 0;
                     detectedType := None |}).

(** The debug record of the two full-image returns of [segmentGarment]. *)
Definition fullImageDebug (garmentType : GarmentType) (detected : GarmentType)
  (ratio : number) (analysis : AspectRatioAnalysis) (density : EdgeDensity)
  (width height : Z) (imageDataUrl : string) : SegmentationDebugInfo :=
  {| selectedGarmentType := garmentType;
     aspectRatio := round_to 100 ratio;
     aspectRatioAnalysis := analysis;
     edgeDensity :=
       {| topEdgeDensity := Qround_to 1000 (topEdgeDensity density);
          bottomEdgeDensity := Qround_to 1000 (bottomEdgeDensity density) |};
     detectionConfidence := 1.0;
     debug_isSingleGarment := true;
     debug_detectedType := Some detected;
     decision := using_full_image;
     regionCoordinates := None;
     seg_originalDimensions := {| dim_width := width; dim_height := height |};
     seg_processedDimensions := {| dim_width := width; dim_height := height |};
     seg_originalImageDataUrl := Some imageDataUrl;
     debug_segmentedImageDataUrl := Some imageDataUrl |}.

(** Every value of [GarmentType] leaves through one of the two full-image
    returns, so the region-cropping code that follows them in the source
    is never executed. *)
Definition segmentGarment (imageDataUrl : string) (garmentType : GarmentType)
  (includeDebug : bool) : Js nat SegmentationResult :=
  try_catch
    (let! img := loadImage w imageDataUrl in
     let! canvas := imageToCanvas w img in
     let! ctx := getContext2d w in
     (if negb ctx then throw (Error "Could not get canvas context") else ret tt) ;!
     let width := cv_width canvas in
     let height := cv_height canvas in
     let ratio := div (of_Z width) (of_Z height) in
     let analysis := detectGarmentTypeByAspectRatio (of_Z width) (of_Z height) in
     let! imageData := getImageData canvas in
     let density := analyzeEdgeDensity imageData in
     match garmentType with
     | top | bottom =>
         ret {| segmentedImageDataUrl := imageDataUrl;
                success := true;
                error := None;
                debug :=
                  if includeDebug
                  then Some (fullImageDebug garmentType
                               (if bool_decide (garmentType = top) then top else bottom)
                               ratio analysis density width height imageDataUrl)
                  else None |}
     | fullBody | completeOutfit =>
         ret {| segmentedImageDataUrl := imageDataUrl;
                success := true;
                error := None;
                debug :=
                  if includeDebug
                  then Some (fullImageDebug garmentType fullBody
                               ratio analysis density width height imageDataUrl)
                  else None |}
     end)
    (fun e => ret {| segmentedImageDataUrl := "";
                     success := false;
                     error := Some (or_else (message e) "Segmentation failed");
                     debug := None |}).

Definition getSegmentedGarment (imageDataUrl : string) (garmentType : GarmentType)
  (useAdvanced includeDebug : bool) : Js nat SegmentationResult :=
  if useAdvanced then segmentGarment imageDataUrl garmentType includeDebug
  else segmentGarment imageDataUrl garmentType includeDebug.

End WithWorld.
End GarmentSegmentation.

(** ** preprocessingPipeline.ts *)

Module PreprocessingPipeline.

Import GarmentSegmentation.

(** The fields of [PreprocessingDebugInfo] that [preprocessImages] writes;
    the remaining optional fields are filled in by the page afterwards. *)
Record PreprocessingDebugInfo : Type := mkPreprocessingDebugInfo {
  personBackgroundRemoval : option BackgroundRemovalDebugInfo;
  garmentBackgroundRemoval : option BackgroundRemovalDebugInfo;
  garmentSegmentation : option SegmentationDebugInfo;
  totalProcessingTimeMs : Q;
  originalPersonImageDataUrl : option string;
  originalGarmentImageDataUrl : option string;
  personImageAfterBackgroundRemoval : option string;
  garmentImageAfterBackgroundRemoval : option string;
  garmentImageAfterSegmentation : option string;
  finalPersonImageDataUrl : option string;
  finalGarmentImageDataUrl : option string;
}.

Record Steps : Type := mkSteps {
  personBackgroundRemoved : bool;
  garmentBackgroundRemoved : bool;
  garmentSegmented : bool;
}.

Record PreprocessingResult : Type := mkPreprocessingResult {
  processedPersonImage : File;
  processedGarmentImage : File;
  personImageDataUrl : string;
  garmentImageDataUrl : string;
  success : bool;
  error : option string;
  steps : Steps;
  debug : option PreprocessingDebugInfo;
}.

Record PreprocessingOptions : Type := mkOptions {
  removePersonBackground : option bool;
  removeGarmentBackground : option bool;
  segmentGarment : option bool;
  garmentType : option GarmentType;
  useAdvancedSegmentation : option bool;
  includeDebug : option bool;
}.

(** The objects [steps] and [debugInfo], declared before the [try] block
    and updated in place inside it. *)
Record Locals : Type := mkLocals {
  l_steps : Steps;
  l_debugInfo : PreprocessingDebugInfo;
}.

Definition initialLocals : Locals :=
  {| l_steps := {| personBackgroundRemoved := false;
                   garmentBackgroundRemoved := false;
                   garmentSegmented := false |};
     l_debugInfo := {| personBackgroundRemoval := None;
                       garmentBackgroundRemoval := None;
                       garmentSegmentation := None;
                       totalProcessingTimeMs := 0;
                       originalPersonImageDataUrl := None;
                       originalGarmentImageDataUrl := None;
                       personImageAfterBackgroundRemoval := None;
                       garmentImageAfterBackgroundRemoval := None;
                       garmentImageAfterSegmentation := None;
                       finalPersonImageDataUrl := None;
                       finalGarmentImageDataUrl := None |} |}.

Definition update_steps (f : Steps -> Steps) (l : Locals) : Locals :=
  {| l_steps := f (l_steps l); l_debugInfo := l_debugInfo l |}.

Definition update_debugInfo (f : PreprocessingDebugInfo -> PreprocessingDebugInfo)
  (l : Locals) : Locals :=
  {| l_steps := l_steps l; l_debugInfo := f (l_debugInfo l) |}.

Definition mark_personBackgroundRemoved (s : Steps) : Steps :=
  {| personBackgroundRemoved := true;
     garmentBackgroundRemoved := garmentBackgroundRemoved s;
     garmentSegmented := garmentSegmented s |}.

Definition mark_garmentBackgroundRemoved (s : Steps) : Steps :=
  {| personBackgroundRemoved := personBackgroundRemoved s;
     garmentBackgroundRemoved := true;
     garmentSegmented := garmentSegmented s |}.

Definition mark_garmentSegmented (s : Steps) : Steps :=
  {| personBackgroundRemoved := personBackgroundRemoved s;
     garmentBackgroundRemoved := garmentBackgroundRemoved s;
     garmentSegmented := true |}.

Definition set_originals (person garment : string) (d : PreprocessingDebugInfo)
  : PreprocessingDebugInfo :=
  {| personBackgroundRemoval := personBackgroundRemoval d;
     garmentBackgroundRemoval := garmentBackgroundRemoval d;
     garmentSegmentation := garmentSegmentation d;
     totalProcessingTimeMs := totalProcessingTimeMs d;
     originalPersonImageDataUrl := Some person;
     originalGarmentImageDataUrl := Some garment;
     personImageAfterBackgroundRemoval := personImageAfterBackgroundRemoval d;
     garmentImageAfterBackgroundRemoval := garmentImageAfterBackgroundRemoval d;
     garmentImageAfterSegmentation := garmentImageAfterSegmentation d;
     finalPersonImageDataUrl := finalPersonImageDataUrl d;
     finalGarmentImageDataUrl := finalGarmentImageDataUrl d |}.

Definition set_personBackgroundRemoval (v : option BackgroundRemovalDebugInfo)
  (d : PreprocessingDebugInfo) : PreprocessingDebugInfo :=
  {| personBackgroundRemoval := v;
     garmentBackgroundRemoval := garmentBackgroundRemoval d;
     garmentSegmentation := garmentSegmentation d;
     totalProcessingTimeMs := totalProcessingTimeMs d;
     originalPersonImageDataUrl := originalPersonImageDataUrl d;
     originalGarmentImageDataUrl := originalGarmentImageDataUrl d;
     personImageAfterBackgroundRemoval := personImageAfterBackgroundRemoval d;
     garmentImageAfterBackgroundRemoval := garmentImageAfterBackgroundRemoval d;
     garmentImageAfterSegmentation := garmentImageAfterSegmentation d;
     finalPersonImageDataUrl := finalPersonImageDataUrl d;
     finalGarmentImageDataUrl := finalGarmentImageDataUrl d |}.

Definition set_personImageAfterBackgroundRemoval (url : string)
  (d : PreprocessingDebugInfo) : PreprocessingDebugInfo :=
  {| personBackgroundRemoval := personBackgroundRemoval d;
     garmentBackgroundRemoval := garmentBackgroundRemoval d;
     garmentSegmentation := garmentSegmentation d;
     totalProcessingTimeMs := totalProcessingTimeMs d;
     originalPersonImageDataUrl := originalPersonImageDataUrl d;
     originalGarmentImageDataUrl := originalGarmentImageDataUrl d;
     personImageAfterBackgroundRemoval := Some url;
     garmentImageAfterBackgroundRemoval := garmentImageAfterBackgroundRemoval d;
     garmentImageAfterSegmentation := garmentImageAfterSegmentation d;
     finalPersonImageDataUrl := finalPersonImageDataUrl d;
     finalGarmentImageDataUrl := finalGarmentImageDataUrl d |}.

Definition set_garmentBackgroundRemoval (v : option BackgroundRemovalDebugInfo)
  (d : PreprocessingDebugInfo) : PreprocessingDebugInfo :=
  {| personBackgroundRemoval := personBackgroundRemoval d;
     garmentBackgroundRemoval := v;
     garmentSegmentation := garmentSegmentation d;
     totalProcessingTimeMs := totalProcessingTimeMs d;
     originalPersonImageDataUrl := originalPersonImageDataUrl d;
     originalGarmentImageDataUrl := originalGarmentImageDataUrl d;
     personImageAfterBackgroundRemoval := personImageAfterBackgroundRemoval d;
     garmentImageAfterBackgroundRemoval := garmentImageAfterBackgroundRemoval d;
     garmentImageAfterSegmentation := garmentImageAfterSegmentation d;
     finalPersonImageDataUrl := finalPersonImageDataUrl d;
     finalGarmentImageDataUrl := finalGarmentImageDataUrl d |}.

Definition set_garmentImageAfterBackgroundRemoval (url : string)
  (d : PreprocessingDebugInfo) : PreprocessingDebugInfo :=
  {| personBackgroundRemoval := personBackgroundRemoval d;
     garmentBackgroundRemoval := garmentBackgroundRemoval d;
     garmentSegmentation := garmentSegmentation d;
     totalProcessingTimeMs := totalProcessingTimeMs d;
     originalPersonImageDataUrl := originalPersonImageDataUrl d;
     originalGarmentImageDataUrl := originalGarmentImageDataUrl d;
     personImageAfterBackgroundRemoval := personImageAfterBackgroundRemoval d;
     garmentImageAfterBackgroundRemoval := Some url;
     garmentImageAfterSegmentation := garmentImageAfterSegmentation d;
     finalPersonImageDataUrl := finalPersonImageDataUrl d;
     finalGarmentImageDataUrl := finalGarmentImageDataUrl d |}.

Definition set_garmentSegmentation (v : option SegmentationDebugInfo) (url : string)
  (d : PreprocessingDebugInfo) : PreprocessingDebugInfo :=
  {| personBackgroundRemoval := personBackgroundRemoval d;
     garmentBackgroundRemoval := garmentBackgroundRemoval d;
     garmentSegmentation := v;
     totalProcessingTimeMs := totalProcessingTimeMs d;
     originalPersonImageDataUrl := originalPersonImageDataUrl d;
     originalGarmentImageDataUrl := originalGarmentImageDataUrl d;
     personImageAfterBackgroundRemoval := personImageAfterBackgroundRemoval d;
     garmentImageAfterBackgroundRemoval := garmentImageAfterBackgroundRemoval d;
     garmentImageAfterSegmentation := Some url;
     finalPersonImageDataUrl := finalPersonImageDataUrl d;
     finalGarmentImageDataUrl := finalGarmentImageDataUrl d |}.

Definition set_totalProcessingTimeMs (t : Q) (d : PreprocessingDebugInfo)
  : PreprocessingDebugInfo :=
  {| personBackgroundRemoval := personBackgroundRemoval d;
     garmentBackgroundRemoval := garmentBackgroundRemoval d;
     garmentSegmentation := garmentSegmentation d;
     totalProcessingTimeMs := t;
     originalPersonImageDataUrl := originalPersonImageDataUrl d;
     originalGarmentImageDataUrl := originalGarmentImageDataUrl d;
     personImageAfterBackgroundRemoval := personImageAfterBackgroundRemoval d;
     garmentImageAfterBackgroundRemoval := garmentImageAfterBackgroundRemoval d;
     garmentImageAfterSegmentation := garmentImageAfterSegmentation d;
     finalPersonImageDataUrl := finalPersonImageDataUrl d;
     finalGarmentImageDataUrl := finalGarmentImageDataUrl d |}.

Definition set_finals (person garment : string) (d : PreprocessingDebugInfo)
  : PreprocessingDebugInfo :=
  {| personBackgroundRemoval := personBackgroundRemoval d;
     garmentBackgroundRemoval := garmentBackgroundRemoval d;
     garmentSegmentation := garmentSegmentation d;
     totalProcessingTimeMs := totalProcessingTimeMs d;
     originalPersonImageDataUrl := originalPersonImageDataUrl d;
     originalGarmentImageDataUrl := originalGarmentImageDataUrl d;
     personImageAfterBackgroundRemoval := personImageAfterBackgroundRemoval d;
     garmentImageAfterBackgroundRemoval := garmentImageAfterBackgroundRemoval d;
     garmentImageAfterSegmentation := garmentImageAfterSegmentation d;
     finalPersonImageDataUrl := Some person;
     finalGarmentImageDataUrl := Some garment |}.

Definition personFileName : string := "processed-person-bg-removed.png".
Definition garmentFileName : string := "processed-garment-bg-removed.png".

Section WithWorld.
Variable w : World.

Definition M : Type -> Type := Js (Locals * nat).

(** Step 1: remove the background of the person image. *)
Definition personBackgroundStep (requested dbg : bool) (personImageFile : File)
  (personUrl : string) : M string :=
  if requested
  then
    let! personBgResult := with_clock (removeBackground w personImageFile dbg) in
    if BackgroundRemoval.success personBgResult
       && truthy (imageDataUrl personBgResult)
    then
      set_locals (update_steps mark_personBackgroundRemoved) ;!
      (if dbg
       then set_locals
              (update_debugInfo
                 (fun d => set_personImageAfterBackgroundRemoval
                             (imageDataUrl personBgResult)
                             (set_personBackgroundRemoval
                                (BackgroundRemoval.debug personBgResult) d)))
       else ret tt) ;!
      ret (imageDataUrl personBgResult)
    else
      (if dbg && bool_decide (is_Some (BackgroundRemoval.debug personBgResult))
       then set_locals
              (update_debugInfo
                 (set_personBackgroundRemoval (BackgroundRemoval.debug personBgResult)))
       else ret tt) ;!
      ret personUrl
  else ret personUrl.

(** Step 2: remove the background of the garment image. *)
Definition garmentBackgroundStep (requested dbg : bool) (garmentUrl : string)
  : M string :=
  if requested
  then
    let! garmentFile := with_clock (dataUrlToFile w garmentUrl "garment.png") in
    let! garmentBgResult := with_clock (removeBackground w garmentFile dbg) in
    if BackgroundRemoval.success garmentBgResult
       && truthy (imageDataUrl garmentBgResult)
    then
      set_locals (update_steps mark_garmentBackgroundRemoved) ;!
      (if dbg
       then set_locals
              (update_debugInfo
                 (fun d => set_garmentImageAfterBackgroundRemoval
                             (imageDataUrl garmentBgResult)
                             (set_garmentBackgroundRemoval
                                (BackgroundRemoval.debug garmentBgResult) d)))
       else ret tt) ;!
      ret (imageDataUrl garmentBgResult)
    else
      (if dbg && bool_decide (is_Some (BackgroundRemoval.debug garmentBgResult))
       then set_locals
              (update_debugInfo
                 (set_garmentBackgroundRemoval (BackgroundRemoval.debug garmentBgResult)))
       else ret tt) ;!
      ret garmentUrl
  else ret garmentUrl.

(** Step 3: segment the garment.  A garment type is a non-empty string,
    so [segmentGarment && garmentType] is [segmentGarment]. *)
Definition segmentationStep (requested : bool) (type : GarmentType)
  (useAdvanced dbg : bool) (garmentUrl : string) : M string :=
  if requested
  then
    let! segmentedResult :=
      with_clock (getSegmentedGarment w garmentUrl type useAdvanced dbg) in
    if GarmentSegmentation.success segmentedResult
    then
      set_locals (update_steps mark_garmentSegmented) ;!
      (if dbg
       then set_locals
              (update_debugInfo
                 (set_garmentSegmentation
                    (GarmentSegmentation.debug segmentedResult)
                    (segmentedImageDataUrl segmentedResult)))
       else ret tt) ;!
      ret (segmentedImageDataUrl segmentedResult)
    else ret garmentUrl
  else ret garmentUrl.

(** The verification and the construction of the bundle, from the
    comment "Convert processed images back to File objects" to the
    [return] of the [try] block. *)
Definition verifyAndBundle (removePerson removeGarment dbg : bool) (startTime : Q)
  (personUrl garmentUrl : string) : M PreprocessingResult :=
  let! l := get_locals in
  (if removePerson && negb (personBackgroundRemoved (l_steps l))
   then throw (Error "Person background removal failed. Cannot proceed with original image.")
   else ret tt) ;!
  (if removeGarment && negb (garmentBackgroundRemoved (l_steps l))
   then throw (Error "Garment background removal failed. Cannot proceed with original image.")
   else ret tt) ;!
  let! processedPerson := with_clock (dataUrlToFile w personUrl personFileName) in
  let! processedGarment := with_clock (dataUrlToFile w garmentUrl garmentFileName) in
  (if personBackgroundRemoved (l_steps l) then ret tt
   else throw (Error "CRITICAL: Person image background was NOT removed - cannot use original image!")) ;!
  (if garmentBackgroundRemoved (l_steps l) then ret tt
   else throw (Error "CRITICAL: Garment image background was NOT removed - cannot use original image!")) ;!
  let! endTime := with_clock (performance_now w) in
  set_locals (update_debugInfo
                (set_totalProcessingTimeMs (Qround_to 100 (endTime - startTime)))) ;!
  (if dbg then set_locals (update_debugInfo (set_finals personUrl garmentUrl))
   else ret tt) ;!
  let! l' := get_locals in
  ret {| processedPersonImage := processedPerson;
         processedGarmentImage := processedGarment;
         personImageDataUrl := personUrl;
         garmentImageDataUrl := garmentUrl;
         success := true;
         error := None;
         steps := l_steps l';
         debug := if dbg then Some (l_debugInfo l') else None |}.

(** [await fileToDataUrl(file).catch(() => '')] *)
Definition fileToDataUrlOrEmpty (file : File) : Js nat string :=
  try_catch (fileToDataUrl w file) (fun _ => ret "").

Definition preprocessImages (personImageFile garmentImageFile : File)
  (options : PreprocessingOptions) : Js nat PreprocessingResult :=
  let removePerson := default true (removePersonBackground options) in
  let removeGarment := default true (removeGarmentBackground options) in
  let segment := default true (segmentGarment options) in
  let type := default completeOutfit (garmentType options) in
  let useAdvanced := default false (useAdvancedSegmentation options) in
  let dbg := default false (includeDebug options) in
  let! startTime := performance_now w in
  with_locals initialLocals
    (try_catch
       (let! personUrl0 := with_clock (fileToDataUrl w personImageFile) in
        let! garmentUrl0 := with_clock (fileToDataUrl w garmentImageFile) in
        (if dbg
         then set_locals (update_debugInfo (set_originals personUrl0 garmentUrl0))
         else ret tt) ;!
        let! personUrl :=
          personBackgroundStep removePerson dbg personImageFile personUrl0 in
        let! garmentUrl1 := garmentBackgroundStep removeGarment dbg garmentUrl0 in
        let! garmentUrl := segmentationStep segment type useAdvanced dbg garmentUrl1 in
        verifyAndBundle removePerson removeGarment dbg startTime personUrl garmentUrl)
       (fun e =>
          let! endTime := with_clock (performance_now w) in
          set_locals (update_debugInfo
                        (set_totalProcessingTimeMs (Qround_to 100 (endTime - startTime)))) ;!
          let! personUrl := with_clock (fileToDataUrlOrEmpty personImageFile) in
          let! garmentUrl := with_clock (fileToDataUrlOrEmpty garmentImageFile) in
          let! l := get_locals in
          ret {| processedPersonImage := personImageFile;
                 processedGarmentImage := garmentImageFile;
                 personImageDataUrl := personUrl;
                 garmentImageDataUrl := garmentUrl;
                 success := false;
                 error := Some (or_else (message e) "Preprocessing failed");
                 steps := l_steps l;
                 debug := if dbg then Some (l_debugInfo l) else None |})).

End WithWorld.
End PreprocessingPipeline.

(** ** backgroundCompositing.ts *)

Module BackgroundCompositing.

Inductive BackgroundType : Type := white | studio | fitting_room.

#[global] Instance BackgroundType_eq_dec : EqDecision BackgroundType.
Proof. solve_decision. Defined.

Definition backgroundName (b : BackgroundType) : string :=
  match b with
  | white => "white"
  | studio => "studio"
  | fitting_room => "fitting-room"
  end.

Record BackgroundCompositingResult : Type := mkCompositingResult {
  compositedImageDataUrl : string;
  compositedImageFile : File;
  success : bool;
  error : option string;
}.

(** [for (let i = 3; i < data.length; i += 4) if (data[i] < 255) ...] *)
Fixpoint hasTransparencyFrom (fuel i : nat) (data : list Z) : bool :=
  match fuel with
  | O => false
  | S fuel' =>
      match data !! i with
      | Some a => if (a <? 255)%Z then true
                  else hasTransparencyFrom fuel' (i + 4)%nat data
      | None => false
      end
  end.

Definition hasTransparency (data : list Z) : bool :=
  hasTransparencyFrom (length data) 3%nat data.

(** The canvas size chosen in "Determine canvas dimensions". *)
Definition canvasSize (foregroundWidth foregroundHeight : number)
  (backgroundImg : option HTMLImageElement) : number * number :=
  match backgroundImg with
  | Some bg =>
      let bgAspect := div (of_Z (img_width bg)) (of_Z (img_height bg)) in
      let fgAspect := div foregroundWidth foregroundHeight in
      if gtb bgAspect fgAspect
      then (mul foregroundHeight bgAspect, foregroundHeight)
      else (foregroundWidth, div foregroundWidth bgAspect)
  | None => (foregroundWidth, foregroundHeight)
  end.

(** The call that paints the backdrop in "Draw background". *)
Definition drawBackground (backgroundType : BackgroundType)
  (backgroundImg : option HTMLImageElement) (canvasWidth canvasHeight : number)
  : DrawCall :=
  if bool_decide (backgroundType = white)
  then FillRect "#FFFFFF" (of_Z 0) (of_Z 0) canvasWidth canvasHeight
  else
    match backgroundImg with
    | Some bg =>
        let scale := max (div canvasWidth (of_Z (img_width bg)))
                         (div canvasHeight (of_Z (img_height bg))) in
        let scaledWidth := mul (of_Z (img_width bg)) scale in
        let scaledHeight := mul (of_Z (img_height bg)) scale in
        let x := div (sub canvasWidth scaledWidth) (of_Z 2) in
        let y := div (sub canvasHeight scaledHeight) (of_Z 2) in
        DrawImage bg x y scaledWidth scaledHeight
    | None => FillRect "#FFFFFF" (of_Z 0) (of_Z 0) canvasWidth canvasHeight
    end.

(** The call that paints the foreground, centred. *)
Definition drawForeground (foregroundImg : HTMLImageElement)
  (canvasWidth canvasHeight : number) : DrawCall :=
  let foregroundWidth := of_Z (img_width foregroundImg) in
  let foregroundHeight := of_Z (img_height foregroundImg) in
  let foregroundX := div (sub canvasWidth foregroundWidth) (of_Z 2) in
  let foregroundY := div (sub canvasHeight foregroundHeight) (of_Z 2) in
  DrawImage foregroundImg foregroundX foregroundY foregroundWidth foregroundHeight.

Section WithWorld.
Variable w : World.

Definition loadBackgroundImage (backgroundType : BackgroundType)
  : Js nat (option HTMLImageElement) :=
  try_catch
    (if bool_decide (backgroundType = white) then ret None
     else
       let imagePath := "/backgrounds/" +:+ backgroundName backgroundType +:+ ".jpg" in
       let! img := loadImage w imagePath in
       ret (Some img))
    (fun _ => ret None).

(** The first half of [compositeImageWithBackground]: load the foreground
    and, when none of its pixels is transparent, try to replace it by its
    background-removed version. *)
Definition resolveForeground (imageDataUrl : string) : Js nat HTMLImageElement :=
  let! foregroundImg := loadImage w imageDataUrl in
  let! tempCtx := getContext2d w in
  if tempCtx
  then
    let tempCanvas := {| cv_width := img_width foregroundImg;
                         cv_height := img_height foregroundImg;
                         cv_data := img_data foregroundImg |} in
    let! imageData := getImageData tempCanvas in
    if negb (hasTransparency (id_data imageData))
    then
      try_catch
        (let! imageFile := dataUrlToFile w imageDataUrl "gemini-output.png" in
         let! bgRemovalResult := removeBackground w imageFile false in
         if BackgroundRemoval.success bgRemovalResult
            && truthy (BackgroundRemoval.imageDataUrl bgRemovalResult)
         then loadImage w (BackgroundRemoval.imageDataUrl bgRemovalResult)
         else ret foregroundImg)
        (fun _ => ret foregroundImg)
    else ret foregroundImg
  else ret foregroundImg.

(** The second half, from "Determine canvas dimensions" to the drawing of
    the foreground. *)
Definition composeCanvas (foregroundImg : HTMLImageElement)
  (backgroundType : BackgroundType) : Js nat DrawnCanvas :=
  let foregroundWidth := of_Z (img_width foregroundImg) in
  let foregroundHeight := of_Z (img_height foregroundImg) in
  let! backgroundImg :=
    if bool_decide (backgroundType = white) then ret None
    else loadBackgroundImage backgroundType in
  let '(canvasWidth, canvasHeight) :=
    canvasSize foregroundWidth foregroundHeight backgroundImg in
  let! ctx := getContext2d w in
  if negb ctx then throw (Error "Could not get canvas context")
  else
    ret {| dc_width := canvas_dimension 300 canvasWidth;
           dc_height := canvas_dimension 150 canvasHeight;
           dc_calls :=
             [ drawBackground backgroundType backgroundImg canvasWidth canvasHeight;
               drawForeground foregroundImg canvasWidth canvasHeight ] |}.

Definition drawnCanvasToFile (canvas : DrawnCanvas) (fileName mimeType : string)
  : Js nat File :=
  let! blob := ask_total (fun n => drawn_to_blob_at w n canvas mimeType) in
  match blob with
  | Some b => ret (new_File b fileName mimeType)
  | None => throw (Error "Failed to convert canvas to blob")
  end.

Definition compositeImageWithBackground (imageDataUrl : string)
  (backgroundType : BackgroundType) : Js nat BackgroundCompositingResult :=
  try_catch
    (let! foregroundImg := resolveForeground imageDataUrl in
     let! compositeCanvas := composeCanvas foregroundImg backgroundType in
     let dataUrl := drawn_to_data_url w compositeCanvas "image/png" in
     let! file :=
       drawnCanvasToFile compositeCanvas
         ("composited-" +:+ backgroundName backgroundType +:+ ".png") "image/png" in
     ret {| compositedImageDataUrl := dataUrl;
            compositedImageFile := file;
            success := true;
            error := None |})
    (fun e =>
       ret {| compositedImageDataUrl := "";
              compositedImageFile :=
                {| file_name := "error.png"; file_type := ""; file_bytes := [] |};
              success := false;
              error := Some (or_else (message e) "Background compositing failed") |}).

End WithWorld.
End BackgroundCompositing.

(** ** imageProcessing.ts: the base64 helpers *)

Module Base64Helpers.

(** [s.split(sep)] for a separator of one character. *)
Fixpoint split (sep : ascii) (s : string) : list string :=
  match s with
  | EmptyString => [EmptyString]
  | String c rest =>
      if Ascii.eqb c sep then EmptyString :: split sep rest
      else
        match split sep rest with
        | first :: others => String c first :: others
        | [] => [String c EmptyString]
        end
  end.

(** [s.includes(c)] for a single character. *)
Fixpoint includes_char (c : ascii) (s : string) : bool :=
  match s with
  | EmptyString => false
  | String c' rest => Ascii.eqb c' c || includes_char c rest
  end.

Definition comma : ascii := ","%char.

Section WithWorld.
Variable w : World.

(** [dataUrl.split(',')[1]], [undefined] when the URL has no comma. *)
Definition fileToBase64 (file : File) : Js nat (option string) :=
  let! dataUrl := fileToDataUrl w file in
  ret (split comma dataUrl !! 1%nat).

End WithWorld.

(** [base64ToDataUrl(base64, mimeType = 'image/png')] *)
Definition base64ToDataUrl (base64 : string) (mimeType : option string) : string :=
  "data:" +:+ default "image/png" mimeType +:+ ";base64," +:+ base64.

End Base64Helpers.

(** ** app/api/remove-background/route.ts *)

Module RemoveBackgroundRoute.

(** [Buffer.from(arrayBuffer).toString('base64')] *)
Definition base64Alphabet : string :=
  "ABCDEFGHIJKLMNOPQRSTUVWXYZabcdefghijklmnopqrstuvwxyz0123456789+/".

Definition base64Digit (n : N) : ascii :=
  default "A"%char (String.get (N.to_nat n) base64Alphabet).

Fixpoint toBase64 (bytes : list Byte.byte) : string :=
  match bytes with
  | [] => ""
  | [a] =>
      let x := Byte.to_N a in
      String (base64Digit (x / 4))
        (String (base64Digit (x mod 4 * 16)) "==")
  | [a; b] =>
      let x := Byte.to_N a in
      let y := Byte.to_N b in
      String (base64Digit (x / 4))
        (String (base64Digit (x mod 4 * 16 + y / 16))
           (String (base64Digit (y mod 16 * 4)) "="))
  | a :: b :: c :: rest =>
      let x := Byte.to_N a in
      let y := Byte.to_N b in
      let z := Byte.to_N c in
      String (base64Digit (x / 4))
        (String (base64Digit (x mod 4 * 16 + y / 16))
           (String (base64Digit (y mod 16 * 4 + z / 64))
              (String (base64Digit (z mod 64)) (toBase64 rest))))
  end%N.

(** A field of the submitted form: a file or a string. *)
Inductive FormDataEntryValue : Type :=
| FileEntry (file : File)
| StringEntry (value : string).

(** The request, as far as the route reads it: the outcome of
    [request.formData()]. *)
Record NextRequest : Type := mkRequest {
  formData : Completion (list (string * FormDataEntryValue));
}.

(** [formData.get(name)]: the first value of that name, or [null]. *)
Definition get (name : string) (entries : list (string * FormDataEntryValue))
  : option FormDataEntryValue :=
  snd <$> List.find (fun entry => String.eqb (fst entry) name) entries.

Inductive ResponseBody : Type :=
| JsonError (error : string)
| ImageBuffer (bytes : list Byte.byte).

Record NextResponse : Type := mkNextResponse {
  status : Z;
  contentType : string;
  body : ResponseBody;
}.

(** [NextResponse.json({ error }, { status })] *)
Definition json (error : string) (status : Z) : NextResponse :=
  {| status := status; contentType := "application/json"; body := JsonError error |}.

(** What the server's own [fetch(output)] yields. *)
Record ImageResponse : Type := mkImageResponse {
  ok : bool;
  image_status : Z;
  blob : Completion (list Byte.byte);
}.

Record Server : Type := mkServer {
  (** [process.env.REPLICATE_API_TOKEN] *)
  REPLICATE_API_TOKEN : option string;
  (** [replicate.run(model, { input: { image } })] with the given token *)
  run_at : nat -> string -> string -> string -> Completion string;
  (** [fetch(output)] *)
  fetch_at : nat -> string -> Completion ImageResponse;
}.

Definition model : string :=
  "851-labs/background-remover:a029dff38972b5fda4ec5d75d7d1cd25aeff621d2cf4946a41055d7db66b80bc".

Definition POST (server : Server) (request : NextRequest) : Js nat NextResponse :=
  try_catch
    (let apiToken := REPLICATE_API_TOKEN server in
     if negb (truthy (default "" apiToken))
     then ret (json "Replicate API token not configured" 500)
     else
       let! formData := settle (formData request) in
       match get "image" formData with
       | None => ret (json "No image file provided" 400)
       | Some (StringEntry value) =>
           if negb (truthy value) then ret (json "No image file provided" 400)
           else throw (Error "imageFile.arrayBuffer is not a function")
       | Some (FileEntry imageFile) =>
           let base64 := toBase64 (file_bytes imageFile) in
           let mimeType := file_type imageFile in
           let dataUrl := "data:" +:+ mimeType +:+ ";base64," +:+ base64 in
           let! output :=
             ask (fun n => run_at server n (default "" apiToken) model dataUrl) in
           let! imageResponse := ask (fun n => fetch_at server n output) in
           (if negb (ok imageResponse)
            then throw (Error ("Failed to fetch processed image: "
                               +:+ pretty (image_status imageResponse)))
            else ret tt) ;!
           let! imageBuffer := settle (blob imageResponse) in
           ret {| status := 200; contentType := "image/png";
                  body := ImageBuffer imageBuffer |}
       end)
    (fun error =>
       ret (json (or_else (message error) "Background removal failed") 500)).

End RemoveBackgroundRoute.

(** ** garmentSegmentation.ts: [segmentGarmentAdvanced] *)

Module AdvancedSegmentation.

Import GarmentSegmentation.

(** The [switch] that decides whether row [y] belongs to the garment. *)
Definition shouldInclude (garmentType : GarmentType)
  (topRegionEnd bottomRegionStart y : Z) : bool :=
  match garmentType with
  | top => (y <? topRegionEnd)%Z
  | bottom => (bottomRegionStart <=? y)%Z
  | fullBody | completeOutfit => true
  end.

(** [Math.floor(height * 0.6)] and [Math.floor(height * 0.4)] *)
Definition topRegionEnd (height : Z) : Z := Qfloor (inject_Z height * 0.6).
Definition bottomRegionStart (height : Z) : Z := Qfloor (inject_Z height * 0.4).

(** [new Uint8Array(width * height)] and the two nested loops that fill
    it, [y] from 0 to [height - 1], [x] from 0 to [width - 1]. *)
Definition buildMask (garmentType : GarmentType) (width height : Z) : list Z :=
  foldl
    (fun mask y =>
       foldl
         (fun mask' x =>
            let index := Z.to_nat (y * width + x) in
            <[index := if shouldInclude garmentType (topRegionEnd height)
                            (bottomRegionStart height) y
                       then 255%Z else 0%Z]> mask')
         mask (seqZ 0 width))
    (list.replicate (Z.to_nat (width * height)) 0%Z)
    (seqZ 0 height).

(** [for (let i = 0; i < mask.length; i++)
       if (mask[i] === 0) resultData[i * 4 + 3] = 0] *)
Definition applyMask (mask resultData : list Z) : list Z :=
  foldl
    (fun data i =>
       if bool_decide (mask !! i = Some 0%Z) then <[(i * 4 + 3)%nat := 0%Z]> data
       else data)
    resultData (seq 0 (length mask)).

Section WithWorld.
Variable w : World.

Definition segmentGarmentAdvanced (imageDataUrl : string) (garmentType : GarmentType)
  : Js nat SegmentationResult :=
  try_catch
    (let! img := loadImage w imageDataUrl in
     let! canvas := imageToCanvas w img in
     let! ctx := getContext2d w in
     (if negb ctx then throw (Error "Could not get canvas context") else ret tt) ;!
     let width := cv_width canvas in
     let height := cv_height canvas in
     let! imageData := getImageData canvas in
     let mask := buildMask garmentType width height in
     let! resultCtx := getContext2d w in
     (if negb resultCtx then throw (Error "Could not get result canvas context")
      else ret tt) ;!
     let resultCanvas :=
       {| cv_width := width; cv_height := height; cv_data := img_data img |} in
     let! resultImageData := getImageData resultCanvas in
     let resultData := applyMask mask (id_data resultImageData) in
     let resultCanvas' :=
       putImageData resultCanvas
         {| id_width := id_width resultImageData;
            id_height := id_height resultImageData;
            id_data := resultData |} in
     let resultDataUrl := canvasToDataUrl w resultCanvas' "image/png" in
     ret {| segmentedImageDataUrl := resultDataUrl;
            success := true;
            error := None;
            debug := None |})
    (fun e => ret {| segmentedImageDataUrl := "";
                     success := false;
                     error := Some (or_else (message e) "Advanced segmentation failed");
                     debug := None |}).

End WithWorld.
End AdvancedSegmentation.

(** ** The try-on page [DressYourselfPage] (src/unnamed/part_002) *)

Module DressYourselfPage.

Import GarmentSegmentation Base64Helpers.

(** *** The garment selector *)

(** The state [garmentSelection]. *)
Record GarmentSelection : Type := mkSelection {
  selected_top : bool;
  selected_bottom : bool;
  selected_fullBody : bool;
}.

(** The argument of [handleGarmentSelect]: ['top' | 'bottom' | 'fullBody']. *)
Inductive SelectorButton : Type := topButton | bottomButton | fullBodyButton.

(** The initial state, also set when a new outfit image is chosen. *)
Definition noSelection : GarmentSelection :=
  {| selected_top := false; selected_bottom := false; selected_fullBody := false |}.

Definition handleGarmentSelect (type : SelectorButton) (prev : GarmentSelection)
  : GarmentSelection :=
  match type with
  | fullBodyButton =>
      let isBecomingActive := negb (selected_fullBody prev) in
      {| selected_top := false;
         selected_bottom := false;
         selected_fullBody := isBecomingActive |}
  | topButton =>
      {| selected_top := negb (selected_top prev);
         selected_bottom := selected_bottom prev;
         selected_fullBody := false |}
  | bottomButton =>
      {| selected_top := selected_top prev;
         selected_bottom := negb (selected_bottom prev);
         selected_fullBody := false |}
  end.

(** [isGarmentSelected] in [handleGenerate] *)
Definition isGarmentSelected (garmentSelection : GarmentSelection) : bool :=
  selected_top garmentSelection || selected_bottom garmentSelection
  || selected_fullBody garmentSelection.

(** "Determine garment type from selection" in [handleGenerate] *)
Definition selectedGarmentType (garmentSelection : GarmentSelection) : GarmentType :=
  if selected_fullBody garmentSelection then fullBody
  else if selected_top garmentSelection && selected_bottom garmentSelection
       then completeOutfit
  else if selected_top garmentSelection then top
  else if selected_bottom garmentSelection then bottom
  else completeOutfit.

Definition getSelectionString (garmentSelection : GarmentSelection) : string :=
  if selected_fullBody garmentSelection then "FULL BODY"
  else if selected_top garmentSelection && selected_bottom garmentSelection
       then "FULL-OUTFIT (top + bottom)"
  else if selected_top garmentSelection then "TOP"
  else if selected_bottom garmentSelection then "BOTTOM"
  else "".

(** *** Conversion of a file to a request part *)

(** [inlineData] of a part sent to the generation service. *)
Record InlineData : Type := mkInlineData {
  data : string;
  mimeType : string;
}.

(** [`${prefix}${error.message}`] *)
Definition withMessage (prefix : string) (error : Exn) : Exn :=
  Error (prefix +:+ default "undefined" (message error)).

(** [s.includes(',') ? s.split(',')[1] : s] *)
Definition afterComma (s : string) : option string :=
  if includes_char comma s then split comma s !! 1%nat else Some s.

(** The first match of [/data:([^;]+)/] in [s]: its group. *)
Fixpoint untilSemicolon (s : string) : string :=
  match s with
  | EmptyString => EmptyString
  | String c rest =>
      if Ascii.eqb c ";"%char then EmptyString else String c (untilSemicolon rest)
  end.

Fixpoint skip (n : nat) (s : string) : string :=
  match n, s with
  | S n', String _ rest => skip n' rest
  | _, _ => s
  end.

Fixpoint matchDataMime (s : string) : option string :=
  match s with
  | EmptyString => None
  | String _ rest =>
      let group := untilSemicolon (skip 5 s) in
      if String.prefix "data:" s && truthy group then Some group
      else matchDataMime rest
  end.

Section WithWorld.
Variable w : World.

(** The canvas of [convertFileToOpaqueJpegBase64]: the image, a white
    rectangle over all of it, and the image again. *)
Definition opaqueCanvas (img : HTMLImageElement) : DrawnCanvas :=
  let width := of_Z (img_width img) in
  let height := of_Z (img_height img) in
  {| dc_width := img_width img;
     dc_height := img_height img;
     dc_calls := [ DrawImage img (of_Z 0) (of_Z 0) width height;
                   FillRect "#FFFFFF" (of_Z 0) (of_Z 0) width height;
                   DrawImage img (of_Z 0) (of_Z 0) width height ] |}.

(** The promise is rejected either directly ([reject(...); return], the
    left summand) or through the [catch] block, which prefixes the message
    of whatever was thrown. *)
Definition convertFileToOpaqueJpegBase64 (file : File) : Js nat InlineData :=
  let! result :=
    try_catch (fileToDataUrl w file)
      (fun _ => throw (Error "FileReader error while reading file")) in
  if negb (truthy result) then throw (Error "FileReader returned no result")
  else
    let! settled :=
      try_catch
        (let! img := loadImage w result in
         let! canvas := imageToCanvas w img in
         let! ctx := getContext2d w in
         if negb ctx then ret (inl (Error "Could not get canvas context"))
         else
           let jpegDataUrl := drawn_to_data_url w (opaqueCanvas img) "image/jpeg" in
           let base64Data := afterComma jpegDataUrl in
           if negb (truthy (default "" base64Data))
           then ret (inl (Error "Base64 data is empty after JPEG conversion"))
           else ret (inr {| data := default "" base64Data; mimeType := "image/jpeg" |}))
        (fun error =>
           ret (inl (withMessage "Failed to convert file to opaque JPEG: " error))) in
    match settled with
    | inl error => throw error
    | inr jpegData => ret jpegData
    end.

Definition isPngOrPreprocessed (file : File) : bool :=
  String.eqb (file_type file) "image/png"
  || includes "bg-removed" (file_name file)
  || includes "processed" (file_name file).

Definition fileToGenerativePart (file : File) : Js nat InlineData :=
  if (length (file_bytes file) =? 0)%nat
  then throw (Error "File is empty or invalid")
  else if isPngOrPreprocessed file
  then
    try_catch
      (let! jpegData := convertFileToOpaqueJpegBase64 file in
       ret {| data := data jpegData; mimeType := mimeType jpegData |})
      (fun error => throw (withMessage "Failed to convert PNG to JPEG: " error))
  else
    let! result :=
      try_catch (fileToDataUrl w file)
        (fun _ => throw (Error "FileReader error while reading file")) in
    if negb (truthy result) then throw (Error "FileReader returned no result")
    else
      let base64Data := afterComma result in
      if negb (truthy (default "" base64Data)) then throw (Error "Base64 data is empty")
      else
        let mimeType0 := or_else (Some (file_type file)) "image/jpeg" in
        let mimeType1 :=
          if String.prefix "data:" result
          then default mimeType0 (matchDataMime result)
          else mimeType0 in
        ret {| data := default "" base64Data;
               mimeType := or_else (Some mimeType1) "image/jpeg" |}.

End WithWorld.
End DressYourselfPage.

(** ** The compositor that clears a solid background itself
       (src/unnamed/part_007, a second version of backgroundCompositing.ts) *)

Module SolidBackgroundCompositing.

Import BackgroundCompositing.

(** The test of the loop that clears a solid background. *)
Definition isSolidBackground (r g b : Z) : bool :=
  Qgtb (brightness r g b) 240
  || ((Z.abs (r - g) <? 10)%Z && (Z.abs (g - b) <? 10)%Z
      && Qgtb (brightness r g b) 200).

(** One iteration at offset [i]; a sample read past the end of the array
    is [undefined], every comparison is then false. *)
Definition clearPixelAt (i : nat) (data : list Z) : list Z :=
  match data !! i, data !! (i + 1)%nat, data !! (i + 2)%nat with
  | Some r, Some g, Some b =>
      if isSolidBackground r g b then <[(i + 3)%nat := 0%Z]> data else data
  | _, _, _ => data
  end.

(** [for (let i = 0; i < data.length; i += 4) { ... }] *)
Fixpoint clearFrom (fuel i : nat) (data : list Z) : list Z :=
  match fuel with
  | O => data
  | S fuel' =>
      if (i <? length data)%nat
      then clearFrom fuel' (i + 4)%nat (clearPixelAt i data)
      else data
  end.

Definition removeSolidBackground (data : list Z) : list Z :=
  clearFrom (length data) 0%nat data.

Section WithWorld.
Variable w : World.

(** The first half of this [compositeImageWithBackground]: the
    foreground is reloaded from the canvas whose solid background was
    cleared. *)
Definition resolveForeground (imageDataUrl : string) : Js nat HTMLImageElement :=
  let! foregroundImg := loadImage w imageDataUrl in
  let! tempCtx := getContext2d w in
  if tempCtx
  then
    let tempCanvas := {| cv_width := img_width foregroundImg;
                         cv_height := img_height foregroundImg;
                         cv_data := img_data foregroundImg |} in
    let! imageData := getImageData tempCanvas in
    if negb (hasTransparency (id_data imageData))
    then
      let data := removeSolidBackground (id_data imageData) in
      let tempCanvas' :=
        putImageData tempCanvas {| id_width := id_width imageData;
                                   id_height := id_height imageData;
                                   id_data := data |} in
      let processedDataUrl := canvasToDataUrl w tempCanvas' "image/png" in
      loadImage w processedDataUrl
    else ret foregroundImg
  else ret foregroundImg.

Definition compositeImageWithBackground (imageDataUrl : string)
  (backgroundType : BackgroundType) : Js nat BackgroundCompositingResult :=
  try_catch
    (let! foregroundImg := resolveForeground imageDataUrl in
     let! compositeCanvas := composeCanvas w foregroundImg backgroundType in
     let dataUrl := drawn_to_data_url w compositeCanvas "image/png" in
     let! file :=
       drawnCanvasToFile w compositeCanvas
         ("composited-" +:+ backgroundName backgroundType +:+ ".png") "image/png" in
     ret {| compositedImageDataUrl := dataUrl;
            compositedImageFile := file;
            success := true;
            error := None |})
    (fun e =>
       ret {| compositedImageDataUrl := "";
              compositedImageFile :=
                {| file_name := "error.png"; file_type := ""; file_bytes := [] |};
              success := false;
              error := Some (or_else (message e) "Background compositing failed") |}).

End WithWorld.
End SolidBackgroundCompositing.

(** ** Sample browsers *)

Definition pngBlob : Blob := {| blob_type := "image/png"; blob_bytes := [] |}.

(** A 4 x 4 opaque image: white and black columns alternate in its upper
    half, its lower half is black. *)
Definition sampleImage : HTMLImageElement :=
  {| img_width := 4;
     img_height := 4;
     img_data :=
       flat_map
         (fun y => flat_map
                     (fun x => if (y <? 2)%nat && Nat.odd x
                               then [255; 255; 255; 255]%Z else [0; 0; 0; 255]%Z)
                     (seq 0 4))
         (seq 0 4) |}.

Definition samplePerson : File :=
  {| file_name := "person.jpg"; file_type := "image/jpeg"; file_bytes := [] |}.

Definition sampleGarment : File :=
  {| file_name := "shirt.jpg"; file_type := "image/jpeg"; file_bytes := [] |}.

(** The remote service answers with a PNG. *)
Definition removedResponse : Response :=
  {| resp_ok := true; resp_status := 200; resp_json := None;
     resp_blob := Normal pngBlob |}.

(** The answer of the route when no API token is configured. *)
Definition noTokenResponse : Response :=
  {| resp_ok := false; resp_status := 500;
     resp_json := Some (JsonObject (Some "Replicate API token not configured"));
     resp_blob := Throw (Error "body is not an image") |}.

(** A browser in which files, images and canvases all work; [response] is
    what the background-removal route answers and [canvas] tells whether
    2D contexts can be obtained. *)
Definition browser (response : Response) (canvas : bool) : World :=
  {| now_at := fun n => inject_Z (Z.of_nat n);
     read_as_data_url_at := fun _ f => Normal ("data:" +:+ file_type f +:+ ";base64,AAAA");
     fetch_blob_at := fun _ _ => Normal pngBlob;
     post_image_at := fun _ _ _ => Normal response;
     image_at := fun _ _ => Normal sampleImage;
     context2d_at := fun _ => canvas;
     object_url_at := fun n _ => "blob:" +:+ pretty n;
     to_data_url := fun _ mime => "data:" +:+ mime +:+ ";base64,BBBB";
     to_blob_at := fun _ _ mime => Some {| blob_type := mime; blob_bytes := [] |};
     drawn_to_data_url := fun _ mime => "data:" +:+ mime +:+ ";base64,CCCC";
     drawn_to_blob_at := fun _ _ mime => Some {| blob_type := mime; blob_bytes := [] |} |}.

Definition onlineWorld : World := browser removedResponse true.
Definition noTokenWorld : World := browser noTokenResponse true.

(** A browser in which nothing can be read or fetched. *)
Definition offlineWorld : World :=
  {| now_at := fun n => inject_Z (Z.of_nat n);
     read_as_data_url_at := fun _ _ => Throw {| message := None |};
     fetch_blob_at := fun _ _ => Throw (Error "Failed to fetch");
     post_image_at := fun _ _ _ => Throw (Error "Failed to fetch");
     image_at := fun _ _ => Throw {| message := None |};
     context2d_at := fun _ => true;
     object_url_at := fun n _ => "blob:" +:+ pretty n;
     to_data_url := fun _ mime => "data:" +:+ mime +:+ ";base64,BBBB";
     to_blob_at := fun _ _ _ => None;
     drawn_to_data_url := fun _ mime => "data:" +:+ mime +:+ ";base64,CCCC";
     drawn_to_blob_at := fun _ _ _ => None |}.

(** The options the try-on page passes. *)
Definition pageOptions (type : GarmentSegmentation.GarmentType) (dbg : bool)
  : PreprocessingPipeline.PreprocessingOptions :=
  {| PreprocessingPipeline.removePersonBackground := Some true;
     PreprocessingPipeline.removeGarmentBackground := Some true;
     PreprocessingPipeline.segmentGarment := Some true;
     PreprocessingPipeline.garmentType := Some type;
     PreprocessingPipeline.useAdvancedSegmentation := Some false;
     PreprocessingPipeline.includeDebug := Some dbg |}.

(** The page's options with the person's background left in place. *)
Definition keepPersonBackground : PreprocessingPipeline.PreprocessingOptions :=
  {| PreprocessingPipeline.removePersonBackground := Some false;
     PreprocessingPipeline.removeGarmentBackground := Some true;
     PreprocessingPipeline.segmentGarment := Some true;
     PreprocessingPipeline.garmentType := Some GarmentSegmentation.top;
     PreprocessingPipeline.useAdvancedSegmentation := Some false;
     PreprocessingPipeline.includeDebug := Some false |}.





(** The image of scenario A: 100 x 100, opaque, a red square of 60 x 60 in
    the middle of a border of brightness 250. *)
Definition inCenter (x y : nat) : bool :=
  ((20 <=? x) && (x <? 80) && (20 <=? y) && (y <? 80))%nat.
Definition scenarioPixel (x y : nat) : list Z :=
  if inCenter x y then [255; 0; 0; 255]%Z else [250; 250; 250; 255]%Z.
Definition scenarioImage : list Z :=
  flat_map (fun y => flat_map (fun x => scenarioPixel x y) (seq 0 100)) (seq 0 100).


(** A 1 x 1 opaque black image, and the online browser decoding every
    image source to it. *)
Definition darkImage : HTMLImageElement :=
  {| img_width := 1; img_height := 1; img_data := [0; 0; 0; 255]%Z |}.

Definition darkWorld : World :=
  {| now_at := now_at onlineWorld;
     read_as_data_url_at := read_as_data_url_at onlineWorld;
     fetch_blob_at := fetch_blob_at onlineWorld;
     post_image_at := post_image_at onlineWorld;
     image_at := fun _ _ => Normal darkImage;
     context2d_at := context2d_at onlineWorld;
     object_url_at := object_url_at onlineWorld;
     to_data_url := to_data_url onlineWorld;
     to_blob_at := to_blob_at onlineWorld;
     drawn_to_data_url := drawn_to_data_url onlineWorld;
     drawn_to_blob_at := drawn_to_blob_at onlineWorld |}.

(** A photograph that is not empty. *)
Definition samplePhoto : File :=
  {| file_name := "photo.jpg"; file_type := "image/jpeg";
     file_bytes := [Byte.xff; Byte.xd8] |}.

(** A server on which no API token is configured. *)
Definition noTokenServer : RemoveBackgroundRoute.Server :=
  {| RemoveBackgroundRoute.REPLICATE_API_TOKEN := None;
     RemoveBackgroundRoute.run_at := fun _ _ _ _ => Throw (Error "Unauthenticated");
     RemoveBackgroundRoute.fetch_at := fun _ _ => Throw (Error "Failed to fetch") |}.

(** * Vocabulary of the properties *)

(** [outcome m s N T]: started in [s], [m] either returns a value and a
    state satisfying [N] or throws an exception in a state satisfying [T]. *)
Definition outcome {S A} (m : Js S A) (s : S)
  (N : A -> S -> Prop) (T : Exn -> S -> Prop) : Prop :=
  match m s with
  | (Normal a, s') => N a s'
  | (Throw e, s') => T e s'
  end.

(** [returns m s N]: [m] does not throw and its result satisfies [N]. *)
Definition returns {S A} (m : Js S A) (s : S) (N : A -> S -> Prop) : Prop :=
  outcome m s N (fun _ _ => False).


Section RemovalVocabulary.
Import BackgroundRemoval.

(** The same rule written pixel by pixel, four samples at a time. *)
Fixpoint lightenChunks (data : list Z) : list Z :=
  match data with
  | r :: g :: b :: a :: rest =>
      r :: g :: b :: (if Qgtb (brightness r g b) 240 then 0%Z else a)
        :: lightenChunks rest
  | _ => data
  end.

(** What a failed attempt looks like: no image, a message, and with debug
    enabled the message as the only warning. *)
Definition failedAttempt (dbg : bool) (r : BackgroundRemovalResult) : Prop :=
  imageDataUrl r = "" /\
  exists msg, error r = Some msg /\
    if dbg then exists d, debug r = Some d /\ warnings d = Some [msg]
    else debug r = None.

(** A background-removal result that the pipeline accepts for [file]. *)
Definition removedFrom (w : World) (file : File) (dbg : bool) (n : nat) (url : string) : Prop :=
  exists bg n',
    removeBackground w file dbg n = (Normal bg, n')
    /\ BackgroundRemoval.success bg = true
    /\ truthy url = true
    /\ url = imageDataUrl bg.

End RemovalVocabulary.


(** The image behind [url] decodes at time [n], to a non-empty image, and
    the two requests for a 2D context that follow are granted. *)
Definition decodes (w : World) (url : string) (n : nat) (img : HTMLImageElement) : Prop :=
  image_at w n url = Normal img
  /\ context2d_at w (S n) = true
  /\ context2d_at w (S (S n)) = true
  /\ (0 < img_width img)%Z
  /\ (0 < img_height img)%Z.


Section PipelineVocabulary.
Import GarmentSegmentation PreprocessingPipeline.

Definition failedBundle (person garment : File) (r : PreprocessingResult) : Prop :=
  success r = false
  /\ processedPersonImage r = person
  /\ processedGarmentImage r = garment
  /\ exists msg, error r = Some msg /\ truthy msg = true.

Definition verifiedBundle (w : World) (person garment : File) (options : PreprocessingOptions)
  (n : nat) (r : PreprocessingResult) : Prop :=
  let dbg := default false (includeDebug options) in
  success r = true
  /\ error r = None
  /\ personBackgroundRemoved (steps r) = true
  /\ garmentBackgroundRemoved (steps r) = true
  /\ default true (removePersonBackground options) = true
  /\ default true (removeGarmentBackground options) = true
  /\ removedFrom w person dbg (3 + n) (personImageDataUrl r)
  /\ (exists garmentUrl0 garmentFile m1 m2,
        fileToDataUrl w garment (2 + n) = (Normal garmentUrl0, (3 + n)%nat)
        /\ dataUrlToFile w garmentUrl0 "garment.png" m1 = (Normal garmentFile, m2)
        /\ removedFrom w garmentFile dbg m2 (garmentImageDataUrl r))
  /\ (exists m m', dataUrlToFile w (personImageDataUrl r) personFileName m
                   = (Normal (processedPersonImage r), m'))
  /\ (exists m m', dataUrlToFile w (garmentImageDataUrl r) garmentFileName m
                   = (Normal (processedGarmentImage r), m'))
  /\ (garmentSegmented (steps r) = true -> default true (segmentGarment options) = true).

End PipelineVocabulary.

Section CompositorVocabulary.
Import BackgroundCompositing.


End CompositorVocabulary.

Section EdgeVocabulary.
Import GarmentSegmentation.

(** The counters of [analyzeEdgeDensity] stay ordered: no more edges than
    pixels in either half. *)
Definition orderedCounts (c : EdgeCounts) : Prop :=
  (0 <= topEdges c <= topPixels c)%Z /\ (0 <= bottomEdges c <= bottomPixels c)%Z.


End EdgeVocabulary.

Section FallbackVocabulary.
Import BackgroundRemoval.

(** No pixel of [data] is light enough for the local fallback. *)
Definition noLightPixel (data : list Z) : Prop :=
  forall (p : nat) (r g b : Z),
    data !! (4 * p)%nat = Some r ->
    data !! (4 * p + 1)%nat = Some g ->
    data !! (4 * p + 2)%nat = Some b ->
    (r + g + b <= 720)%Z.

(** What every result of an attempt with method [m] looks like. *)
Definition attemptShape (m : Method) (dbg : bool) (r : BackgroundRemovalResult) : Prop :=
  (success r = true -> error r = None)
  /\ (success r = false ->
      imageDataUrl r = "" /\ exists msg, error r = Some msg /\ truthy msg = true)
  /\ (if dbg
      then exists d, debug r = Some d /\ method d = m
                     /\ (success r = false ->
                         originalDimensions d = {| dim_width := 0; dim_height := 0 |}
                         /\ processedDimensions d = {| dim_width := 0; dim_height := 0 |})
      else debug r = None).

End FallbackVocabulary.

(** *** The route seen from the browser *)

Section RouteVocabulary.
Import RemoveBackgroundRoute.

(** The request [removeBackgroundWithReplicate] sends:
    [formData.append('image', imageFile)]. *)
Definition upload (imageFile : File) : NextRequest :=
  {| formData := Normal [("image", FileEntry imageFile)] |}.

(** [response] is what [fetch] hands to the browser when the route
    answered [r]. *)
Definition delivers (r : NextResponse) (response : Response) : Prop :=
  resp_status response = status r
  /\ resp_ok response = ((200 <=? status r) && (status r <=? 299))%Z
  /\ match body r with
     | JsonError e => resp_json response = Some (JsonObject (Some e))
     | ImageBuffer bytes =>
         resp_blob response
         = Normal {| blob_type := contentType r; blob_bytes := bytes |}
     end.

(** Every upload of the browser [w] is answered by the route running on
    [server]. *)
Definition servedByRoute (w : World) (server : Server) : Prop :=
  forall (m : nat) (imageFile : File),
    exists response k r k',
      post_image_at w m "/api/remove-background" imageFile = Normal response
      /\ POST server (upload imageFile) k = (Normal r, k')
      /\ delivers r response.

(** The three kinds of answer of the route. *)
Definition routeAnswer (server : Server) (request : NextRequest) (n : nat)
  (r : NextResponse) (n' : nat) : Prop :=
  (truthy (default "" (REPLICATE_API_TOKEN server)) = false ->
   r = json "Replicate API token not configured" 500 /\ n' = n)
  /\ (status r = 200%Z ->
      contentType r = "image/png"
      /\ exists entries imageFile output imageResponse bytes,
          formData request = Normal entries
          /\ get "image" entries = Some (FileEntry imageFile)
          /\ run_at server n (default "" (REPLICATE_API_TOKEN server)) model
               ("data:" +:+ file_type imageFile +:+ ";base64,"
                +:+ toBase64 (file_bytes imageFile))
             = Normal output
          /\ fetch_at server (S n) output = Normal imageResponse
          /\ ok imageResponse = true
          /\ blob imageResponse = Normal bytes
          /\ body r = ImageBuffer bytes)
  /\ (status r <> 200%Z ->
      (status r = 400%Z \/ status r = 500%Z)
      /\ contentType r = "application/json"
      /\ exists msg, body r = JsonError msg /\ truthy msg = true).

End RouteVocabulary.

Section AdvancedVocabulary.
Import GarmentSegmentation AdvancedSegmentation PreprocessingPipeline.

(** The result of [segmentGarmentAdvanced] on a decoded image: the PNG
    encoding of a canvas of the image's size holding [data]. *)
Definition maskedResult (w : World) (img : HTMLImageElement) (data : list Z)
  : SegmentationResult :=
  {| segmentedImageDataUrl :=
       to_data_url w
         {| cv_width := img_width img; cv_height := img_height img; cv_data := data |}
         "image/png";
     GarmentSegmentation.success := true;
     GarmentSegmentation.error := None;
     GarmentSegmentation.debug := None |}.

(** The state of the mask when the cells before [t], in row-major order,
    have been written. *)
Definition maskUpTo (value : Z -> Z) (width size t : Z) (mask : list Z) : Prop :=
  length mask = Z.to_nat size
  /\ forall j : Z, (0 <= j < size)%Z ->
       mask !! Z.to_nat j = Some (if (j <? t)%Z then value (j / width)%Z else 0%Z).

(** The value the loops write for the cells of row [y]. *)
Definition maskValue (garmentType : GarmentType) (height y : Z) : Z :=
  if shouldInclude garmentType (topRegionEnd height) (bottomRegionStart height) y
  then 255%Z else 0%Z.

(** Whether the loop over the cells [a], ..., [a + len - 1] clears the
    sample at [idx]. *)
Definition clears (mask : list Z) (a len idx : nat) : bool :=
  (idx mod 4 =? 3)%nat && (a <=? idx / 4)%nat && (idx / 4 <? a + len)%nat
  && bool_decide (mask !! (idx / 4)%nat = Some 0%Z).

(** [{ ...options, useAdvancedSegmentation: value }] *)
Definition withAdvancedSegmentation (value : option bool) (options : PreprocessingOptions)
  : PreprocessingOptions :=
  {| removePersonBackground := removePersonBackground options;
     removeGarmentBackground := removeGarmentBackground options;
     segmentGarment := PreprocessingPipeline.segmentGarment options;
     garmentType := garmentType options;
     useAdvancedSegmentation := value;
     includeDebug := includeDebug options |}.

End AdvancedVocabulary.

Section PageVocabulary.
Import Base64Helpers DressYourselfPage.

(** The selections the selector can show: the initial one (also set when
    an outfit image is chosen) and those obtained by clicking a button. *)
Inductive reachable : GarmentSelection -> Prop :=
| reachable_initial : reachable noSelection
| reachable_click (type : SelectorButton) (prev : GarmentSelection) :
    reachable prev -> reachable (handleGarmentSelect type prev).

(** What a resolved part and a rejection look like. *)
Definition wellFormedPart (part : InlineData) : Prop :=
  truthy (data part) = true
  /\ includes_char comma (data part) = false
  /\ truthy (mimeType part) = true.

Definition hasMessage (e : Exn) : Prop :=
  exists msg, message e = Some msg /\ truthy msg = true.

End PageVocabulary.

Section SolidBackgroundVocabulary.
Import SolidBackgroundCompositing.

(** The loop written pixel by pixel. *)
Fixpoint clearChunks (data : list Z) : list Z :=
  match data with
  | r :: g :: b :: a :: rest =>
      r :: g :: b :: (if isSolidBackground r g b then 0%Z else a) :: clearChunks rest
  | _ => data
  end.

End SolidBackgroundVocabulary.

(** * Properties *)

(** ** The local background-removal rule *)

Section LocalRemovalRule.
Import BackgroundRemoval.

Lemma brightness_threshold (r g b : Z) :
  Qgtb (brightness r g b) 240 = (720 <? r + g + b)%Z.
Proof.
  unfold Qgtb, brightness, Qle_bool, Qdiv, Qmult, Qinv, inject_Z; simpl.
  change (Z.pos (1 * 3)) with 3%Z.
  destruct (Z.ltb_spec 720 (r + g + b));
    destruct (Z.leb_spec ((r + g + b) * 1 * 1) (240 * 3)); simpl; try reflexivity; lia.
Qed.

Lemma lightenFrom_done (fuel i : nat) (data : list Z) :
  (length data <= i)%nat -> lightenFrom fuel i data = data.
Proof.
  intros Hi. destruct fuel as [|fuel]; simpl; [reflexivity|].
  destruct (Nat.ltb_spec i (length data)); [lia | reflexivity].
Qed.

Lemma lightenFrom_chunks (fuel : nat) :
  forall pre rest : list Z,
    (length rest <= fuel)%nat ->
    lightenFrom fuel (length pre) (pre ++ rest) = pre ++ lightenChunks rest.
Proof.
  induction fuel as [|fuel IH]; intros pre rest Hfuel.
  - destruct rest; simpl in *; [reflexivity | lia].
  - simpl lightenFrom.
    destruct rest as [|r [|g [|b [|a rest]]]].
    + simpl lightenChunks. rewrite !app_nil_r. destruct (Nat.ltb_spec (length pre) (length pre)); [lia|reflexivity].
    + rewrite length_app; simpl length.
      destruct (Nat.ltb_spec (length pre) (length pre + 1)); [|lia].
      unfold lightenPixelAt.
      rewrite list_lookup_middle by reflexivity.
      rewrite (lookup_ge_None_2 (pre ++ [r]) (length pre + 1)) by (rewrite length_app; simpl; lia).
      apply lightenFrom_done. rewrite length_app; simpl; lia.
    + rewrite length_app; simpl length.
      destruct (Nat.ltb_spec (length pre) (length pre + 2)); [|lia].
      unfold lightenPixelAt.
      rewrite list_lookup_middle by reflexivity.
      rewrite (lookup_app_r pre) by lia.
      replace (length pre + 1 - length pre)%nat with 1%nat by lia. simpl lookup.
      rewrite (lookup_ge_None_2 (pre ++ [r; g]) (length pre + 2)) by (rewrite length_app; simpl; lia).
      apply lightenFrom_done. rewrite length_app; simpl; lia.
    + rewrite length_app; simpl length.
      destruct (Nat.ltb_spec (length pre) (length pre + 3)); [|lia].
      unfold lightenPixelAt.
      rewrite list_lookup_middle by reflexivity.
      rewrite (lookup_app_r pre _ (length pre + 1)) by lia.
      rewrite (lookup_app_r pre _ (length pre + 2)) by lia.
      replace (length pre + 1 - length pre)%nat with 1%nat by lia.
      replace (length pre + 2 - length pre)%nat with 2%nat by lia. simpl lookup.
      rewrite list_insert_ge by (rewrite length_app; simpl; lia).
      destruct (Qgtb _ _); apply lightenFrom_done; rewrite length_app; simpl; lia.
    + rewrite length_app; simpl length.
      destruct (Nat.ltb_spec (length pre) (length pre + S (S (S (S (length rest)))))); [|lia].
      unfold lightenPixelAt.
      rewrite list_lookup_middle by reflexivity.
      rewrite (lookup_app_r pre _ (length pre + 1)) by lia.
      rewrite (lookup_app_r pre _ (length pre + 2)) by lia.
      replace (length pre + 1 - length pre)%nat with 1%nat by lia.
      replace (length pre + 2 - length pre)%nat with 2%nat by lia. simpl lookup.
      rewrite insert_app_r_alt by lia.
      replace (length pre + 3 - length pre)%nat with 3%nat by lia. simpl (<[_:=_]> _).
      simpl lightenChunks.
      assert (Hsplit : forall a' : Z,
                 pre ++ r :: g :: b :: a' :: rest = (pre ++ [r; g; b; a']) ++ rest)
        by (intros; rewrite <- app_assoc; reflexivity).
      assert (Hlen : forall a' : Z, (length pre + 4)%nat = length (pre ++ [r; g; b; a']))
        by (intros; rewrite length_app; reflexivity).
      simpl in Hfuel.
      destruct (Qgtb _ _).
      * rewrite (Hsplit 0%Z), (Hlen 0%Z), IH by lia.
        rewrite <- app_assoc. reflexivity.
      * rewrite (Hsplit a), (Hlen a), IH by lia.
        rewrite <- app_assoc. reflexivity.
Qed.

Lemma makeLightPixelsTransparent_chunks (data : list Z) :
  makeLightPixelsTransparent data = lightenChunks data.
Proof.
  unfold makeLightPixelsTransparent.
  apply (lightenFrom_chunks (length data) [] data). lia.
Qed.

Lemma lightenChunks_pixel (p : nat) :
  forall (data : list Z) (r g b a : Z),
    data !! (4 * p)%nat = Some r ->
    data !! (4 * p + 1)%nat = Some g ->
    data !! (4 * p + 2)%nat = Some b ->
    data !! (4 * p + 3)%nat = Some a ->
    lightenChunks data !! (4 * p)%nat = Some r /\
    lightenChunks data !! (4 * p + 1)%nat = Some g /\
    lightenChunks data !! (4 * p + 2)%nat = Some b /\
    lightenChunks data !! (4 * p + 3)%nat
      = Some (if Qgtb (brightness r g b) 240 then 0%Z else a).
Proof.
  induction p as [|p IH]; intros data r g b a Hr Hg Hb Ha.
  - destruct data as [|r' [|g' [|b' [|a' rest]]]]; simpl in *; try discriminate.
    inversion Hr; inversion Hg; inversion Hb; inversion Ha; subst. auto.
  - replace (4 * S p)%nat with (S (S (S (S (4 * p))))) in * by lia.
    destruct data as [|r' [|g' [|b' [|a' rest]]]]; simpl in *; try discriminate.
    apply IH; assumption.
Qed.

End LocalRemovalRule.

Lemma lookup_flat_map_blocks {A B : Type} (f : A -> list B) (n : nat) (l : list A) :
  (forall a, length (f a) = n) ->
  forall i j : nat, (j < n)%nat ->
    flat_map f l !! (i * n + j)%nat = (l !! i) ≫= (fun a => f a !! j).
Proof.
  intros Hlen. induction l as [|a l IH]; intros i j Hj.
  - reflexivity.
  - simpl flat_map. destruct i as [|i].
    + simpl. apply lookup_app_l. rewrite Hlen. exact Hj.
    + rewrite lookup_app_r by (rewrite Hlen; lia).
      rewrite Hlen. replace (S i * n + j - n)%nat with (i * n + j)%nat by lia.
      rewrite IH by exact Hj. reflexivity.
Qed.

Lemma length_flat_map_blocks {A B : Type} (f : A -> list B) (n : nat) (l : list A) :
  (forall a, length (f a) = n) -> length (flat_map f l) = (length l * n)%nat.
Proof.
  intros Hlen. induction l as [|a l IH]; simpl; [reflexivity|].
  rewrite length_app, Hlen, IH. reflexivity.
Qed.

Lemma scenarioPixel_length (x y : nat) : length (scenarioPixel x y) = 4%nat.
Proof. unfold scenarioPixel. destruct (inCenter x y); reflexivity. Qed.

Lemma scenarioImage_sample (x y k : nat) :
  (x < 100)%nat -> (y < 100)%nat -> (k < 4)%nat ->
  scenarioImage !! (4 * (y * 100 + x) + k)%nat = scenarioPixel x y !! k.
Proof.
  intros Hx Hy Hk. unfold scenarioImage.
  replace (4 * (y * 100 + x) + k)%nat with (y * 400 + (x * 4 + k))%nat by lia.
  rewrite (lookup_flat_map_blocks _ 400).
  - rewrite lookup_seq_lt by exact Hy.
    unfold mbind, option_bind; cbv beta iota.
    rewrite (lookup_flat_map_blocks _ 4).
    + rewrite lookup_seq_lt by exact Hx. reflexivity.
    + intros a. apply scenarioPixel_length.
    + exact Hk.
  - intros a. rewrite (length_flat_map_blocks _ 4).
    + rewrite length_seq. reflexivity.
    + intros b. apply scenarioPixel_length.
  - lia.
Qed.

(** ** Reasoning about computations *)

Lemma outcome_ret {S A} (a : A) (s : S) N T : N a s -> outcome (ret a) s N T.
Proof. exact (fun H => H). Qed.

Lemma outcome_throw {S A} (e : Exn) (s : S) (N : A -> S -> Prop) T :
  T e s -> outcome (throw e) s N T.
Proof. exact (fun H => H). Qed.

Lemma outcome_bind {S A B} (m : Js S A) (k : A -> Js S B) (s : S) N T :
  outcome m s (fun a s' => outcome (k a) s' N T) T -> outcome (bind m k) s N T.
Proof. unfold outcome, bind. destruct (m s) as [[a|e] s']; exact (fun H => H). Qed.

Lemma outcome_try_catch {S A} (m : Js S A) (h : Exn -> Js S A) (s : S) N T :
  outcome m s N (fun e s' => outcome (h e) s' N T) -> outcome (try_catch m h) s N T.
Proof. unfold outcome, try_catch. destruct (m s) as [[a|e] s']; exact (fun H => H). Qed.

Lemma outcome_weaken {S A} (m : Js S A) (s : S) (N N' : A -> S -> Prop) (T T' : Exn -> S -> Prop) :
  outcome m s N T ->
  (forall a s', N a s' -> N' a s') -> (forall e s', T e s' -> T' e s') ->
  outcome m s N' T'.
Proof.
  unfold outcome. destruct (m s) as [[a|e] s']; intros H HN HT; [apply HN | apply HT]; exact H.
Qed.

Lemma outcome_run {S A} (m : Js S A) (s : S) :
  outcome m s (fun a s' => m s = (Normal a, s')) (fun e s' => m s = (Throw e, s')).
Proof. unfold outcome. destruct (m s) as [[a|e] s']; reflexivity. Qed.

Lemma outcome_and {S A} (m : Js S A) (s : S) (N N' : A -> S -> Prop) (T T' : Exn -> S -> Prop) :
  outcome m s N T -> outcome m s N' T' ->
  outcome m s (fun a s' => N a s' /\ N' a s') (fun e s' => T e s' /\ T' e s').
Proof. unfold outcome. destruct (m s) as [[a|e] s']; intros; split; assumption. Qed.

Lemma outcome_with_clock {L A} (m : Js nat A) (l : L) (n : nat) N T :
  outcome m n (fun a n' => N a (l, n')) (fun e n' => T e (l, n')) ->
  outcome (with_clock m) (l, n) N T.
Proof. unfold outcome, with_clock. destruct (m n) as [[a|e] n']; exact (fun H => H). Qed.

Lemma outcome_with_locals {L A} (init : L) (m : Js (L * nat) A) (n : nat) N T :
  outcome m (init, n) (fun a s' => N a (snd s')) (fun e s' => T e (snd s')) ->
  outcome (with_locals init m) n N T.
Proof. unfold outcome, with_locals. destruct (m (init, n)) as [[a|e] s']; exact (fun H => H). Qed.

Lemma returns_run {S A} (m : Js S A) (s : S) N :
  returns m s N <-> exists a s', m s = (Normal a, s') /\ N a s'.
Proof.
  unfold returns, outcome. destruct (m s) as [[a|e] s']; split.
  - intros H. exists a, s'. split; [reflexivity | exact H].
  - intros (a' & s'' & Heq & H). inversion Heq; subst. exact H.
  - intros [].
  - intros (a' & s'' & Heq & _). discriminate.
Qed.

Lemma outcome_ask {A} (f : nat -> Completion A) (n : nat) N T :
  match f n with
  | Normal a => N a (S n)
  | Throw e => T e (S n)
  end -> outcome (ask f) n N T.
Proof. unfold outcome, ask. destruct (f n); exact (fun H => H). Qed.

Lemma outcome_ask_total {A} (f : nat -> A) (n : nat) N T :
  N (f n) (S n) -> outcome (ask_total f) n N T.
Proof. exact (fun H => H). Qed.

Lemma outcome_settle {S A} (c : Completion A) (s : S) N T :
  match c with
  | Normal a => N a s
  | Throw e => T e s
  end -> outcome (settle c) s N T.
Proof. unfold outcome, settle. destruct c; exact (fun H => H). Qed.

Lemma outcome_get_locals {L} (s : L * nat) N T :
  N (fst s) s -> outcome get_locals s N T.
Proof. exact (fun H => H). Qed.

Lemma outcome_set_locals {L} (f : L -> L) (s : L * nat) N T :
  N tt (f (fst s), snd s) -> outcome (set_locals f) s N T.
Proof. exact (fun H => H). Qed.

(** One step of symbolic execution. *)
Ltac wp :=
  cbv beta;
  lazymatch goal with
  | |- outcome (bind _ _) _ _ _ => apply outcome_bind
  | |- outcome (try_catch _ _) _ _ _ => apply outcome_try_catch
  | |- outcome (with_clock _) (_, _) _ _ => apply outcome_with_clock
  | |- outcome (with_clock _) ?s _ _ => destruct s
  | |- outcome (with_locals _ _) _ _ _ => apply outcome_with_locals
  | |- outcome (ret _) _ _ _ => apply outcome_ret
  | |- outcome (throw _) _ _ _ => apply outcome_throw
  | |- outcome (ask _) _ _ _ => apply outcome_ask
  | |- outcome (settle _) _ _ _ => apply outcome_settle
  | |- outcome (ask_total _) _ _ _ => apply outcome_ask_total
  | |- outcome get_locals _ _ _ => apply outcome_get_locals
  | |- outcome (set_locals _) _ _ _ => apply outcome_set_locals
  | |- outcome (if ?b then _ else _) _ _ _ => destruct b eqn:?
  | |- outcome (match ?x with _ => _ end) _ _ _ => destruct x eqn:?
  | |- outcome (let '(_, _) := ?x in _) _ _ _ => destruct x eqn:?
  | |- match ?x with Normal _ => _ | Throw _ => _ end => destruct x eqn:?
  end.

(** ** The background-removal chain *)

Section RemovalChain.
Import BackgroundRemoval.
Variable w : World.

Lemma removeBackgroundWithReplicate_returns (file : File) (dbg : bool) (n : nat) :
  returns (removeBackgroundWithReplicate w file dbg) n
    (fun r _ => (success r = false -> failedAttempt dbg r)
                /\ (dbg = false -> debug r = None)).
Proof.
  unfold returns, removeBackgroundWithReplicate.
  unfold performance_now, fileToDataUrl, loadImage, createObjectURL,
    imageToCanvas, getContext2d, revokeObjectURL.
  destruct dbg; repeat wp.
  all: unfold failedAttempt; simpl.
  all: repeat split; intros; try discriminate; eauto.
Qed.

Lemma removeBackgroundClientSide_returns (file : File) (dbg : bool) (n : nat) :
  returns (removeBackgroundClientSide w file dbg) n
    (fun r _ => (success r = false -> failedAttempt dbg r)
                /\ (if dbg then exists d, debug r = Some d /\ is_Some (warnings d)
                    else debug r = None)).
Proof.
  unfold returns, removeBackgroundClientSide.
  unfold performance_now, fileToDataUrl, loadImage, createObjectURL,
    imageToCanvas, getContext2d, revokeObjectURL, getImageData.
  destruct dbg; repeat wp.
  all: unfold failedAttempt; simpl.
  all: repeat split; intros; try discriminate; eauto.
Qed.

(** C4. [removeBackground] always returns (it never throws).  When the
    remote attempt succeeds its result is returned as it is; otherwise the
    result is that of the local fallback, so the returned result is a
    failure only if both attempts failed.  With debug enabled, after a
    remote failure the warnings of the returned result contain the remote
    failure message (and the line "Replicate failed: <message>"), also when
    the local fallback succeeded. *)
Theorem removeBackground_fallback_chain (file : File) (dbg : bool) (n : nat) :
  exists r n' r1 n1,
    removeBackground w file dbg n = (Normal r, n')
    /\ removeBackgroundWithReplicate w file dbg n = (Normal r1, n1)
    /\ (success r1 = true -> r = r1 /\ n' = n1)
    /\ (success r1 = false ->
        exists r2,
          removeBackgroundClientSide w file dbg n1 = (Normal r2, n')
          /\ success r = success r2
          /\ imageDataUrl r = imageDataUrl r2
          /\ error r = error r2
          /\ (dbg = true ->
              exists msg d ws,
                error r1 = Some msg /\ debug r = Some d /\ warnings d = Some ws
                /\ In msg ws /\ In (replicateFailed (Some msg)) ws))
    /\ (success r = false ->
        success r1 = false
        /\ exists r2,
            removeBackgroundClientSide w file dbg n1 = (Normal r2, n')
            /\ success r2 = false).
Proof.
  destruct (proj1 (returns_run _ _ _) (removeBackgroundWithReplicate_returns file dbg n))
    as (r1 & n1 & Hrun1 & Hfail1 & Hnodbg1).
  destruct (proj1 (returns_run _ _ _) (removeBackgroundClientSide_returns file dbg n1))
    as (r2 & n2 & Hrun2 & Hfail2 & Hdbg2).
  unfold removeBackground, bind. rewrite Hrun1.
  destruct (success r1) eqn:Hs1.
  - exists r1, n1, r1, n1. unfold ret.
    split; [reflexivity|]. split; [reflexivity|].
    split; [intros _; split; reflexivity|].
    split; intros Hf; rewrite Hs1 in Hf; discriminate Hf.
  - rewrite Hrun2.
    destruct dbg.
    + destruct (Hfail1 eq_refl) as (_ & msg & Herr1 & d1 & Hd1 & Hw1).
      destruct Hdbg2 as (d2 & Hd2 & ws2 & Hw2).
      rewrite Hd1, Hd2. unfold ret.
      eexists _, n2, r1, n1.
      split; [reflexivity|]. split; [reflexivity|].
      split; [intros Hf; rewrite Hs1 in Hf; discriminate Hf|].
      unfold set_warnings. rewrite Hd2. simpl.
      split.
      * intros _. exists r2.
        split; [exact Hrun2|]. split; [reflexivity|]. split; [reflexivity|].
        split; [reflexivity|].
        intros _. eexists msg, _, _. split; [exact Herr1|]. split; [reflexivity|].
        split; [reflexivity|]. rewrite Hw1, Herr1. simpl. auto.
      * intros Hf. split; [exact Hs1|]. exists r2. split; [exact Hrun2 | exact Hf].
    + rewrite (Hnodbg1 eq_refl).
      exists r2, n2, r1, n1. unfold ret.
      split; [reflexivity|]. split; [reflexivity|].
      split; [intros Hf; rewrite Hs1 in Hf; discriminate Hf|].
      split.
      * intros _. exists r2.
        split; [exact Hrun2|]. split; [reflexivity|]. split; [reflexivity|].
        split; [reflexivity|]. discriminate.
      * intros Hf. split; [exact Hs1|]. exists r2. split; [exact Hrun2 | exact Hf].
Qed.

End RemovalChain.

(** ** The garment classifier and the segmenter *)

Section Garment.
Import GarmentSegmentation.

Lemma Qgtb_lt (x y : Q) : Qgtb x y = true <-> (y < x)%Q.
Proof.
  unfold Qgtb. rewrite negb_true_iff, <- not_true_iff_false, Qle_bool_iff.
  split; [apply Qnot_le_lt | apply Qlt_not_le].
Qed.

Lemma Qgtb_le (x y : Q) : Qgtb x y = false <-> (x <= y)%Q.
Proof. unfold Qgtb. rewrite negb_false_iff. apply Qle_bool_iff. Qed.







(** The edge-density term of the confidence, as a function of the
    difference of the two densities. *)
Lemma edge_term_monotone (t1 b1 t2 b2 : Q) :
  (t1 - b1 <= t2 - b2)%Q ->
  ((if Qgtb t1 b1 then Qmin ((t1 - b1) * 2) 0.7 else 0)
   <= (if Qgtb t2 b2 then Qmin ((t2 - b2) * 2) 0.7 else 0))%Q.
Proof.
  intros Hd.
  destruct (Qgtb t1 b1) eqn:H1; destruct (Qgtb t2 b2) eqn:H2.
  - apply Q.min_le_compat_r. lra.
  - apply Qgtb_lt in H1. apply Qgtb_le in H2. lra.
  - apply Qgtb_lt in H2. apply Q.min_glb; lra.
  - apply Qle_refl.
Qed.

(** C7. For the declared type [top] and a fixed aspect-ratio class, the
    confidence never decreases when [topEdgeDensity - bottomEdgeDensity]
    increases. *)
Theorem top_confidence_monotone (class : AspectRatioAnalysis) (t1 b1 t2 b2 : Q) :
  (t1 - b1 <= t2 - b2)%Q ->
  (confidence (scoreSelection top class t1 b1)
   <= confidence (scoreSelection top class t2 b2))%Q.
Proof.
  intros Hd. unfold scoreSelection. simpl.
  apply Qplus_le_r. apply edge_term_monotone. exact Hd.
Qed.

Lemma top_confidence_monotone_witness :
  (0.2 - 0.1 <= 0.5 - 0.1)%Q
  /\ (confidence (scoreSelection top likelyTop 0.2 0.1)
      <= confidence (scoreSelection top likelyTop 0.5 0.1))%Q.
Proof.
  assert (H : (0.2 - 0.1 <= 0.5 - 0.1)%Q) by (vm_compute; discriminate).
  split; [exact H | exact (top_confidence_monotone likelyTop 0.2 0.1 0.5 0.1 H)].
Defined.

Variable w : World.

Lemma getImageData_positive (canvas : Canvas) :
  (0 < cv_width canvas)%Z -> (0 < cv_height canvas)%Z ->
  getImageData canvas
  = ret {| id_width := cv_width canvas;
           id_height := cv_height canvas;
           id_data := cv_data canvas |}.
Proof.
  intros Hw Hh. unfold getImageData.
  destruct (Z.leb_spec (cv_width canvas) 0); [lia|].
  destruct (Z.leb_spec (cv_height canvas) 0); [lia|]. reflexivity.
Qed.



(** When the image cannot be analysed the [catch] block answers. *)
Lemma detectSingleGarment_undecoded (url : string) (type : GarmentType) (n : nat) :
  type = top \/ type = bottom ->
  (forall img, ~ decodes w url n img) ->
  exists n',
    detectSingleGarment w url type n
    = (Normal {| isSingleGarment := false; confidence := 0; detectedType := None |}, n').
Proof.
  intros Htype Hno.
  unfold detectSingleGarment, try_catch, bind, loadImage, imageToCanvas,
    getContext2d, ask, ask_total, bind.
  replace (bool_decide (type = fullBody) || bool_decide (type = completeOutfit))
    with false by (destruct Htype as [-> | ->]; reflexivity).
  destruct (image_at w n url) as [img|e] eqn:Himg; [|eexists; reflexivity].
  destruct (context2d_at w (S n)) eqn:Hc1; simpl; [|eexists; reflexivity].
  destruct (context2d_at w (S (S n))) eqn:Hc2; simpl; [|eexists; reflexivity].
  unfold getImageData. simpl.
  destruct (Z.leb_spec (img_width img) 0); simpl; [eexists; reflexivity|].
  destruct (Z.leb_spec (img_height img) 0); simpl; [eexists; reflexivity|].
  destruct (Hno img). repeat split; assumption.
Qed.



(** Whatever happens, the segmenter returns, and a successful result
    carries the URL it was given. *)
Lemma getSegmentedGarment_returns (url : string) (type : GarmentType)
  (useAdvanced dbg : bool) (n : nat) :
  returns (getSegmentedGarment w url type useAdvanced dbg) n
    (fun r _ => GarmentSegmentation.success r = true -> segmentedImageDataUrl r = url).
Proof.
  unfold returns.
  assert (H : outcome (segmentGarment w url type dbg) n
                (fun r _ => GarmentSegmentation.success r = true
                            -> segmentedImageDataUrl r = url)
                (fun _ _ => False)).
  { unfold segmentGarment, loadImage, imageToCanvas, getContext2d, getImageData.
    repeat wp; simpl; intros; try discriminate; reflexivity. }
  unfold getSegmentedGarment. destruct useAdvanced; exact H.
Qed.



End Garment.

(** ** The local fallback *)

Section LocalFallback.
Import BackgroundRemoval.

Lemma lightenPixelAt_length (i : nat) (data : list Z) :
  length (lightenPixelAt i data) = length data.
Proof.
  unfold lightenPixelAt.
  destruct (data !! i); [|reflexivity].
  destruct (data !! (i + 1)%nat); [|reflexivity].
  destruct (data !! (i + 2)%nat); [|reflexivity].
  destruct (Qgtb _ _); [apply length_insert | reflexivity].
Qed.

Lemma lightenFrom_length (fuel : nat) :
  forall (i : nat) (data : list Z), length (lightenFrom fuel i data) = length data.
Proof.
  induction fuel as [|fuel IH]; intros i data; simpl; [reflexivity|].
  destruct (i <? length data)%nat; [|reflexivity].
  rewrite IH. apply lightenPixelAt_length.
Qed.

(** On an image that decodes, the local fallback succeeds and returns the
    encoding of the canvas whose samples went through the loop. *)
Lemma removeBackgroundClientSide_decoded (w : World) (file : File) (dbg : bool)
  (n : nat) (img : HTMLImageElement) :
  decodes w (object_url_at w (S n) (blob_of_file file)) (2 + n) img ->
  exists r,
    removeBackgroundClientSide w file dbg n = (Normal r, (6 + n)%nat)
    /\ success r = true
    /\ imageDataUrl r
       = to_data_url w
           {| cv_width := img_width img;
              cv_height := img_height img;
              cv_data := makeLightPixelsTransparent (img_data img) |}
           "image/png".
Proof.
  intros (Himg & Hc1 & Hc2 & Hw & Hh). simpl in Himg, Hc1, Hc2.
  unfold removeBackgroundClientSide, with_locals, try_catch, bind, with_clock,
    performance_now, createObjectURL, loadImage, imageToCanvas, getContext2d,
    ask, ask_total, bind.
  rewrite Himg. destruct dbg; simpl; rewrite Hc1; simpl; rewrite Hc2; simpl;
    rewrite getImageData_positive by assumption; simpl;
    eexists; (split; [reflexivity|]); split; reflexivity.
Qed.

(** C3. The loop of the local fallback leaves the colour samples of every
    pixel as they are and sets the alpha sample to 0 exactly for the pixels
    whose brightness [(r + g + b) / 3] exceeds 240, that is whose
    [r + g + b] exceeds 720; the alpha of every other pixel is unchanged,
    and the array keeps its length.  On an image that decodes, the fallback
    returns the canvas so obtained.  In scenario A every border pixel ends
    with alpha 0 and every centre pixel keeps alpha 255. *)
Theorem local_fallback_pixel_rule :
  (forall (data : list Z) (p : nat) (r g b a : Z),
      data !! (4 * p)%nat = Some r ->
      data !! (4 * p + 1)%nat = Some g ->
      data !! (4 * p + 2)%nat = Some b ->
      data !! (4 * p + 3)%nat = Some a ->
      let out := makeLightPixelsTransparent data in
      out !! (4 * p)%nat = Some r
      /\ out !! (4 * p + 1)%nat = Some g
      /\ out !! (4 * p + 2)%nat = Some b
      /\ out !! (4 * p + 3)%nat
         = Some (if Qgtb (brightness r g b) 240 then 0%Z else a))
  /\ (forall r g b : Z, Qgtb (brightness r g b) 240 = (720 <? r + g + b)%Z)
  /\ (forall data : list Z, length (makeLightPixelsTransparent data) = length data)
  /\ (forall (w : World) (file : File) (dbg : bool) (n : nat) (img : HTMLImageElement),
        decodes w (object_url_at w (S n) (blob_of_file file)) (2 + n) img ->
        exists res,
          removeBackgroundClientSide w file dbg n = (Normal res, (6 + n)%nat)
          /\ success res = true
          /\ imageDataUrl res
             = to_data_url w
                 {| cv_width := img_width img;
                    cv_height := img_height img;
                    cv_data := makeLightPixelsTransparent (img_data img) |}
                 "image/png")
  /\ (forall x y : nat,
        (x < 100)%nat -> (y < 100)%nat ->
        scenarioImage !! (4 * (y * 100 + x) + 3)%nat = Some 255%Z
        /\ makeLightPixelsTransparent scenarioImage !! (4 * (y * 100 + x) + 3)%nat
           = Some (if inCenter x y then 255%Z else 0%Z)).
Proof.
  split.
  { intros data p r g b a Hr Hg Hb Ha. cbv zeta.
    rewrite makeLightPixelsTransparent_chunks.
    apply lightenChunks_pixel; assumption. }
  split; [exact brightness_threshold|].
  split; [intros data; apply lightenFrom_length|].
  split; [exact removeBackgroundClientSide_decoded|].
  intros x y Hx Hy.
  assert (Hs : forall k, (k < 4)%nat ->
             scenarioImage !! (4 * (y * 100 + x) + k)%nat = scenarioPixel x y !! k)
    by (intros k Hk; apply scenarioImage_sample; assumption).
  pose proof (Hs 0%nat ltac:(lia)) as H0. rewrite Nat.add_0_r in H0.
  pose proof (Hs 1%nat ltac:(lia)) as H1.
  pose proof (Hs 2%nat ltac:(lia)) as H2.
  pose proof (Hs 3%nat ltac:(lia)) as H3.
  rewrite makeLightPixelsTransparent_chunks.
  unfold scenarioPixel in H0, H1, H2, H3.
  destruct (inCenter x y); simpl in H0, H1, H2, H3.
  - split; [exact H3|].
    destruct (lightenChunks_pixel (y * 100 + x) scenarioImage 255 0 0 255 H0 H1 H2 H3)
      as (_ & _ & _ & Ha).
    exact Ha.
  - split; [exact H3|].
    destruct (lightenChunks_pixel (y * 100 + x) scenarioImage 250 250 250 255 H0 H1 H2 H3)
      as (_ & _ & _ & Ha).
    exact Ha.
Qed.

End LocalFallback.

(** ** The preprocessing pipeline *)

Section Pipeline.
Import GarmentSegmentation PreprocessingPipeline.
Variable w : World.

Lemma or_else_truthy (value : option string) (fallback : string) :
  truthy fallback = true -> truthy (or_else value fallback) = true.
Proof.
  intros Hf. unfold or_else. destruct value as [s|]; [|exact Hf].
  destruct (truthy s) eqn:Hs; [exact Hs | exact Hf].
Qed.

Lemma removeBackground_returns (file : File) (dbg : bool) (n : nat) :
  returns (removeBackground w file dbg) n (fun _ _ => True).
Proof.
  unfold returns, removeBackground.
  apply outcome_bind.
  eapply outcome_weaken;
    [apply removeBackgroundWithReplicate_returns | intros r1 n1 _ | intros e s' []].
  destruct (BackgroundRemoval.success r1); [exact I|].
  apply outcome_bind.
  eapply outcome_weaken;
    [apply removeBackgroundClientSide_returns | intros r2 n2 _ | intros e s' []].
  repeat wp; exact I.
Qed.

Lemma personBackgroundStep_outcome (requested dbg : bool) (file : File)
  (url0 : string) (l : Locals) (n : nat) :
  outcome (personBackgroundStep w requested dbg file url0) (l, n)
    (fun url s' =>
       garmentBackgroundRemoved (l_steps (fst s')) = garmentBackgroundRemoved (l_steps l)
       /\ garmentSegmented (l_steps (fst s')) = garmentSegmented (l_steps l)
       /\ (personBackgroundRemoved (l_steps (fst s')) = true ->
           personBackgroundRemoved (l_steps l) = true
           \/ (requested = true /\ removedFrom w file dbg n url)))
    (fun _ _ => True).
Proof.
  unfold personBackgroundStep.
  destruct requested; [|apply outcome_ret; simpl; auto].
  apply outcome_bind, outcome_with_clock.
  eapply outcome_weaken;
    [apply (outcome_and _ _ _ _ _ _ (removeBackground_returns file dbg n) (outcome_run _ _))
    | intros bg n1 [_ Hrun] | intros e s' [[] _]].
  destruct (BackgroundRemoval.success bg) eqn:Hs; simpl;
    [destruct (truthy (imageDataUrl bg)) eqn:Ht; simpl|].
  - repeat wp; simpl; (split; [reflexivity|]); (split; [reflexivity|]);
      intros _; right; (split; [reflexivity|]);
      exists bg, n1; auto.
  - repeat wp; simpl; auto.
  - repeat wp; simpl; auto.
Qed.

Lemma garmentBackgroundStep_outcome (requested dbg : bool) (url0 : string)
  (l : Locals) (n : nat) :
  outcome (garmentBackgroundStep w requested dbg url0) (l, n)
    (fun url s' =>
       personBackgroundRemoved (l_steps (fst s')) = personBackgroundRemoved (l_steps l)
       /\ garmentSegmented (l_steps (fst s')) = garmentSegmented (l_steps l)
       /\ (garmentBackgroundRemoved (l_steps (fst s')) = true ->
           garmentBackgroundRemoved (l_steps l) = true
           \/ (requested = true
               /\ exists garmentFile n1,
                   dataUrlToFile w url0 "garment.png" n = (Normal garmentFile, n1)
                   /\ removedFrom w garmentFile dbg n1 url)))
    (fun _ _ => True).
Proof.
  unfold garmentBackgroundStep.
  destruct requested; [|apply outcome_ret; simpl; auto].
  apply outcome_bind, outcome_with_clock.
  eapply outcome_weaken;
    [apply outcome_run | intros garmentFile n1 Hfile | intros e s' _; exact I].
  apply outcome_bind, outcome_with_clock.
  eapply outcome_weaken;
    [apply (outcome_and _ _ _ _ _ _ (removeBackground_returns garmentFile dbg n1)
              (outcome_run _ _))
    | intros bg n2 [_ Hrun] | intros e s' [[] _]].
  destruct (BackgroundRemoval.success bg) eqn:Hs; simpl;
    [destruct (truthy (imageDataUrl bg)) eqn:Ht; simpl|].
  - repeat wp; simpl; (split; [reflexivity|]); (split; [reflexivity|]);
      intros _; right; (split; [reflexivity|]);
      exists garmentFile, n1; (split; [exact Hfile|]);
      exists bg, n2; auto.
  - repeat wp; simpl; auto.
  - repeat wp; simpl; auto.
Qed.

Lemma segmentationStep_outcome (requested : bool) (type : GarmentType)
  (useAdvanced dbg : bool) (url0 : string) (l : Locals) (n : nat) :
  outcome (segmentationStep w requested type useAdvanced dbg url0) (l, n)
    (fun url s' =>
       personBackgroundRemoved (l_steps (fst s')) = personBackgroundRemoved (l_steps l)
       /\ garmentBackgroundRemoved (l_steps (fst s')) = garmentBackgroundRemoved (l_steps l)
       /\ url = url0
       /\ (garmentSegmented (l_steps (fst s')) = true ->
           garmentSegmented (l_steps l) = true \/ requested = true))
    (fun _ _ => True).
Proof.
  unfold segmentationStep.
  destruct requested; [|apply outcome_ret; simpl; auto].
  apply outcome_bind, outcome_with_clock.
  eapply outcome_weaken;
    [apply getSegmentedGarment_returns | intros r n1 Hurl | intros e s' []].
  cbv beta in Hurl.
  destruct (GarmentSegmentation.success r) eqn:Hs.
  - specialize (Hurl eq_refl). repeat wp; simpl; auto.
  - repeat wp; simpl; auto.
Qed.

Lemma verifyAndBundle_outcome (removePerson removeGarment dbg : bool) (startTime : Q)
  (personUrl garmentUrl : string) (l : Locals) (n : nat) :
  outcome (verifyAndBundle w removePerson removeGarment dbg startTime personUrl garmentUrl)
    (l, n)
    (fun r _ =>
       success r = true
       /\ error r = None
       /\ steps r = l_steps l
       /\ personBackgroundRemoved (l_steps l) = true
       /\ garmentBackgroundRemoved (l_steps l) = true
       /\ personImageDataUrl r = personUrl
       /\ garmentImageDataUrl r = garmentUrl
       /\ (exists m m', dataUrlToFile w personUrl personFileName m
                        = (Normal (processedPersonImage r), m'))
       /\ (exists m m', dataUrlToFile w garmentUrl garmentFileName m
                        = (Normal (processedGarmentImage r), m')))
    (fun _ _ => True).
Proof.
  unfold verifyAndBundle.
  apply outcome_bind, outcome_get_locals. simpl fst.
  apply outcome_bind.
  destruct (removePerson && negb (personBackgroundRemoved (l_steps l)));
    [apply outcome_throw; exact I | apply outcome_ret].
  apply outcome_bind.
  destruct (removeGarment && negb (garmentBackgroundRemoved (l_steps l)));
    [apply outcome_throw; exact I | apply outcome_ret].
  apply outcome_bind, outcome_with_clock.
  eapply outcome_weaken;
    [apply outcome_run | intros pf n1 Hpf | intros e s' _; exact I].
  apply outcome_bind, outcome_with_clock.
  eapply outcome_weaken;
    [apply outcome_run | intros gf n2 Hgf | intros e s' _; exact I].
  apply outcome_bind.
  destruct (personBackgroundRemoved (l_steps l)) eqn:Hp;
    [apply outcome_ret | apply outcome_throw; exact I].
  apply outcome_bind.
  destruct (garmentBackgroundRemoved (l_steps l)) eqn:Hg;
    [apply outcome_ret | apply outcome_throw; exact I].
  unfold performance_now. cbv beta in Hpf, Hgf.
  repeat wp; simpl; repeat split; eauto.
Qed.

Lemma preprocessImages_returns (person garment : File) (options : PreprocessingOptions)
  (n : nat) :
  returns (preprocessImages w person garment options) n
    (fun r _ => verifiedBundle w person garment options n r \/ failedBundle person garment r).
Proof.
  unfold returns, preprocessImages.
  apply outcome_bind. unfold performance_now at 1. apply outcome_ask_total.
  apply outcome_with_locals, outcome_try_catch.
  (* the handler *)
  assert (Hhandler : forall e s',
    outcome
      (let! endTime := with_clock (performance_now w) in
       set_locals (update_debugInfo
                     (set_totalProcessingTimeMs (Qround_to 100 (endTime - now_at w n)))) ;!
       let! personUrl := with_clock (fileToDataUrlOrEmpty w person) in
       let! garmentUrl := with_clock (fileToDataUrlOrEmpty w garment) in
       let! l := get_locals in
       ret {| processedPersonImage := person;
              processedGarmentImage := garment;
              personImageDataUrl := personUrl;
              garmentImageDataUrl := garmentUrl;
              success := false;
              error := Some (or_else (message e) "Preprocessing failed");
              steps := l_steps l;
              debug := if default false (includeDebug options)
                       then Some (l_debugInfo l) else None |})
      s'
      (fun r s'' => verifiedBundle w person garment options n r
                    \/ failedBundle person garment r)
      (fun _ _ => False)).
  { intros e [l' n']. unfold performance_now, fileToDataUrlOrEmpty, fileToDataUrl.
    repeat wp; right; unfold failedBundle; simpl; repeat split;
      eexists; (split; [reflexivity | apply or_else_truthy; reflexivity]). }
  (* the body *)
  apply outcome_bind, outcome_with_clock.
  eapply outcome_weaken;
    [apply outcome_run | intros personUrl0 n1 Hp0 | intros e s' _; apply Hhandler].
  apply outcome_bind, outcome_with_clock.
  eapply outcome_weaken;
    [apply outcome_run | intros garmentUrl0 n2 Hg0 | intros e s' _; apply Hhandler].
  cbv beta in Hp0, Hg0. unfold fileToDataUrl, ask in Hp0, Hg0.
  assert (n1 = S (S n)) by congruence. subst n1.
  assert (n2 = S (S (S n))) by congruence. subst n2.
  apply outcome_bind.
  eapply (outcome_weaken _ _ (fun _ s' => l_steps (fst s') = l_steps initialLocals
                                           /\ snd s' = (3 + n)%nat) _ (fun _ _ => False));
    [destruct (default false (includeDebug options)); repeat wp; simpl; auto
    | intros _ [l0 n0] [Hl0 Hn0] | intros e s' []].
  simpl in Hl0, Hn0. subst n0.
  apply outcome_bind.
  eapply outcome_weaken;
    [apply personBackgroundStep_outcome
    | intros personUrl [l1 n1] (Hg1 & Hs1 & Hp1) | intros e s' _; apply Hhandler].
  apply outcome_bind.
  eapply outcome_weaken;
    [apply garmentBackgroundStep_outcome
    | intros garmentUrl1 [l2 n2] (Hp2 & Hs2 & Hg2) | intros e s' _; apply Hhandler].
  apply outcome_bind.
  eapply outcome_weaken;
    [apply segmentationStep_outcome
    | intros garmentUrl [l3 n3] (Hp3 & Hg3 & Hu3 & Hs3) | intros e s' _; apply Hhandler].
  eapply outcome_weaken;
    [apply verifyAndBundle_outcome
    | intros r s' (Hsucc & Herr & Hsteps & Hp & Hg & Hpu & Hgu & Hpf & Hgf)
    | intros e s' _; apply Hhandler].
  left. simpl in *. subst garmentUrl.
  rewrite Hl0 in *. simpl in *.
  rewrite Hp3, Hp2 in Hp. rewrite Hg3 in Hg.
  destruct (Hp1 Hp) as [Habs | [Hreq Hrem]]; [discriminate Habs|].
  rewrite Hg1 in Hg2.
  destruct (Hg2 Hg) as [Habs | [Hreqg (gfile & m2 & Hfile & Hremg)]]; [discriminate Habs|].
  unfold verifiedBundle. rewrite Hsteps, Hpu, Hgu, Hp3, Hp2, Hg3.
  split; [exact Hsucc|]. split; [exact Herr|]. split; [exact Hp|]. split; [exact Hg|].
  split; [exact Hreq|]. split; [exact Hreqg|]. split; [exact Hrem|].
  split.
  { exists garmentUrl0, gfile, n1, m2. split; [|split; assumption].
    unfold fileToDataUrl, ask. exact Hg0. }
  split; [exact Hpf|]. split; [exact Hgf|].
  intros Hseg. destruct (Hs3 Hseg) as [Habs | Hreqs]; [|exact Hreqs].
  rewrite Hs2, Hs1 in Habs. discriminate Habs.
Qed.

(** C1. [preprocessImages] returns a bundle.  When the removal of the
    person (garment) background is requested, [success = true] implies that
    the corresponding step flag is set, and a cleared flag implies
    [success = false] with an error message.  A successful bundle never
    carries an original: its person (garment) data URL is the non-empty
    URL returned by a successful [removeBackground], and its processed
    files are built from these URLs by [dataUrlToFile]. *)
Theorem verification_gate (person garment : File) (options : PreprocessingOptions)
  (n : nat) :
  let removePerson := default true (removePersonBackground options) in
  let removeGarment := default true (removeGarmentBackground options) in
  let dbg := default false (includeDebug options) in
  exists r n',
    preprocessImages w person garment options n = (Normal r, n')
    /\ (removePerson = true -> success r = true ->
        personBackgroundRemoved (steps r) = true)
    /\ (removeGarment = true -> success r = true ->
        garmentBackgroundRemoved (steps r) = true)
    /\ (removePerson = true -> personBackgroundRemoved (steps r) = false ->
        success r = false /\ exists msg, error r = Some msg)
    /\ (removeGarment = true -> garmentBackgroundRemoved (steps r) = false ->
        success r = false /\ exists msg, error r = Some msg)
    /\ (success r = true ->
        removedFrom w person dbg (3 + n) (personImageDataUrl r)
        /\ (exists m m', dataUrlToFile w (personImageDataUrl r) personFileName m
                         = (Normal (processedPersonImage r), m'))
        /\ (exists garmentUrl0 garmentFile m1 m2,
              fileToDataUrl w garment (2 + n) = (Normal garmentUrl0, (3 + n)%nat)
              /\ dataUrlToFile w garmentUrl0 "garment.png" m1 = (Normal garmentFile, m2)
              /\ removedFrom w garmentFile dbg m2 (garmentImageDataUrl r))
        /\ (exists m m', dataUrlToFile w (garmentImageDataUrl r) garmentFileName m
                         = (Normal (processedGarmentImage r), m'))).
Proof.
  cbv zeta.
  destruct (proj1 (returns_run _ _ _) (preprocessImages_returns person garment options n))
    as (r & n' & Hrun & Hcase).
  exists r, n'. split; [exact Hrun|].
  destruct Hcase as [Hok | Hfail].
  - destruct Hok as (Hs & He & Hp & Hg & _ & _ & Hpr & Hgr & Hpf & Hgf & _).
    split; [intros; exact Hp|]. split; [intros; exact Hg|].
    split; [intros _ Hf; rewrite Hp in Hf; discriminate Hf|].
    split; [intros _ Hf; rewrite Hg in Hf; discriminate Hf|].
    intros _. split; [exact Hpr|]. split; [exact Hpf|]. split; [exact Hgr | exact Hgf].
  - destruct Hfail as (Hs & _ & _ & msg & Hmsg & _).
    split; [intros _ Hf; rewrite Hs in Hf; discriminate Hf|].
    split; [intros _ Hf; rewrite Hs in Hf; discriminate Hf|].
    split; [intros _ _; split; [exact Hs | exists msg; exact Hmsg]|].
    split; [intros _ _; split; [exact Hs | exists msg; exact Hmsg]|].
    intros Hf. rewrite Hs in Hf. discriminate Hf.
Qed.


(** C10. [preprocessImages] never throws.  A failure result carries an
    error message and, as processed images, the two original input
    files. *)
Theorem failure_returns_originals (person garment : File)
  (options : PreprocessingOptions) (n : nat) :
  exists r n',
    preprocessImages w person garment options n = (Normal r, n')
    /\ (success r = false ->
        processedPersonImage r = person
        /\ processedGarmentImage r = garment
        /\ exists msg, error r = Some msg /\ msg <> "").
Proof.
  destruct (proj1 (returns_run _ _ _) (preprocessImages_returns person garment options n))
    as (r & n' & Hrun & Hcase).
  exists r, n'. split; [exact Hrun|].
  intros Hfalse. destruct Hcase as [Hok | Hfail].
  - destruct Hok as (Hs & _). rewrite Hs in Hfalse. discriminate Hfalse.
  - destruct Hfail as (_ & Hp & Hg & msg & Hmsg & Ht).
    split; [exact Hp|]. split; [exact Hg|]. exists msg. split; [exact Hmsg|].
    intros ->. discriminate Ht.
Qed.

End Pipeline.


(** Offline, the pipeline fails and hands back the two originals. *)
Lemma failure_returns_originals_witness :
  exists r n',
    PreprocessingPipeline.preprocessImages offlineWorld samplePerson sampleGarment
      (pageOptions GarmentSegmentation.top false) 0 = (Normal r, n')
    /\ PreprocessingPipeline.success r = false
    /\ PreprocessingPipeline.processedPersonImage r = samplePerson
    /\ PreprocessingPipeline.processedGarmentImage r = sampleGarment.
Proof.
  destruct (failure_returns_originals offlineWorld samplePerson sampleGarment
              (pageOptions GarmentSegmentation.top false) 0)
    as (r & n' & Hrun & Hfail).
  exists r, n'. split; [exact Hrun|].
  assert (Hs : PreprocessingPipeline.success r = false).
  { vm_compute in Hrun. injection Hrun as <- _. reflexivity. }
  destruct (Hfail Hs) as (Hp & Hg & _). repeat split; assumption.
Defined.

(** ** The compositor *)

Section Compositor.
Import BackgroundCompositing.


Variable w : World.











End Compositor.

(** ** Further properties *)

Section Further.
Import GarmentSegmentation.
Variable w : World.

Lemma outcome_any {S A} (m : Js S A) (s : S) :
  outcome m s (fun _ _ => True) (fun _ _ => True).
Proof. unfold outcome. destruct (m s) as [[a|e] s']; exact I. Qed.

(** The confidence is a score between 0 and 1, whatever the densities. *)
Theorem confidence_in_unit_interval (type : GarmentType) (class : AspectRatioAnalysis)
  (t b : Q) :
  (0 <= confidence (scoreSelection type class t b) <= 1)%Q.
Proof.
  assert (Hedge : forall x y : Q,
             (0 <= (if Qgtb x y then Qmin ((x - y) * 2) 0.7 else 0) <= 0.7)%Q).
  { intros x y. destruct (Qgtb x y) eqn:Hg.
    - apply Qgtb_lt in Hg. split; [apply Q.min_glb; lra | apply Q.le_min_r].
    - split; lra. }
  unfold scoreSelection.
  destruct type; simpl;
    try (destruct (bool_decide _)); try (pose proof (Hedge t b)); try (pose proof (Hedge b t));
    lra.
Qed.

(** When the image cannot be analysed the classifier answers with
    confidence 0 and [isSingleGarment = false]. *)
Theorem detectSingleGarment_conservative (url : string) (type : GarmentType) (n : nat) :
  type = top \/ type = bottom ->
  (forall img, ~ decodes w url n img) ->
  exists n',
    detectSingleGarment w url type n
    = (Normal {| isSingleGarment := false; confidence := 0; detectedType := None |}, n').
Proof. apply detectSingleGarment_undecoded. Qed.

(** For [top] and [bottom] too the segmenter hands the image through
    unchanged and reports the full-image decision. *)
Theorem single_garment_segmentation_identity (url : string) (type : GarmentType)
  (n : nat) (img : HTMLImageElement) :
  type = top \/ type = bottom ->
  decodes w url n img ->
  exists r d,
    segmentGarment w url type true n = (Normal r, (3 + n)%nat)
    /\ GarmentSegmentation.success r = true
    /\ segmentedImageDataUrl r = url
    /\ GarmentSegmentation.debug r = Some d
    /\ decision d = using_full_image
    /\ debug_detectedType d = Some type
    /\ seg_processedDimensions d = seg_originalDimensions d.
Proof.
  intros Htype (Himg & Hc1 & Hc2 & Hw & Hh).
  unfold segmentGarment, try_catch, bind, loadImage, imageToCanvas,
    getContext2d, ask, ask_total, bind.
  rewrite Himg, Hc1. simpl. rewrite Hc2. simpl.
  rewrite getImageData_positive by assumption. unfold ret.
  destruct Htype as [-> | ->]; eexists _, _; repeat split; reflexivity.
Qed.

End Further.

Section FurtherPipeline.
Import PreprocessingPipeline.
Variable w : World.

(** The final verification looks at the two background flags without
    looking at the options: a call that does not request both removals
    cannot succeed. *)
Theorem removal_not_requested_never_succeeds (person garment : File)
  (options : PreprocessingOptions) (n : nat) :
  removePersonBackground options = Some false
  \/ removeGarmentBackground options = Some false ->
  exists r n',
    preprocessImages w person garment options n = (Normal r, n')
    /\ success r = false
    /\ processedPersonImage r = person
    /\ processedGarmentImage r = garment.
Proof.
  intros Hoff.
  destruct (proj1 (returns_run _ _ _) (preprocessImages_returns w person garment options n))
    as (r & n' & Hrun & Hcase).
  exists r, n'. split; [exact Hrun|].
  destruct Hcase as [Hok | Hfail].
  - destruct Hok as (_ & _ & _ & _ & Hp & Hg & _).
    destruct Hoff as [H | H]; rewrite H in *; discriminate.
  - destruct Hfail as (Hs & Hp & Hg & _). repeat split; assumption.
Qed.

End FurtherPipeline.

Section FurtherCompositor.
Import BackgroundCompositing.
Variable w : World.

(** The compositor never throws; a failure carries no image and an error
    message. *)
Theorem compositeImageWithBackground_returns (url : string)
  (backgroundType : BackgroundType) (n : nat) :
  exists r n',
    compositeImageWithBackground w url backgroundType n = (Normal r, n')
    /\ (success r = true -> error r = None /\ file_type (compositedImageFile r) = "image/png")
    /\ (success r = false ->
        compositedImageDataUrl r = ""
        /\ file_bytes (compositedImageFile r) = []
        /\ exists msg, error r = Some msg /\ msg <> "").
Proof.
  apply returns_run. unfold returns, compositeImageWithBackground.
  apply outcome_try_catch.
  assert (Hhandler : forall (e : Exn) (s : nat),
    outcome
      (ret {| compositedImageDataUrl := "";
              compositedImageFile :=
                {| file_name := "error.png"; file_type := ""; file_bytes := [] |};
              success := false;
              error := Some (or_else (message e) "Background compositing failed") |})
      s
      (fun r _ =>
         (success r = true -> error r = None /\ file_type (compositedImageFile r) = "image/png")
         /\ (success r = false ->
             compositedImageDataUrl r = ""
             /\ file_bytes (compositedImageFile r) = []
             /\ exists msg, error r = Some msg /\ msg <> ""))
      (fun _ _ => False)).
  { intros e s. apply outcome_ret. simpl. split; [discriminate|]. intros _.
    split; [reflexivity|]. split; [reflexivity|]. eexists. split; [reflexivity|].
    intros Habs.
    assert (Ht : truthy (or_else (message e) "Background compositing failed") = true)
      by (apply or_else_truthy; reflexivity).
    rewrite Habs in Ht. discriminate Ht. }
  apply outcome_bind.
  eapply outcome_weaken; [apply outcome_any | intros fg s1 _ | intros e s' _; apply Hhandler].
  apply outcome_bind.
  eapply outcome_weaken; [apply outcome_any | intros c s2 _ | intros e s' _; apply Hhandler].
  apply outcome_bind. unfold drawnCanvasToFile.
  apply outcome_bind, outcome_ask_total.
  destruct (drawn_to_blob_at w s2 c "image/png") as [b|].
  - repeat wp. simpl. split; [auto | discriminate].
  - apply outcome_throw. apply Hhandler.
Qed.

End FurtherCompositor.

Section FurtherTransparency.
Import BackgroundCompositing.

Lemma hasTransparencyFrom_spec (fuel : nat) :
  forall (k : nat) (data : list Z),
    (length data <= 4 * fuel + (4 * k + 3))%nat ->
    hasTransparencyFrom fuel (4 * k + 3) data = true
    <-> exists p a, (k <= p)%nat /\ data !! (4 * p + 3)%nat = Some a /\ (a < 255)%Z.
Proof.
  induction fuel as [|fuel IH]; intros k data Hlen; cbn [hasTransparencyFrom].
  - split; [discriminate|]. intros (p & a & Hp & Ha & _).
    apply lookup_lt_Some in Ha. lia.
  - destruct (data !! (4 * k + 3)%nat) as [a|] eqn:Hk.
    + destruct (Z.ltb_spec a 255) as [Hlt | Hge].
      * split; [intros _; exists k, a; auto | reflexivity].
      * replace (4 * k + 3 + 4)%nat with (4 * S k + 3)%nat by lia.
        rewrite IH by lia. split.
        -- intros (p & a' & Hp & Ha & Hlt). exists p, a'. split; [lia | auto].
        -- intros (p & a' & Hp & Ha & Hlt).
           destruct (Nat.eq_dec p k) as [-> | Hne].
           ++ rewrite Hk in Ha. injection Ha as ->. lia.
           ++ exists p, a'. split; [lia | auto].
    + split; [discriminate|]. intros (p & a & Hp & Ha & _).
      apply lookup_lt_Some in Ha. apply lookup_ge_None in Hk. lia.
Qed.

(** The transparency scan answers true exactly when some pixel has an
    alpha sample below 255. *)
Theorem hasTransparency_iff (data : list Z) :
  hasTransparency data = true
  <-> exists p a, data !! (4 * p + 3)%nat = Some a /\ (a < 255)%Z.
Proof.
  unfold hasTransparency.
  rewrite (hasTransparencyFrom_spec (length data) 0 data) by lia.
  split.
  - intros (p & a & _ & H). exists p, a. exact H.
  - intros (p & a & H). exists p, a. split; [lia | exact H].
Qed.

End FurtherTransparency.

(** ** The edge-density analysis *)

Section EdgeDensity.
Import GarmentSegmentation.

Lemma foldl_invariant {A B : Type} (P : A -> Prop) (f : A -> B -> A) (l : list B) :
  (forall a b, P a -> P (f a b)) -> forall a, P a -> P (foldl f a l).
Proof.
  intros Hf. induction l as [|b l IH]; intros a Ha; simpl; [exact Ha|].
  apply IH, Hf, Ha.
Qed.

Lemma countPixel_ordered (width topHalfHeight : Z) (data : list Z) (acc : EdgeCounts)
  (y x : Z) :
  orderedCounts acc -> orderedCounts (countPixel width topHalfHeight data acc y x).
Proof.
  unfold orderedCounts, countPixel. intros [Ht Hb].
  destruct (gradientAboveThreshold _ _ _ _), (y <? topHalfHeight)%Z; simpl; lia.
Qed.

Lemma countEdges_ordered (imageData : ImageData) : orderedCounts (countEdges imageData).
Proof.
  unfold countEdges.
  apply foldl_invariant; [|unfold orderedCounts; simpl; lia].
  intros acc y Hacc. apply foldl_invariant; [|exact Hacc].
  intros acc' x Hacc'. apply countPixel_ordered, Hacc'.
Qed.

Lemma density_in_unit_interval (edges pixels : Z) :
  (0 <= edges <= pixels)%Z ->
  (0 <= (if (0 <? pixels)%Z then inject_Z edges / inject_Z pixels else 0) <= 1)%Q.
Proof.
  intros H. destruct (Z.ltb_spec 0 pixels) as [Hp|Hp]; [|split; discriminate].
  destruct pixels as [|p|p]; try lia.
  unfold Qle, Qdiv, Qmult, Qinv, inject_Z. cbn. split; nia.
Qed.

(** Both edge densities are fractions of pixels: they lie between 0 and 1,
    for every image data, whatever its size and contents. *)
Theorem edge_densities_in_unit_interval (imageData : ImageData) :
  (0 <= topEdgeDensity (analyzeEdgeDensity imageData) <= 1)%Q
  /\ (0 <= bottomEdgeDensity (analyzeEdgeDensity imageData) <= 1)%Q.
Proof.
  destruct (countEdges_ordered imageData) as [Ht Hb].
  unfold analyzeEdgeDensity; cbn [topEdgeDensity bottomEdgeDensity].
  split; apply density_in_unit_interval; assumption.
Qed.

Lemma foldl_snoc {A B : Type} (f : A -> B -> A) (a : A) (l : list B) (x : B) :
  foldl f a (l ++ [x]) = f (foldl f a l) x.
Proof. revert a. induction l as [|y l IH]; intros a; simpl; [reflexivity | apply IH]. Qed.

(** One row of the inner loop adds its [cells] pixels to the half the row
    lies in. *)
Lemma countRow_pixels (width half : Z) (data : list Z) (y : Z) (xs : list Z)
  (acc : EdgeCounts) :
  let acc' := foldl (fun a x => countPixel width half data a y x) acc xs in
  topPixels acc'
  = (topPixels acc + (if (y <? half)%Z then Z.of_nat (length xs) else 0))%Z
  /\ bottomPixels acc'
     = (bottomPixels acc + (if (y <? half)%Z then 0 else Z.of_nat (length xs)))%Z.
Proof.
  cbv zeta. revert acc. induction xs as [|x xs IH]; intros acc.
  - simpl. destruct (y <? half)%Z; lia.
  - cbn [foldl length]. destruct (IH (countPixel width half data acc y x)) as [-> ->].
    unfold countPixel; cbn [topPixels bottomPixels].
    destruct (y <? half)%Z; lia.
Qed.

Lemma countRows_pixels (width half : Z) (data : list Z) (r : nat) :
  let cells := Z.of_nat (length (seqZ 1 (width - 2))) in
  let c :=
    foldl
      (fun acc y => foldl (fun acc' x => countPixel width half data acc' y x)
                      acc (seqZ 1 (width - 2)))
      {| topEdges := 0; bottomEdges := 0; topPixels := 0; bottomPixels := 0 |}
      (seqZ 1 (Z.of_nat r)) in
  topPixels c = (cells * Z.max 0 (Z.min (Z.of_nat r) (half - 1)))%Z
  /\ bottomPixels c
     = (cells * (Z.of_nat r - Z.max 0 (Z.min (Z.of_nat r) (half - 1))))%Z.
Proof.
  cbv zeta. induction r as [|r [IHt IHb]].
  - simpl. lia.
  - rewrite seqZ_S, foldl_snoc.
    match goal with
    | |- context [foldl _ ?acc (seqZ 1 (width - 2))] =>
        destruct (countRow_pixels width half data (1 + Z.of_nat r)
                    (seqZ 1 (width - 2)) acc) as [Ht Hb]
    end.
    cbv zeta in Ht, Hb. rewrite Ht, Hb, IHt, IHb.
    destruct (Z.ltb_spec (1 + Z.of_nat r) half); nia.
Qed.

Lemma countEdges_pixels (imageData : ImageData) :
  let width := id_width imageData in
  let height := id_height imageData in
  let cells := Z.max 0 (width - 2) in
  let rows := Z.max 0 (height - 2) in
  let topRows := Z.max 0 (Z.min rows (height / 2 - 1)) in
  topPixels (countEdges imageData) = (cells * topRows)%Z
  /\ bottomPixels (countEdges imageData) = (cells * (rows - topRows))%Z.
Proof.
  cbv zeta. unfold countEdges.
  pose proof (countRows_pixels (id_width imageData) (id_height imageData / 2)
                (id_data imageData) (Z.to_nat (id_height imageData - 2))) as H.
  cbv zeta in H. rewrite length_seqZ in H.
  destruct (Z.le_gt_cases (id_height imageData - 2) 0) as [Hle|Hgt].
  - rewrite (seqZ_nil 1 (id_height imageData - 2)) by exact Hle.
    cbn [foldl topPixels bottomPixels].
    replace (Z.max 0 (id_height imageData - 2)) with 0%Z by lia.
    replace (Z.max 0 (Z.min 0 (id_height imageData / 2 - 1))) with 0%Z by lia.
    lia.
  - rewrite Z2Nat.id in H by lia. destruct H as [-> ->].
    replace (Z.max 0 (id_height imageData - 2)) with (id_height imageData - 2)%Z by lia.
    replace (Z.of_nat (Z.to_nat (id_width imageData - 2)))
      with (Z.max 0 (id_width imageData - 2)) by lia.
    split; reflexivity.
Qed.

(** The pixels [analyzeEdgeDensity] counts are those of the interior of the
    image (the outermost rows and columns are left out): [width - 2] per
    row, the rows 1 to [height / 2 - 1] for the top half and the rows
    [height / 2] to [height - 2] for the bottom half.  An image less than
    3 pixels wide or high therefore has both densities 0, and an image less
    than 4 pixels high has top density 0. *)
Theorem interior_pixel_counts (imageData : ImageData) :
  let width := id_width imageData in
  let height := id_height imageData in
  ((2 <= width)%Z -> (2 <= height)%Z ->
   topPixels (countEdges imageData) = ((width - 2) * (height / 2 - 1))%Z
   /\ bottomPixels (countEdges imageData)
      = ((width - 2) * (height - 1 - height / 2))%Z)
  /\ ((width <= 2)%Z \/ (height <= 2)%Z ->
      analyzeEdgeDensity imageData
      = {| topEdgeDensity := 0; bottomEdgeDensity := 0 |})
  /\ ((height <= 3)%Z -> topEdgeDensity (analyzeEdgeDensity imageData) = 0%Q).
Proof.
  cbv zeta. destruct (countEdges_pixels imageData) as [Ht Hb]. cbv zeta in Ht, Hb.
  split; [|split].
  - intros Hw Hh. rewrite Ht, Hb.
    assert (1 <= id_height imageData / 2)%Z by (apply Z.div_le_lower_bound; lia).
    assert (id_height imageData / 2 <= id_height imageData - 1)%Z
      by (apply Z.lt_le_pred, Z.div_lt; lia).
    replace (Z.max 0 (id_width imageData - 2)) with (id_width imageData - 2)%Z by lia.
    replace (Z.max 0 (id_height imageData - 2)) with (id_height imageData - 2)%Z by lia.
    replace (Z.max 0 (Z.min (id_height imageData - 2) (id_height imageData / 2 - 1)))
      with (id_height imageData / 2 - 1)%Z by lia.
    split; [reflexivity | f_equal; lia].
  - intros Hsmall. unfold analyzeEdgeDensity. rewrite Ht, Hb.
    assert (Hzero : (Z.max 0 (id_width imageData - 2) = 0
                     \/ Z.max 0 (id_height imageData - 2) = 0)%Z) by lia.
    destruct Hzero as [-> | Hrows].
    + rewrite !Z.mul_0_l. reflexivity.
    + rewrite Hrows.
      replace (Z.max 0 (Z.min 0 (id_height imageData / 2 - 1))) with 0%Z by lia.
      rewrite !Z.mul_0_r. reflexivity.
  - intros Hh. unfold analyzeEdgeDensity; cbn [topEdgeDensity]. rewrite Ht.
    assert (id_height imageData / 2 <= 1)%Z
      by (apply Z.lt_succ_r, Z.div_lt_upper_bound; lia).
    replace (Z.max 0 (Z.min (Z.max 0 (id_height imageData - 2))
                        (id_height imageData / 2 - 1))) with 0%Z by lia.
    rewrite Z.mul_0_r. reflexivity.
Qed.






End EdgeDensity.

(** ** The scoring of the classifier *)

Section Scoring.
Import GarmentSegmentation.



Lemma Qgtb_proper (x x' y : Q) : (x == x')%Q -> Qgtb x y = Qgtb x' y.
Proof. intros H. unfold Qgtb. rewrite H. reflexivity. Qed.

Lemma Qgtb_proper_r (x y y' : Q) : (y == y')%Q -> Qgtb x y = Qgtb x y'.
Proof. intros H. unfold Qgtb. rewrite H. reflexivity. Qed.

Lemma div_of_Z_scaled (k width height : Z) :
  (0 < k)%Z ->
  match div (of_Z width) (of_Z height), div (of_Z (k * width)) (of_Z (k * height)) with
  | Finite q, Finite q' => (q == q')%Q
  | Infinity, Infinity | NegInfinity, NegInfinity | NaN, NaN => True
  | _, _ => False
  end.
Proof.
  intros Hk. unfold div, of_Z.
  destruct (Z.eq_dec height 0%Z) as [-> | Hh].
  - replace (k * 0)%Z with 0%Z by lia.
    change (Qeq_bool (inject_Z 0) 0) with true. cbv iota.
    unfold Qgtb, Qltb, Qle_bool, inject_Z. cbn [Qnum Qden].
    rewrite !Z.mul_1_r. change (0 * 1)%Z with 0%Z.
    destruct (Z.leb_spec width 0), (Z.leb_spec (k * width) 0); try nia;
      destruct (Z.leb_spec 0 width), (Z.leb_spec 0 (k * width)); try nia; exact I.
  - assert (H1 : Qeq_bool (inject_Z height) 0 = false).
    { apply not_true_iff_false. rewrite Qeq_bool_iff. unfold Qeq, inject_Z; simpl. lia. }
    assert (H2 : Qeq_bool (inject_Z (k * height)) 0 = false).
    { apply not_true_iff_false. rewrite Qeq_bool_iff. unfold Qeq, inject_Z; simpl. nia. }
    rewrite H1, H2.
    rewrite !inject_Z_mult. field.
    split; unfold Qeq, inject_Z; simpl; lia.
Qed.

(** The aspect-ratio class depends on the proportions only: scaling both
    dimensions by the same positive factor does not change it (also when
    the height is 0). *)
Theorem aspect_ratio_scale_invariant (k width height : Z) :
  (0 < k)%Z ->
  detectGarmentTypeByAspectRatio (of_Z (k * width)) (of_Z (k * height))
  = detectGarmentTypeByAspectRatio (of_Z width) (of_Z height).
Proof.
  intros Hk. pose proof (div_of_Z_scaled k width height Hk) as H.
  unfold detectGarmentTypeByAspectRatio.
  destruct (div (of_Z width) (of_Z height)) as [q| | |],
           (div (of_Z (k * width)) (of_Z (k * height))) as [q'| | |];
    try (exfalso; exact H); try reflexivity.
  unfold ltb; simpl.
  rewrite (Qgtb_proper q' q 1.2) by (symmetry; exact H).
  rewrite (Qgtb_proper_r 0.8 q' q) by (symmetry; exact H).
  reflexivity.
Qed.

End Scoring.

(** ** More on background removal *)

Section LocalFallbackMore.
Import BackgroundRemoval.

(** Induction on a sample array, one pixel (four samples) at a time. *)
Lemma pixel_induction (P : list Z -> Prop) :
  P [] -> (forall r, P [r]) -> (forall r g, P [r; g]) -> (forall r g b, P [r; g; b]) ->
  (forall r g b a rest, P rest -> P (r :: g :: b :: a :: rest)) ->
  forall data, P data.
Proof.
  intros H0 H1 H2 H3 H4.
  fix IH 1. intros [|r [|g [|b [|a rest]]]];
    [exact H0 | apply H1 | apply H2 | apply H3 | apply H4, IH].
Qed.

Lemma lightenChunks_idempotent (data : list Z) :
  lightenChunks (lightenChunks data) = lightenChunks data.
Proof.
  induction data as [| | | |r g b a rest IH] using pixel_induction; try reflexivity.
  cbn [lightenChunks]. rewrite IH.
  destruct (Qgtb (brightness r g b) 240); reflexivity.
Qed.

(** Running the loop of the local fallback a second time changes nothing. *)
Theorem local_fallback_idempotent (data : list Z) :
  makeLightPixelsTransparent (makeLightPixelsTransparent data)
  = makeLightPixelsTransparent data.
Proof. rewrite !makeLightPixelsTransparent_chunks. apply lightenChunks_idempotent. Qed.


Lemma lightenChunks_dark (data : list Z) :
  noLightPixel data -> lightenChunks data = data.
Proof.
  induction data as [| | | |r g b a rest IH] using pixel_induction; try reflexivity.
  intros Hdark. cbn [lightenChunks].
  rewrite brightness_threshold.
  pose proof (Hdark 0%nat r g b eq_refl eq_refl eq_refl) as H0.
  destruct (Z.ltb_spec 720 (r + g + b)); [lia|].
  rewrite IH; [reflexivity|].
  intros p r' g' b' Hr Hg Hb.
  apply (Hdark (S p) r' g' b').
  - replace (4 * S p)%nat with (S (S (S (S (4 * p))))) by lia. exact Hr.
  - replace (4 * S p + 1)%nat with (S (S (S (S (4 * p + 1))))) by lia. exact Hg.
  - replace (4 * S p + 2)%nat with (S (S (S (S (4 * p + 2))))) by lia. exact Hb.
Qed.

(** Success of the local fallback does not mean that anything was
    removed: on an image without a pixel of brightness above 240 the loop
    leaves every sample as it is, and the fallback still returns
    [success = true], with the encoding of the unchanged image. *)
Theorem local_fallback_keeps_dark_image (w : World) (file : File) (dbg : bool)
  (n : nat) (img : HTMLImageElement) :
  decodes w (object_url_at w (S n) (blob_of_file file)) (2 + n) img ->
  noLightPixel (img_data img) ->
  makeLightPixelsTransparent (img_data img) = img_data img
  /\ exists res,
      removeBackgroundClientSide w file dbg n = (Normal res, (6 + n)%nat)
      /\ success res = true
      /\ imageDataUrl res
         = to_data_url w
             {| cv_width := img_width img;
                cv_height := img_height img;
                cv_data := img_data img |}
             "image/png".
Proof.
  intros Hdec Hdark.
  assert (Hsame : makeLightPixelsTransparent (img_data img) = img_data img)
    by (rewrite makeLightPixelsTransparent_chunks; apply lightenChunks_dark, Hdark).
  split; [exact Hsame|].
  destruct (removeBackgroundClientSide_decoded w file dbg n img Hdec) as (res & Hrun & Hs & Hu).
  exists res. rewrite Hsame in Hu. repeat split; assumption.
Qed.

End LocalFallbackMore.

Section RemovalShape.
Import BackgroundRemoval.
Variable w : World.

Lemma removeBackgroundWithReplicate_shape (file : File) (dbg : bool) (n : nat) :
  returns (removeBackgroundWithReplicate w file dbg) n
    (fun r _ => attemptShape replicate dbg r
                /\ (success r = true -> forall d, debug r = Some d -> warnings d = None)).
Proof.
  unfold returns, removeBackgroundWithReplicate.
  unfold performance_now, fileToDataUrl, loadImage, createObjectURL,
    imageToCanvas, getContext2d, revokeObjectURL.
  destruct dbg; repeat wp.
  all: unfold attemptShape; simpl.
  all: repeat split; intros; try discriminate; try congruence; eauto.
  all: try (eexists; split; [reflexivity|]; apply or_else_truthy; reflexivity).
  all: try (eexists; split; [reflexivity|]; split; [reflexivity|]; intros; try discriminate;
            split; reflexivity).
  all: try match goal with
           | H : Some _ = Some ?d |- warnings ?d = None => inversion H; reflexivity
           end.
  all: eexists; (split; [reflexivity|]);
    match goal with |- truthy (if truthy ?x then _ else _) = true =>
      destruct (truthy x) eqn:E; [exact E | reflexivity] end.
Qed.

Lemma removeBackgroundClientSide_shape (file : File) (dbg : bool) (n : nat) :
  returns (removeBackgroundClientSide w file dbg) n
    (fun r _ => attemptShape client_side dbg r
                /\ (forall d, debug r = Some d ->
                      processedDimensions d = originalDimensions d
                      /\ is_Some (warnings d))).
Proof.
  unfold returns, removeBackgroundClientSide.
  unfold performance_now, fileToDataUrl, loadImage, createObjectURL,
    imageToCanvas, getContext2d, revokeObjectURL, getImageData.
  destruct dbg; repeat wp.
  all: unfold attemptShape; simpl.
  all: repeat split; intros; try discriminate; try congruence; eauto.
  all: try (eexists; split; [reflexivity|]; apply or_else_truthy; reflexivity).
  all: try (eexists; split; [reflexivity|]; split; [reflexivity|]; intros; try discriminate;
            split; reflexivity).
  all: try match goal with
           | H : Some _ = Some ?d |- _ => inversion H; simpl; eauto
           end.
Qed.

(** Every result of [removeBackground] is well formed: a success carries no
    error, a failure carries no image and a non-empty message; the debug
    record is present exactly when it was requested, and its method tells
    which attempt produced the result. *)
Theorem removeBackground_result_shape (file : File) (dbg : bool) (n : nat) :
  exists r n',
    removeBackground w file dbg n = (Normal r, n')
    /\ (success r = true -> error r = None)
    /\ (success r = false ->
        imageDataUrl r = "" /\ exists msg, error r = Some msg /\ truthy msg = true)
    /\ (dbg = false -> debug r = None)
    /\ (dbg = true ->
        exists d,
          debug r = Some d
          /\ (method d = replicate -> success r = true /\ warnings d = None)
          /\ (method d = client_side ->
              processedDimensions d = originalDimensions d
              /\ exists ws msg,
                  warnings d = Some ws /\ In (replicateFailed (Some msg)) ws)).
Proof.
  destruct (proj1 (returns_run _ _ _) (removeBackgroundWithReplicate_shape file dbg n))
    as (r1 & n1 & Hrun1 & (Hok1 & Hfail1 & Hdbg1) & Hwarn1).
  destruct (proj1 (returns_run _ _ _) (removeBackgroundClientSide_shape file dbg n1))
    as (r2 & n2 & Hrun2 & (Hok2 & Hfail2 & Hdbg2) & Hdims2).
  unfold removeBackground, bind. rewrite Hrun1.
  destruct (success r1) eqn:Hs1.
  - exists r1, n1. unfold ret. split; [reflexivity|].
    split; [intros _; apply Hok1; reflexivity|].
    split; [intros Hf; rewrite Hs1 in Hf; discriminate Hf|].
    split; [intros ->; exact Hdbg1|].
    intros ->. destruct Hdbg1 as (d & Hd & Hm & _).
    exists d. split; [exact Hd|]. split.
    + intros _. split; [exact Hs1 | apply (Hwarn1 eq_refl d Hd)].
    + rewrite Hm. discriminate.
  - rewrite Hrun2. destruct dbg.
    + destruct Hdbg1 as (d1 & Hd1 & Hm1 & _).
      destruct Hdbg2 as (d2 & Hd2 & Hm2 & _).
      destruct (Hfail1 eq_refl) as (_ & msg & Herr1 & _).
      rewrite Hd1, Hd2. unfold ret. eexists _, n2. split; [reflexivity|].
      unfold set_warnings. rewrite Hd2. simpl.
      split; [exact Hok2|]. split; [exact Hfail2|]. split; [discriminate|].
      intros _. eexists. split; [reflexivity|]. simpl. split.
      * rewrite Hm2. discriminate.
      * intros _. split; [apply (Hdims2 d2 Hd2)|].
        eexists _, msg. split; [reflexivity|]. rewrite Herr1.
        apply in_or_app. right. left. reflexivity.
    + rewrite Hdbg1. exists r2, n2. unfold ret. split; [reflexivity|].
      split; [exact Hok2|]. split; [exact Hfail2|].
      split; [intros _; exact Hdbg2 | discriminate].
Qed.

End RemovalShape.

(** ** Conversions between files and data URLs *)

Section Base64RoundTrip.
Import Base64Helpers.

Lemma split_no_sep (sep : ascii) (s : string) :
  includes_char sep s = false -> split sep s = [s].
Proof.
  induction s as [|c rest IH]; simpl; [reflexivity|].
  intros H. apply orb_false_iff in H as [Hc Hrest].
  rewrite Hc, (IH Hrest). reflexivity.
Qed.

Lemma split_app_sep (sep : ascii) (s t : string) :
  includes_char sep s = false ->
  split sep (s +:+ String sep t) = s :: split sep t.
Proof.
  induction s as [|c rest IH]; simpl.
  - intros _. rewrite Ascii.eqb_refl. reflexivity.
  - intros H. apply orb_false_iff in H as [Hc Hrest].
    rewrite Hc, (IH Hrest). reflexivity.
Qed.

Lemma includes_char_app (c : ascii) (s t : string) :
  includes_char c (s +:+ t) = includes_char c s || includes_char c t.
Proof.
  induction s as [|c' rest IH]; simpl; [reflexivity|].
  rewrite IH. apply orb_assoc.
Qed.

Lemma append_assoc (s t u : string) : (s +:+ t) +:+ u = s +:+ t +:+ u.
Proof.
  induction s as [|c s IH]; [reflexivity|].
  change (String c ((s +:+ t) +:+ u) = String c (s +:+ t +:+ u)).
  f_equal. exact IH.
Qed.

Lemma split_data_url (base64 mimeType : string) :
  includes_char comma mimeType = false ->
  split comma ("data:" +:+ mimeType +:+ ";base64," +:+ base64)
  = ("data:" +:+ mimeType +:+ ";base64") :: split comma base64.
Proof.
  intros Hm.
  replace ("data:" +:+ mimeType +:+ ";base64," +:+ base64)
    with (("data:" +:+ mimeType +:+ ";base64") +:+ String comma base64).
  - apply split_app_sep. rewrite !includes_char_app, Hm. reflexivity.
  - rewrite !append_assoc. reflexivity.
Qed.

(** [fileToBase64] undoes [base64ToDataUrl]: on a file that reads as
    [base64ToDataUrl base64 mimeType] it returns [base64], provided neither
    string contains a comma; a payload with a comma is cut at the comma.
    When the data URL has no comma at all the result is [undefined], not an
    exception. *)
Theorem fileToBase64_round_trip (w : World) (file : File) (n : nat) :
  (forall (base64 : string) (mimeType : option string),
      includes_char comma (default "image/png" mimeType) = false ->
      read_as_data_url_at w n file = Normal (base64ToDataUrl base64 mimeType) ->
      (includes_char comma base64 = false ->
       fileToBase64 w file n = (Normal (Some base64), S n))
      /\ (forall before after,
            base64 = before +:+ String comma after ->
            includes_char comma before = false ->
            fileToBase64 w file n = (Normal (Some before), S n)))
  /\ (forall url : string,
        read_as_data_url_at w n file = Normal url ->
        includes_char comma url = false ->
        fileToBase64 w file n = (Normal None, S n)).
Proof.
  split.
  - intros base64 mimeType Hm Hread.
    unfold fileToBase64, fileToDataUrl, bind, ask, ret. rewrite Hread.
    unfold base64ToDataUrl. rewrite (split_data_url _ _ Hm). split.
    + intros Hb. rewrite (split_no_sep _ _ Hb). reflexivity.
    + intros before after -> Hb. rewrite (split_app_sep _ _ _ Hb). reflexivity.
  - intros url Hread Hno.
    unfold fileToBase64, fileToDataUrl, bind, ask, ret. rewrite Hread.
    rewrite (split_no_sep _ _ Hno). reflexivity.
Qed.

End Base64RoundTrip.

Section FileConversion.
Import GarmentSegmentation PreprocessingPipeline.
Variable w : World.

Lemma dataUrlToFile_outcome (dataUrl fileName : string) (n : nat) :
  outcome (dataUrlToFile w dataUrl fileName) n
    (fun f _ =>
       file_name f = fileName
       /\ truthy (file_type f) = true
       /\ (includes "bg-removed" fileName = true -> file_type f = "image/png")
       /\ (includes "bg-removed" fileName = false ->
           exists blob,
             fetch_blob_at w n dataUrl = Normal blob
             /\ file_bytes f = blob_bytes blob
             /\ file_type f = if truthy (blob_type blob) then blob_type blob
                              else "image/png"))
    (fun _ _ => True).
Proof.
  unfold dataUrlToFile, loadImage, imageToCanvas, getContext2d, canvasToBlob.
  repeat wp; simpl; try exact I.
  - repeat split; try reflexivity.
    apply andb_true_iff in Heqb as [_ Hinc]. intros Hf. rewrite Hinc in Hf. discriminate Hf.
  - destruct (includes "bg-removed" fileName) eqn:Hinc.
    + repeat split; try reflexivity. discriminate.
    + repeat split; try discriminate.
      * destruct (truthy (blob_type a)) eqn:Ht; [exact Ht | reflexivity].
      * intros _. exists a. repeat split; reflexivity.
Qed.

(** Whenever [dataUrlToFile] produces a file, the file has the requested
    name and a non-empty type; a name that contains "bg-removed" forces
    the type image/png, any other name keeps the bytes and the type of the
    fetched blob (image/png when the blob has no type). *)
Theorem dataUrlToFile_shape (dataUrl fileName : string) (n n' : nat) (f : File) :
  dataUrlToFile w dataUrl fileName n = (Normal f, n') ->
  file_name f = fileName
  /\ file_type f <> ""
  /\ (includes "bg-removed" fileName = true -> file_type f = "image/png")
  /\ (includes "bg-removed" fileName = false ->
      exists blob,
        fetch_blob_at w n dataUrl = Normal blob
        /\ file_bytes f = blob_bytes blob
        /\ file_type f = if truthy (blob_type blob) then blob_type blob
                         else "image/png").
Proof.
  intros Hrun. pose proof (dataUrlToFile_outcome dataUrl fileName n) as H.
  unfold outcome in H. rewrite Hrun in H. destruct H as (Hn & Ht & Hpng & Hother).
  split; [exact Hn|]. split; [intros Heq; rewrite Heq in Ht; discriminate Ht|].
  split; assumption.
Qed.

Lemma dataUrlToFile_bg_removed (dataUrl fileName : string) (n n' : nat) (f : File) :
  includes "bg-removed" fileName = true ->
  dataUrlToFile w dataUrl fileName n = (Normal f, n') ->
  file_name f = fileName /\ file_type f = "image/png".
Proof.
  intros Hinc Hrun. pose proof (dataUrlToFile_outcome dataUrl fileName n) as H.
  unfold outcome in H. rewrite Hrun in H. destruct H as (Hn & _ & Ht & _).
  split; [exact Hn | apply Ht, Hinc].
Qed.

(** The files of a successful bundle are PNG files named
    processed-person-bg-removed.png and processed-garment-bg-removed.png. *)
Theorem processed_files_are_png (person garment : File) (options : PreprocessingOptions)
  (n : nat) :
  exists r n',
    preprocessImages w person garment options n = (Normal r, n')
    /\ (success r = true ->
        file_name (processedPersonImage r) = "processed-person-bg-removed.png"
        /\ file_type (processedPersonImage r) = "image/png"
        /\ file_name (processedGarmentImage r) = "processed-garment-bg-removed.png"
        /\ file_type (processedGarmentImage r) = "image/png").
Proof.
  destruct (proj1 (returns_run _ _ _) (preprocessImages_returns w person garment options n))
    as (r & n' & Hrun & Hcase).
  exists r, n'. split; [exact Hrun|].
  intros Hsucc. destruct Hcase as [Hok | Hfail].
  - destruct Hok as (_ & _ & _ & _ & _ & _ & _ & _ & (m1 & m1' & Hpf) & (m2 & m2' & Hgf) & _).
    destruct (dataUrlToFile_bg_removed _ personFileName _ _ _ eq_refl Hpf) as [Hn1 Ht1].
    destruct (dataUrlToFile_bg_removed _ garmentFileName _ _ _ eq_refl Hgf) as [Hn2 Ht2].
    repeat split; assumption.
  - destruct Hfail as (Hs & _). rewrite Hs in Hsucc. discriminate Hsucc.
Qed.

End FileConversion.

(** ** The background-removal route *)

Section Route.
Import RemoveBackgroundRoute BackgroundRemoval.

Lemma POST_returns (server : Server) (request : NextRequest) (n : nat) :
  returns (POST server request) n (routeAnswer server request n).
Proof.
  unfold returns, POST, routeAnswer.
  repeat wp.
  all: split;
    [intros Htoken;
     first [ rewrite Htoken in *; discriminate | split; reflexivity ]|].
  all: split;
    [intros Hstatus; try (simpl in Hstatus; discriminate Hstatus)
    |intros Hstatus; try (exfalso; apply Hstatus; reflexivity)].
  all: try (split; [first [left; reflexivity | right; reflexivity]|];
            split; [reflexivity|];
            eexists; split; [reflexivity|];
            first [reflexivity | apply or_else_truthy; reflexivity]).
  split; [reflexivity|].
  apply negb_false_iff in Heqb0.
  eexists _, _, _, _, _. repeat split; eassumption.
Qed.

(** The route never throws.  Without a configured token it answers 500
    at once, whatever the request, and contacts nothing.  A 200 response is
    always labelled image/png and carries the bytes fetched from the
    model's output URL; every other response has status 400 or 500 and a
    JSON body with a non-empty error message. *)
Theorem route_always_responds (server : Server) (request : NextRequest) (n : nat) :
  exists r n',
    POST server request n = (Normal r, n')
    /\ (truthy (default "" (REPLICATE_API_TOKEN server)) = false ->
        r = json "Replicate API token not configured" 500 /\ n' = n)
    /\ (status r = 200%Z ->
        contentType r = "image/png"
        /\ exists entries imageFile output imageResponse bytes,
            formData request = Normal entries
            /\ get "image" entries = Some (FileEntry imageFile)
            /\ run_at server n (default "" (REPLICATE_API_TOKEN server)) model
                 ("data:" +:+ file_type imageFile +:+ ";base64,"
                  +:+ toBase64 (file_bytes imageFile))
               = Normal output
            /\ fetch_at server (S n) output = Normal imageResponse
            /\ ok imageResponse = true
            /\ blob imageResponse = Normal bytes
            /\ body r = ImageBuffer bytes)
    /\ (status r <> 200%Z ->
        (status r = 400%Z \/ status r = 500%Z)
        /\ contentType r = "application/json"
        /\ exists msg, body r = JsonError msg /\ truthy msg = true).
Proof.
  destruct (proj1 (returns_run _ _ _) (POST_returns server request n))
    as (r & n' & Hrun & H).
  exists r, n'. split; [exact Hrun | exact H].
Qed.

(** What the browser receives from the route: either a failure whose JSON
    body has a non-empty message, or a success whose blob is typed
    image/png. *)
Lemma delivered_response (server : Server) (imageFile : File) (k k' : nat)
  (r : NextResponse) (response : Response) :
  POST server (upload imageFile) k = (Normal r, k') ->
  delivers r response ->
  (resp_ok response = false
   /\ exists msg, resp_json response = Some (JsonObject (Some msg)) /\ truthy msg = true
       /\ (truthy (default "" (REPLICATE_API_TOKEN server)) = false ->
           msg = "Replicate API token not configured"))
  \/ (resp_ok response = true
      /\ truthy (default "" (REPLICATE_API_TOKEN server)) = true
      /\ exists bytes,
          resp_blob response = Normal {| blob_type := "image/png"; blob_bytes := bytes |}).
Proof.
  intros Hrun (Hstatus & Hok & Hbody).
  pose proof (POST_returns server (upload imageFile) k) as H.
  apply returns_run in H. destruct H as (r0 & k0 & Hrun0 & Htoken & H200 & Hother).
  rewrite Hrun in Hrun0. injection Hrun0 as <- <-.
  destruct (Z.eq_dec (status r) 200%Z) as [Heq | Hne].
  - right. destruct (H200 Heq) as (Hct & ? & ? & ? & ? & bytes & _ & _ & _ & _ & _ & _ & Hb).
    rewrite Hb in Hbody. rewrite Hct in Hbody. rewrite Hok, Heq.
    split; [reflexivity|]. split; [|exists bytes; exact Hbody].
    destruct (truthy (default "" (REPLICATE_API_TOKEN server))) eqn:Ht; [reflexivity|].
    destruct (Htoken eq_refl) as [-> _]. discriminate Heq.
  - left. destruct (Hother Hne) as (Hcode & _ & msg & Hb & Hmsg).
    rewrite Hb in Hbody. split.
    + rewrite Hok. destruct Hcode as [-> | ->]; reflexivity.
    + exists msg. split; [exact Hbody|]. split; [exact Hmsg|].
      intros Hno. destruct (Htoken Hno) as [-> _]. simpl in Hb. congruence.
Qed.

(** The remote attempt of the browser against this route.  A success
    always comes from a blob typed image/png, so the returned URL is an
    object URL of that blob (the conversion of other formats through a
    canvas is never needed); and when the server has no token the attempt
    fails, without debug information with exactly the route's message. *)
Theorem remote_attempt_through_route (w : World) (server : Server) (file : File)
  (dbg : bool) (n : nat) :
  servedByRoute w server ->
  exists r n',
    removeBackgroundWithReplicate w file dbg n = (Normal r, n')
    /\ (success r = true ->
        exists bytes k,
          imageDataUrl r
          = object_url_at w k {| blob_type := "image/png"; blob_bytes := bytes |})
    /\ (truthy (default "" (REPLICATE_API_TOKEN server)) = false ->
        success r = false
        /\ (dbg = false -> error r = Some "Replicate API token not configured")).
Proof.
  intros Hserved.
  assert (Hpost : forall m response,
             post_image_at w m "/api/remove-background" file = Normal response ->
             (resp_ok response = false
              /\ exists msg, resp_json response = Some (JsonObject (Some msg))
                  /\ truthy msg = true
                  /\ (truthy (default "" (REPLICATE_API_TOKEN server)) = false ->
                      msg = "Replicate API token not configured"))
             \/ (resp_ok response = true
                 /\ truthy (default "" (REPLICATE_API_TOKEN server)) = true
                 /\ exists bytes,
                     resp_blob response
                     = Normal {| blob_type := "image/png"; blob_bytes := bytes |})).
  { intros m response Hm.
    destruct (Hserved m file) as (response' & k & r & k' & Hm' & Hrun & Hdel).
    rewrite Hm in Hm'. injection Hm' as <-.
    exact (delivered_response server file k k' r response Hrun Hdel). }
  assert (Hnothrow : forall m e,
             post_image_at w m "/api/remove-background" file = Throw e -> False).
  { intros m e Hm.
    destruct (Hserved m file) as (response' & k & r & k' & Hm' & _).
    rewrite Hm in Hm'. discriminate Hm'. }
  apply returns_run. unfold returns, removeBackgroundWithReplicate.
  unfold performance_now, fileToDataUrl, loadImage, createObjectURL,
    imageToCanvas, getContext2d, revokeObjectURL.
  destruct dbg; repeat wp.
  all: try match goal with
         | H : post_image_at _ _ _ _ = Throw _ |- _ => destruct (Hnothrow _ _ H)
         end.
  all: repeat match goal with
         | H : post_image_at _ _ _ _ = Normal _ |- _ => apply Hpost in H
         end.
  all: repeat match goal with
         | H : _ \/ _ |- _ =>
             destruct H as [(Hok & msg & Hjson & Hmsg & Hno) | (Hok & Htok & bytes & Hblob)]
         end.
  all: try (rewrite Hok in *; discriminate).
  all: try (rewrite Hjson in *; discriminate).
  all: try (rewrite Hblob in *; discriminate).
  all: try match goal with
         | H : resp_blob _ = Normal ?b |- _ =>
             rewrite Hblob in H; injection H as <-
         end.
  all: try discriminate.
  all: simpl.
  all: split; [intros Hs; try discriminate Hs | intros Hno'; try (rewrite Hno' in *; discriminate)].
  all: try (eexists _, _; reflexivity).
  all: split; [reflexivity|]; intros Hdbg; try discriminate Hdbg.
  rewrite Hjson in Heqj. simpl in Heqj. injection Heqj as <-.
  rewrite (Hno Hno'). reflexivity.
Qed.

End Route.

(** ** The masking segmenter *)

Section Advanced.
Import GarmentSegmentation AdvancedSegmentation.




Lemma maskUpTo_row (value : Z -> Z) (width size y : Z) (c : nat) (mask : list Z) :
  (0 < width)%Z -> (0 <= y)%Z -> (Z.of_nat c <= width)%Z ->
  (y * width + width <= size)%Z ->
  maskUpTo value width size (y * width) mask ->
  maskUpTo value width size (y * width + Z.of_nat c)
    (foldl (fun mask' x => <[Z.to_nat (y * width + x) := value y]> mask') mask
       (seqZ 0 (Z.of_nat c))).
Proof.
  intros Hw Hy Hc Hsize Hmask.
  induction c as [|c IH].
  - simpl. rewrite Z.add_0_r. exact Hmask.
  - rewrite seqZ_S, foldl_snoc. rewrite Z.add_0_l.
    destruct (IH ltac:(lia)) as [Hlen Hlook].
    split; [rewrite length_insert; exact Hlen|].
    intros j Hj.
    destruct (Z.eq_dec j (y * width + Z.of_nat c)%Z) as [-> | Hne].
    + rewrite list_lookup_insert_eq by lia.
      replace (y * width + Z.of_nat c <? y * width + Z.of_nat (S c))%Z with true
        by (symmetry; apply Z.ltb_lt; lia).
      f_equal. f_equal. symmetry.
      rewrite Z.add_comm, Z.div_add by lia.
      rewrite Z.div_small by lia. reflexivity.
    + rewrite list_lookup_insert_ne by lia.
      rewrite (Hlook j Hj).
      destruct (Z.ltb_spec j (y * width + Z.of_nat c)%Z),
               (Z.ltb_spec j (y * width + Z.of_nat (S c))%Z); try reflexivity; lia.
Qed.

Lemma maskUpTo_full_row (value : Z -> Z) (width size y : Z) (mask : list Z) :
  (0 < width)%Z -> (0 <= y)%Z -> (y * width + width <= size)%Z ->
  maskUpTo value width size (y * width) mask ->
  maskUpTo value width size (y * width + width)
    (foldl (fun mask' x => <[Z.to_nat (y * width + x) := value y]> mask') mask
       (seqZ 0 width)).
Proof.
  intros Hw Hy Hsize Hmask.
  pose proof (maskUpTo_row value width size y (Z.to_nat width) mask
                Hw Hy ltac:(lia) Hsize Hmask) as H.
  rewrite Z2Nat.id in H by lia. exact H.
Qed.


Lemma maskUpTo_rows (garmentType : GarmentType) (width height : Z) (r : nat) :
  (0 < width)%Z -> (Z.of_nat r <= height)%Z ->
  maskUpTo (maskValue garmentType height) width (width * height) (Z.of_nat r * width)
    (foldl
       (fun mask y =>
          foldl
            (fun mask' x =>
               <[Z.to_nat (y * width + x) := maskValue garmentType height y]> mask')
            mask (seqZ 0 width))
       (list.replicate (Z.to_nat (width * height)) 0%Z)
       (seqZ 0 (Z.of_nat r))).
Proof.
  intros Hw Hr. induction r as [|r IH].
  - simpl. split; [apply length_replicate|].
    intros j Hj. rewrite lookup_replicate_2 by lia.
    destruct (Z.ltb_spec j (Z.of_nat 0 * width)%Z); [lia | reflexivity].
  - rewrite seqZ_S, foldl_snoc, Z.add_0_l.
    replace (Z.of_nat (S r) * width)%Z
      with (Z.of_nat r * width + width)%Z by lia.
    apply maskUpTo_full_row; try lia; [nia|].
    apply IH. lia.
Qed.

Lemma buildMask_lookup (garmentType : GarmentType) (width height x y : Z) :
  (0 <= x < width)%Z -> (0 <= y < height)%Z ->
  buildMask garmentType width height !! Z.to_nat (y * width + x)
  = Some (maskValue garmentType height y).
Proof.
  intros Hx Hy.
  pose proof (maskUpTo_rows garmentType width height (Z.to_nat height)
                ltac:(lia) ltac:(lia)) as [_ Hlook].
  rewrite Z2Nat.id in Hlook by lia.
  etransitivity; [exact (Hlook (y * width + x)%Z ltac:(nia))|].
  replace (y * width + x <? height * width)%Z with true
    by (symmetry; apply Z.ltb_lt; nia).
  f_equal. f_equal.
  rewrite Z.add_comm, Z.div_add by lia. rewrite Z.div_small by lia. reflexivity.
Qed.

Lemma buildMask_length (garmentType : GarmentType) (width height : Z) :
  (0 < width)%Z -> (0 <= height)%Z ->
  length (buildMask garmentType width height) = Z.to_nat (width * height).
Proof.
  intros Hw Hh.
  pose proof (maskUpTo_rows garmentType width height (Z.to_nat height)
                ltac:(lia) ltac:(lia)) as [Hlen _].
  rewrite Z2Nat.id in Hlen by lia. exact Hlen.
Qed.

Lemma lookup_insert_fmap {A : Type} (l : list A) (i : nat) (v : A) :
  <[i := v]> l !! i = (fun _ => v) <$> l !! i.
Proof.
  destruct (l !! i) as [x|] eqn:Hi.
  - apply lookup_lt_Some in Hi. rewrite list_lookup_insert_eq by exact Hi. reflexivity.
  - apply lookup_ge_None in Hi. simpl. apply lookup_ge_None. rewrite length_insert. exact Hi.
Qed.


Lemma applyMask_from (mask : list Z) (len : nat) :
  forall (a : nat) (data : list Z) (idx : nat),
    foldl
      (fun data i =>
         if bool_decide (mask !! i = Some 0%Z) then <[(i * 4 + 3)%nat := 0%Z]> data
         else data)
      data (seq a len) !! idx
    = if clears mask a len idx then (fun _ => 0%Z) <$> data !! idx else data !! idx.
Proof.
  induction len as [|len IH]; intros a data idx.
  - simpl. unfold clears.
    destruct (Nat.leb_spec a (idx / 4)), (Nat.ltb_spec (idx / 4) (a + 0));
      rewrite ?andb_false_r, ?andb_false_l; simpl; try reflexivity; lia.
  - cbn [seq foldl]. rewrite IH.
    pose proof (Nat.div_mod_eq idx 4) as Hdm.
    pose proof (Nat.mod_upper_bound idx 4 ltac:(lia)) as Hm.
    destruct (Nat.eq_dec idx (a * 4 + 3)) as [-> | Hne].
    + assert (Hq : ((a * 4 + 3) / 4 = a)%nat) by lia.
      assert (Hr : ((a * 4 + 3) mod 4 = 3)%nat) by lia.
      unfold clears. rewrite Hq, Hr.
      replace (S a <=? a)%nat with false by (symmetry; apply Nat.leb_gt; lia).
      replace (a <=? a)%nat with true by (symmetry; apply Nat.leb_le; lia).
      replace (a <? a + S len)%nat with true by (symmetry; apply Nat.ltb_lt; lia).
      simpl.
      destruct (bool_decide (mask !! a = Some 0%Z)); [apply lookup_insert_fmap | reflexivity].
    + assert (Hsame :
        (if bool_decide (mask !! a = Some 0%Z) then <[(a * 4 + 3)%nat := 0%Z]> data
         else data) !! idx = data !! idx).
      { destruct (bool_decide _); [apply list_lookup_insert_ne; lia | reflexivity]. }
      rewrite Hsame.
      assert (Hc : clears mask (S a) len idx = clears mask a (S len) idx).
      { unfold clears.
        destruct (Nat.eqb_spec (idx mod 4) 3) as [Hr|Hr]; [|reflexivity].
        assert (idx / 4 <> a)%nat by lia.
        destruct (Nat.leb_spec (S a) (idx / 4)), (Nat.leb_spec a (idx / 4)); try lia;
          destruct (Nat.ltb_spec (idx / 4) (S a + len)),
                   (Nat.ltb_spec (idx / 4) (a + S len)); try lia; reflexivity. }
      rewrite Hc. reflexivity.
Qed.

Lemma applyMask_lookup (mask data : list Z) (idx : nat) :
  applyMask mask data !! idx
  = if clears mask 0 (length mask) idx then (fun _ => 0%Z) <$> data !! idx
    else data !! idx.
Proof. apply applyMask_from. Qed.

Lemma applyMask_length (mask data : list Z) :
  length (applyMask mask data) = length data.
Proof.
  unfold applyMask. generalize (seq 0 (length mask)) as l. intros l.
  revert data. induction l as [|i l IH]; intros data; simpl; [reflexivity|].
  rewrite IH. destruct (bool_decide _); [apply length_insert | reflexivity].
Qed.

Lemma region_bounds (height : Z) :
  topRegionEnd height = (3 * height / 5)%Z
  /\ bottomRegionStart height = (2 * height / 5)%Z.
Proof.
  unfold topRegionEnd, bottomRegionStart, Qfloor, Qmult, inject_Z. cbn [Qnum Qden].
  change (Z.pos (1 * 10)) with 10%Z.
  split.
  - replace (height * 6)%Z with (3 * height * 2)%Z by lia.
    change 10%Z with (5 * 2)%Z. apply Z.div_mul_cancel_r; lia.
  - replace (height * 4)%Z with (2 * height * 2)%Z by lia.
    change 10%Z with (5 * 2)%Z. apply Z.div_mul_cancel_r; lia.
Qed.

(** The masking rule of [segmentGarmentAdvanced]: the colour samples of
    every pixel are kept, the alpha sample is kept in the rows of the
    selected region and set to 0 in the others; the array keeps its
    length. *)
Theorem advanced_mask_pixel_rule (garmentType : GarmentType) (width height : Z)
  (data : list Z) (x y : Z) :
  (0 <= x < width)%Z -> (0 <= y < height)%Z ->
  let p := Z.to_nat (y * width + x) in
  let out := applyMask (buildMask garmentType width height) data in
  length out = length data
  /\ out !! (4 * p)%nat = data !! (4 * p)%nat
  /\ out !! (4 * p + 1)%nat = data !! (4 * p + 1)%nat
  /\ out !! (4 * p + 2)%nat = data !! (4 * p + 2)%nat
  /\ out !! (4 * p + 3)%nat
     = (if shouldInclude garmentType (topRegionEnd height) (bottomRegionStart height) y
        then data !! (4 * p + 3)%nat
        else (fun _ => 0%Z) <$> data !! (4 * p + 3)%nat).
Proof.
  intros Hx Hy. cbv zeta.
  set (p := Z.to_nat (y * width + x)).
  split; [apply applyMask_length|].
  assert (Hcolour : forall k, (k < 3)%nat ->
            applyMask (buildMask garmentType width height) data !! (4 * p + k)%nat
            = data !! (4 * p + k)%nat).
  { intros k Hk. rewrite applyMask_lookup. unfold clears.
    replace ((4 * p + k) mod 4 =? 3)%nat with false; [reflexivity|].
    symmetry. apply Nat.eqb_neq.
    pose proof (Nat.div_mod_eq (4 * p + k) 4).
    pose proof (Nat.mod_upper_bound (4 * p + k) 4 ltac:(lia)). lia. }
  split; [rewrite <- (Nat.add_0_r (4 * p)); apply Hcolour; lia|].
  split; [apply Hcolour; lia|]. split; [apply Hcolour; lia|].
  rewrite applyMask_lookup. unfold clears.
  pose proof (Nat.div_mod_eq (4 * p + 3) 4) as Hdm.
  pose proof (Nat.mod_upper_bound (4 * p + 3) 4 ltac:(lia)) as Hm.
  assert (Hq : ((4 * p + 3) / 4 = p)%nat) by lia.
  assert (Hr : ((4 * p + 3) mod 4 = 3)%nat) by lia.
  rewrite Hq, Hr. rewrite buildMask_length by lia.
  assert (Hin : (p <? 0 + Z.to_nat (width * height))%nat = true)
    by (apply Nat.ltb_lt; unfold p; nia).
  rewrite Hin. unfold p. rewrite (buildMask_lookup _ _ _ _ _ Hx Hy).
  unfold maskValue.
  destruct (shouldInclude _ _ _ y); reflexivity.
Qed.

Lemma applyMask_full (garmentType : GarmentType) (width height : Z) (data : list Z) :
  garmentType = fullBody \/ garmentType = completeOutfit ->
  (0 < width)%Z -> (0 <= height)%Z ->
  applyMask (buildMask garmentType width height) data = data.
Proof.
  intros Htype Hw Hh. apply list_eq. intros idx.
  rewrite applyMask_lookup.
  replace (clears (buildMask garmentType width height) 0
             (length (buildMask garmentType width height)) idx) with false;
    [reflexivity|].
  symmetry. unfold clears. rewrite buildMask_length by lia.
  destruct (Nat.ltb_spec (idx / 4) (0 + Z.to_nat (width * height))) as [Hlt|Hge];
    [|rewrite andb_false_r; reflexivity].
  set (j := Z.of_nat (idx / 4)).
  assert (Hj : (0 <= j < width * height)%Z) by (unfold j; lia).
  assert (Hrow : (0 <= j / width < height)%Z).
  { split; [apply Z.div_pos; lia|]. apply Z.div_lt_upper_bound; lia. }
  assert (Hcol : (0 <= j mod width < width)%Z) by (apply Z.mod_pos_bound; lia).
  pose proof (buildMask_lookup garmentType width height (j mod width) (j / width)
                Hcol Hrow) as Hlook.
  replace (j / width * width + j mod width)%Z with j in Hlook
    by (rewrite (Z.div_mod j width) at 1; lia).
  unfold j in Hlook at 1. rewrite Nat2Z.id in Hlook. rewrite Hlook.
  unfold maskValue. destruct Htype as [-> | ->]; simpl shouldInclude; cbv iota.
  - rewrite bool_decide_eq_false_2 by discriminate. apply andb_false_r.
  - rewrite bool_decide_eq_false_2 by discriminate. apply andb_false_r.
Qed.

(** For a height of [h] rows the region of [top] is the rows before
    [3h / 5] and that of [bottom] the rows from [2h / 5] on: every row
    belongs to at least one of them, and the rows in between to both. *)
Theorem advanced_regions_cover_image (height y : Z) :
  (0 <= y < height)%Z ->
  let keptByTop :=
    shouldInclude top (topRegionEnd height) (bottomRegionStart height) y in
  let keptByBottom :=
    shouldInclude bottom (topRegionEnd height) (bottomRegionStart height) y in
  topRegionEnd height = (3 * height / 5)%Z
  /\ bottomRegionStart height = (2 * height / 5)%Z
  /\ (keptByTop = true <-> (y < 3 * height / 5)%Z)
  /\ (keptByBottom = true <-> (2 * height / 5 <= y)%Z)
  /\ (keptByTop = true \/ keptByBottom = true).
Proof.
  intros Hy. cbv zeta. destruct (region_bounds height) as [-> ->].
  simpl shouldInclude.
  split; [reflexivity|]. split; [reflexivity|].
  split; [apply Z.ltb_lt|]. split; [apply Z.leb_le|].
  assert (2 * height / 5 <= 3 * height / 5)%Z by (apply Z.div_le_mono; lia).
  destruct (Z.ltb_spec y (3 * height / 5)); [left; reflexivity|].
  right. apply Z.leb_le. lia.
Qed.

Lemma segmentGarmentAdvanced_decoded (w : World) (url : string) (type : GarmentType)
  (n : nat) (img : HTMLImageElement) :
  decodes w url n img ->
  context2d_at w (S (S (S n))) = true ->
  segmentGarmentAdvanced w url type n
  = (Normal (maskedResult w img
               (applyMask (buildMask type (img_width img) (img_height img))
                  (img_data img))),
     (4 + n)%nat).
Proof.
  intros (Himg & Hc1 & Hc2 & Hw & Hh) Hc3.
  unfold segmentGarmentAdvanced, try_catch, bind, loadImage, imageToCanvas,
    getContext2d, ask, ask_total, bind.
  rewrite Himg, Hc1. simpl. rewrite Hc2. simpl.
  rewrite getImageData_positive by assumption. simpl. rewrite Hc3. simpl.
  reflexivity.
Qed.

(** [segmentGarmentAdvanced] never throws; a failure carries an empty
    URL and a non-empty message.  On an image that decodes it returns the
    PNG encoding of a canvas of the same size whose samples went through
    the mask, and for [fullBody] and [completeOutfit] that canvas holds the
    samples of the image unchanged. *)
Theorem advanced_segmentation_runs (w : World) (url : string) (type : GarmentType)
  (n : nat) :
  (exists r n',
      segmentGarmentAdvanced w url type n = (Normal r, n')
      /\ (GarmentSegmentation.success r = false ->
          segmentedImageDataUrl r = ""
          /\ exists msg, GarmentSegmentation.error r = Some msg /\ truthy msg = true))
  /\ (forall img,
        decodes w url n img ->
        context2d_at w (S (S (S n))) = true ->
        segmentGarmentAdvanced w url type n
        = (Normal (maskedResult w img
                     (applyMask (buildMask type (img_width img) (img_height img))
                        (img_data img))),
           (4 + n)%nat)
        /\ (type = fullBody \/ type = completeOutfit ->
            segmentGarmentAdvanced w url type n
            = (Normal (maskedResult w img (img_data img)), (4 + n)%nat))).
Proof.
  split.
  - apply returns_run. unfold returns, segmentGarmentAdvanced.
    unfold loadImage, imageToCanvas, getContext2d, getImageData.
    repeat wp; simpl; intros; try discriminate.
    all: split; [reflexivity|]; eexists; split; [reflexivity|];
      first [reflexivity | apply or_else_truthy; reflexivity].
  - intros img Hdec Hc3.
    pose proof (segmentGarmentAdvanced_decoded w url type n img Hdec Hc3) as Hrun.
    split; [exact Hrun|].
    intros Htype. rewrite Hrun.
    destruct Hdec as (_ & _ & _ & Hw & Hh).
    rewrite (applyMask_full type _ _ _ Htype) by lia. reflexivity.
Qed.

End Advanced.

Section AdvancedOption.
Import GarmentSegmentation PreprocessingPipeline.

(** The option [useAdvancedSegmentation] has no effect: whatever its value,
    [getSegmentedGarment] does the same, and [preprocessImages] returns the
    same result at the same time; [segmentGarmentAdvanced] is never
    called. *)
Theorem advanced_option_is_ignored (w : World) (person garment : File)
  (options : PreprocessingOptions) (value : option bool) (n : nat) :
  (forall url type dbg m,
      getSegmentedGarment w url type true dbg m
      = getSegmentedGarment w url type false dbg m)
  /\ preprocessImages w person garment (withAdvancedSegmentation value options) n
     = preprocessImages w person garment options n.
Proof.
  split; [intros; reflexivity|].
  unfold preprocessImages, withAdvancedSegmentation; cbn [removePersonBackground
    removeGarmentBackground PreprocessingPipeline.segmentGarment garmentType
    useAdvancedSegmentation includeDebug].
  destruct (default false value), (default false (useAdvancedSegmentation options));
    reflexivity.
Qed.

End AdvancedOption.

(** ** The foreground of the compositor *)

Section Foreground.
Import BackgroundCompositing.
Variable w : World.

(** The foreground the compositor works with.  An image that loads is
    never lost: when no 2D context is available for the check, or when the
    image already has a transparent pixel, it is used as it is and the
    removal service is not contacted; otherwise it is replaced only by the
    image loaded from a successful background removal, and every failure
    on that path leaves the original image in place. *)
Theorem foreground_resolution (url : string) (n : nat) (img : HTMLImageElement) :
  image_at w n url = Normal img ->
  (0 < img_width img)%Z -> (0 < img_height img)%Z ->
  exists fg n',
    resolveForeground w url n = (Normal fg, n')
    /\ (context2d_at w (S n) = false -> fg = img /\ n' = S (S n))
    /\ (hasTransparency (img_data img) = true -> fg = img /\ n' = S (S n))
    /\ (fg <> img ->
        exists file bg k m,
          dataUrlToFile w url "gemini-output.png" (S (S n)) = (Normal file, k)
          /\ removeBackground w file false k = (Normal bg, m)
          /\ BackgroundRemoval.success bg = true
          /\ image_at w m (BackgroundRemoval.imageDataUrl bg) = Normal fg
          /\ n' = S m).
Proof.
  intros Himg Hw Hh.
  unfold resolveForeground, bind, loadImage, getContext2d, ask, ask_total.
  rewrite Himg.
  destruct (context2d_at w (S n)) eqn:Hctx.
  2:{ exists img, (S (S n)). split; [reflexivity|].
      split; [auto|]. split; [auto|]. intros Hne. destruct (Hne eq_refl). }
  rewrite getImageData_positive by assumption.
  unfold ret. cbv beta iota delta [id_data cv_data cv_width cv_height].
  destruct (hasTransparency (img_data img)) eqn:Htr; cbn [negb].
  { exists img, (S (S n)). split; [reflexivity|].
    split; [discriminate|]. split; [auto|]. intros Hne. destruct (Hne eq_refl). }
  unfold try_catch, bind.
  destruct (dataUrlToFile w url "gemini-output.png" (S (S n))) as [[file|e] k] eqn:Hfile.
  2:{ eexists img, _. split; [reflexivity|].
      split; [discriminate|]. split; [discriminate|]. intros Hne. destruct (Hne eq_refl). }
  destruct (removeBackground w file false k) as [[bg|e] m] eqn:Hbg.
  2:{ eexists img, _. split; [reflexivity|].
      split; [discriminate|]. split; [discriminate|]. intros Hne. destruct (Hne eq_refl). }
  destruct (BackgroundRemoval.success bg && truthy (BackgroundRemoval.imageDataUrl bg))
    eqn:Hok.
  2:{ eexists img, _. split; [reflexivity|].
      split; [discriminate|]. split; [discriminate|]. intros Hne. destruct (Hne eq_refl). }
  destruct (image_at w m (BackgroundRemoval.imageDataUrl bg)) as [fg|e] eqn:Hfg.
  2:{ eexists img, _. split; [reflexivity|].
      split; [discriminate|]. split; [discriminate|]. intros Hne. destruct (Hne eq_refl). }
  exists fg, (S m). split; [reflexivity|].
  split; [discriminate|]. split; [discriminate|]. intros _.
  apply andb_true_iff in Hok as [Hs _].
  exists file, bg, k, m. repeat split; assumption.
Qed.

End Foreground.

(** ** The try-on page *)

Section Page.
Import GarmentSegmentation Base64Helpers DressYourselfPage PreprocessingPipeline.

Lemma reachable_exclusive (s : GarmentSelection) :
  reachable s ->
  selected_fullBody s = true -> selected_top s = false /\ selected_bottom s = false.
Proof.
  intros Hr. induction Hr as [|type prev Hr IH]; [discriminate|].
  destruct type; simpl; intros H; try discriminate H. split; reflexivity.
Qed.

(** The garment selector.  Whatever the sequence of clicks, Full Body is
    never selected together with Top or Bottom.  When something is
    selected, the garment type passed to preprocessing is [fullBody] for
    Full Body, [completeOutfit] exactly for Top and Bottom together, [top]
    or [bottom] for one of them alone, and the selection string of the
    prompt is not empty.  Each of the four garment types can be selected. *)
Theorem garment_selector_invariant :
  (forall s, reachable s ->
     (selected_fullBody s = true -> selected_top s = false /\ selected_bottom s = false)
     /\ (isGarmentSelected s = true ->
         (selectedGarmentType s = fullBody <-> selected_fullBody s = true)
         /\ (selectedGarmentType s = completeOutfit
             <-> selected_top s = true /\ selected_bottom s = true)
         /\ (selectedGarmentType s = top
             <-> selected_top s = true /\ selected_bottom s = false)
         /\ (selectedGarmentType s = bottom
             <-> selected_top s = false /\ selected_bottom s = true)
         /\ getSelectionString s <> ""))
  /\ (forall type : GarmentType,
        exists s, reachable s /\ isGarmentSelected s = true
                  /\ selectedGarmentType s = type).
Proof.
  split.
  - intros s Hr. pose proof (reachable_exclusive s Hr) as Hex.
    split; [exact Hex|].
    destruct s as [[|] [|] [|]]; simpl in *;
      try (destruct (Hex eq_refl) as [? ?]; discriminate);
      intros Hsel; try discriminate Hsel;
      unfold selectedGarmentType, getSelectionString; simpl;
      repeat split; intros; try discriminate; try reflexivity;
      match goal with
      | H : _ /\ _ |- _ => destruct H; discriminate
      end.
  - intros [| | |].
    + exists (handleGarmentSelect topButton noSelection).
      split; [apply reachable_click, reachable_initial | split; reflexivity].
    + exists (handleGarmentSelect bottomButton noSelection).
      split; [apply reachable_click, reachable_initial | split; reflexivity].
    + exists (handleGarmentSelect fullBodyButton noSelection).
      split; [apply reachable_click, reachable_initial | split; reflexivity].
    + exists (handleGarmentSelect bottomButton (handleGarmentSelect topButton noSelection)).
      split; [do 2 apply reachable_click; apply reachable_initial | split; reflexivity].
Qed.

Lemma split_parts_no_sep (sep : ascii) (s : string) :
  Forall (fun part => includes_char sep part = false) (split sep s).
Proof.
  induction s as [|c rest IH]; simpl; [repeat constructor|].
  destruct (Ascii.eqb c sep) eqn:Hc; [constructor; [reflexivity | exact IH]|].
  destruct (split sep rest) as [|first others]; [repeat constructor; simpl; rewrite Hc; reflexivity|].
  inversion IH as [|? ? Hfirst Hothers]; subst.
  constructor; [simpl; rewrite Hc, Hfirst; reflexivity | exact Hothers].
Qed.

Lemma afterComma_no_comma (s d : string) :
  afterComma s = Some d -> includes_char comma d = false.
Proof.
  unfold afterComma. destruct (includes_char comma s) eqn:Hs.
  - intros Hd. pose proof (split_parts_no_sep comma s) as Hall.
    rewrite Forall_lookup in Hall. exact (Hall _ _ Hd).
  - intros [= <-]. exact Hs.
Qed.

Lemma truthy_default (o : option string) :
  truthy (default "" o) = true -> exists d, o = Some d /\ truthy d = true.
Proof. destruct o as [d|]; [intros H; exists d; auto | discriminate]. Qed.


Lemma convertFileToOpaqueJpegBase64_outcome (w : World) (file : File) (n : nat) :
  outcome (convertFileToOpaqueJpegBase64 w file) n
    (fun part _ => wellFormedPart part /\ mimeType part = "image/jpeg")
    (fun e _ => hasMessage e).
Proof.
  unfold convertFileToOpaqueJpegBase64, fileToDataUrl, loadImage, imageToCanvas,
    getContext2d.
  repeat wp; unfold hasMessage, wellFormedPart, withMessage; simpl; eauto.
  match goal with
  | H : negb (truthy (default "" _)) = false |- _ =>
      apply negb_false_iff in H;
      destruct (truthy_default _ H) as (d & Hd & Ht)
  end.
  rewrite Hd. simpl.
  repeat split; try assumption. apply (afterComma_no_comma _ _ Hd).
Qed.

Lemma fileToGenerativePart_outcome (w : World) (file : File) (n : nat) :
  outcome (fileToGenerativePart w file) n
    (fun part _ =>
       wellFormedPart part
       /\ (isPngOrPreprocessed file = true -> mimeType part = "image/jpeg"))
    (fun e _ => hasMessage e).
Proof.
  unfold fileToGenerativePart.
  destruct (length (file_bytes file) =? 0)%nat;
    [apply outcome_throw; eexists; split; reflexivity|].
  destruct (isPngOrPreprocessed file) eqn:Hpng.
  - apply outcome_try_catch, outcome_bind.
    eapply outcome_weaken; [apply convertFileToOpaqueJpegBase64_outcome| |].
    + intros part s' [Hwf Hm]. apply outcome_ret. simpl.
      destruct part as [d m]. simpl in *. split; [exact Hwf | intros _; exact Hm].
    + intros e s' _. apply outcome_throw. unfold withMessage. eexists. split; reflexivity.
  - unfold fileToDataUrl.
    repeat wp; unfold hasMessage, wellFormedPart; simpl; eauto.
    match goal with
    | H : negb (truthy (default "" _)) = false |- _ =>
        apply negb_false_iff in H;
        destruct (truthy_default _ H) as (d & Hd & Ht)
    end.
    rewrite Hd. simpl.
    split; [|discriminate].
    split; [exact Ht|]. split; [apply (afterComma_no_comma _ _ Hd)|].
    match goal with |- truthy (if truthy ?x then _ else _) = true =>
      destruct (truthy x) eqn:E; [exact E | reflexivity] end.
Qed.

Lemma truthy_nonempty (s : string) : truthy s = true -> s <> "".
Proof. intros H ->. discriminate H. Qed.

(** [fileToGenerativePart] rejects an empty file at once.  A part it
    resolves to has non-empty data without a comma (the header of the data
    URL is gone) and a non-empty MIME type, which is image/jpeg whenever
    the file is a PNG or a preprocessed file.  Every rejection is an error
    with a non-empty message. *)
Theorem generative_part_shape (w : World) (file : File) (n : nat) :
  (length (file_bytes file) = 0%nat ->
   fileToGenerativePart w file n = (Throw (Error "File is empty or invalid"), n))
  /\ (forall part n',
        fileToGenerativePart w file n = (Normal part, n') ->
        data part <> ""
        /\ includes_char comma (data part) = false
        /\ mimeType part <> ""
        /\ (isPngOrPreprocessed file = true -> mimeType part = "image/jpeg"))
  /\ (forall e n',
        fileToGenerativePart w file n = (Throw e, n') ->
        exists msg, message e = Some msg /\ msg <> "").
Proof.
  pose proof (fileToGenerativePart_outcome w file n) as H. unfold outcome in H.
  split; [|split].
  - intros Hempty. unfold fileToGenerativePart. rewrite Hempty. reflexivity.
  - intros part n' Hrun. rewrite Hrun in H. destruct H as ((Hd & Hc & Hm) & Hjpeg).
    split; [apply truthy_nonempty, Hd|]. split; [exact Hc|].
    split; [apply truthy_nonempty, Hm | exact Hjpeg].
  - intros e n' Hrun. rewrite Hrun in H. destruct H as (msg & Hmsg & Ht).
    exists msg. split; [exact Hmsg | apply truthy_nonempty, Ht].
Qed.

Lemma fileToGenerativePart_preprocessed (w : World) (file : File) (n n' : nat)
  (part : InlineData) :
  isPngOrPreprocessed file = true ->
  fileToGenerativePart w file n = (Normal part, n') ->
  mimeType part = "image/jpeg".
Proof.
  intros Hpng Hrun.
  pose proof (fileToGenerativePart_outcome w file n) as H. unfold outcome in H.
  rewrite Hrun in H. destruct H as [_ Hjpeg]. exact (Hjpeg Hpng).
Qed.

(** The files of a successful bundle are recognised as preprocessed by the
    page, so the parts made from them are always JPEG parts: the page's
    check of the MIME type cannot fail. *)
Theorem processed_files_become_jpeg (w : World) (person garment : File)
  (options : PreprocessingOptions) (n : nat) :
  exists r n',
    preprocessImages w person garment options n = (Normal r, n')
    /\ (success r = true ->
        isPngOrPreprocessed (processedPersonImage r) = true
        /\ isPngOrPreprocessed (processedGarmentImage r) = true
        /\ forall file m m' part,
            file = processedPersonImage r \/ file = processedGarmentImage r ->
            fileToGenerativePart w file m = (Normal part, m') ->
            mimeType part = "image/jpeg").
Proof.
  destruct (proj1 (returns_run _ _ _) (preprocessImages_returns w person garment options n))
    as (r & n' & Hrun & Hcase).
  exists r, n'. split; [exact Hrun|].
  intros Hsucc. destruct Hcase as [Hok | Hfail].
  - destruct Hok as (_ & _ & _ & _ & _ & _ & _ & _ & (m1 & m1' & Hpf) & (m2 & m2' & Hgf) & _).
    pose proof (dataUrlToFile_outcome w (personImageDataUrl r) personFileName m1) as Hp.
    pose proof (dataUrlToFile_outcome w (garmentImageDataUrl r) garmentFileName m2) as Hg.
    unfold outcome in Hp, Hg. rewrite Hpf in Hp. rewrite Hgf in Hg.
    destruct Hp as (Hn1 & _). destruct Hg as (Hn2 & _).
    assert (H1 : isPngOrPreprocessed (processedPersonImage r) = true).
    { unfold isPngOrPreprocessed. rewrite Hn1.
      replace (includes "bg-removed" personFileName) with true by reflexivity.
      rewrite orb_true_r. reflexivity. }
    assert (H2 : isPngOrPreprocessed (processedGarmentImage r) = true).
    { unfold isPngOrPreprocessed. rewrite Hn2.
      replace (includes "bg-removed" garmentFileName) with true by reflexivity.
      rewrite orb_true_r. reflexivity. }
    split; [exact H1|]. split; [exact H2|].
    intros file m m' part [-> | ->] Hpart;
      [exact (fileToGenerativePart_preprocessed w _ m m' part H1 Hpart)
      |exact (fileToGenerativePart_preprocessed w _ m m' part H2 Hpart)].
  - destruct Hfail as (Hs & _). rewrite Hs in Hsucc. discriminate Hsucc.
Qed.

Lemma prefix_data (rest : string) : String.prefix "data:" ("data:" +:+ rest) = true.
Proof.
  change (String.prefix "" rest = true). destruct rest; reflexivity.
Qed.

Lemma untilSemicolon_app (m rest : string) :
  includes_char ";"%char m = false ->
  untilSemicolon (m +:+ String ";"%char rest) = m.
Proof.
  induction m as [|c m IH]; simpl; [reflexivity|].
  intros H. apply orb_false_iff in H as [Hc Hm].
  rewrite Hc, (IH Hm). reflexivity.
Qed.

(** A file that is neither a PNG nor a preprocessed file keeps its format:
    when it reads as the data URL of [base64] with MIME type [mime], the
    part is exactly [base64] with [mime] (the type found in the data URL,
    not the one of the file object). *)
Theorem generative_part_round_trip (w : World) (file : File) (n : nat)
  (base64 mime : string) :
  length (file_bytes file) <> 0%nat ->
  isPngOrPreprocessed file = false ->
  read_as_data_url_at w n file = Normal (base64ToDataUrl base64 (Some mime)) ->
  truthy base64 = true -> includes_char comma base64 = false ->
  truthy mime = true -> includes_char comma mime = false ->
  includes_char ";"%char mime = false ->
  fileToGenerativePart w file n
  = (Normal {| data := base64; mimeType := mime |}, S n).
Proof.
  intros Hsize Hother Hread Hb Hbc Hm Hmc Hms.
  unfold fileToGenerativePart.
  replace (length (file_bytes file) =? 0)%nat with false
    by (symmetry; apply Nat.eqb_neq; exact Hsize).
  rewrite Hother.
  unfold bind, try_catch, fileToDataUrl, ask. rewrite Hread.
  unfold base64ToDataUrl. change (default "image/png" (Some mime)) with mime.
  set (url := "data:" +:+ mime +:+ ";base64," +:+ base64).
  assert (Hurl : truthy url = true) by reflexivity.
  assert (Hafter : afterComma url = Some base64).
  { unfold afterComma, url.
    replace ("data:" +:+ mime +:+ ";base64," +:+ base64)
      with (("data:" +:+ mime +:+ ";base64") +:+ String comma base64)
      by (rewrite !append_assoc; reflexivity).
    rewrite includes_char_app. cbn [includes_char]. unfold comma at 2.
    rewrite Ascii.eqb_refl, orb_true_r.
    rewrite split_app_sep by (rewrite !includes_char_app, Hmc; reflexivity).
    rewrite (split_no_sep _ _ Hbc). reflexivity. }
  assert (Hmatch : matchDataMime url = Some mime).
  { unfold url.
    change ("data:" +:+ mime +:+ ";base64," +:+ base64)
      with (String "d" (String "a" (String "t" (String "a"
              (String ":" (mime +:+ String ";" ("base64," +:+ base64))))))).
    cbn [matchDataMime skip].
    rewrite untilSemicolon_app by exact Hms. rewrite Hm.
    change (String "d" (String "a" (String "t" (String "a"
              (String ":" (mime +:+ String ";" ("base64," +:+ base64)))))))
      with ("data:" +:+ mime +:+ String ";" ("base64," +:+ base64)).
    rewrite prefix_data. reflexivity. }
  assert (Hprefix : String.prefix "data:" url = true) by apply prefix_data.
  rewrite Hurl, Hafter, Hprefix, Hmatch.
  change (default "" (Some base64)) with base64.
  change (default (or_else (Some (file_type file)) "image/jpeg") (Some mime)) with mime.
  rewrite Hb. unfold or_else. rewrite Hm. reflexivity.
Qed.

End Page.

(** ** The compositor that clears a solid background itself *)

Section SolidBackground.
Import BackgroundCompositing SolidBackgroundCompositing.

Lemma clearFrom_done (fuel i : nat) (data : list Z) :
  (length data <= i)%nat -> clearFrom fuel i data = data.
Proof.
  intros Hi. destruct fuel as [|fuel]; simpl; [reflexivity|].
  destruct (Nat.ltb_spec i (length data)); [lia | reflexivity].
Qed.

Lemma clearFrom_chunks (fuel : nat) :
  forall pre rest : list Z,
    (length rest <= fuel)%nat ->
    clearFrom fuel (length pre) (pre ++ rest) = pre ++ clearChunks rest.
Proof.
  induction fuel as [|fuel IH]; intros pre rest Hfuel.
  - destruct rest; simpl in *; [reflexivity | lia].
  - simpl clearFrom.
    destruct rest as [|r [|g [|b [|a rest]]]].
    + simpl clearChunks. rewrite !app_nil_r.
      destruct (Nat.ltb_spec (length pre) (length pre)); [lia|reflexivity].
    + rewrite length_app; simpl length.
      destruct (Nat.ltb_spec (length pre) (length pre + 1)); [|lia].
      unfold clearPixelAt.
      rewrite list_lookup_middle by reflexivity.
      rewrite (lookup_ge_None_2 (pre ++ [r]) (length pre + 1))
        by (rewrite length_app; simpl; lia).
      apply clearFrom_done. rewrite length_app; simpl; lia.
    + rewrite length_app; simpl length.
      destruct (Nat.ltb_spec (length pre) (length pre + 2)); [|lia].
      unfold clearPixelAt.
      rewrite list_lookup_middle by reflexivity.
      rewrite (lookup_app_r pre) by lia.
      replace (length pre + 1 - length pre)%nat with 1%nat by lia. simpl lookup.
      rewrite (lookup_ge_None_2 (pre ++ [r; g]) (length pre + 2))
        by (rewrite length_app; simpl; lia).
      apply clearFrom_done. rewrite length_app; simpl; lia.
    + rewrite length_app; simpl length.
      destruct (Nat.ltb_spec (length pre) (length pre + 3)); [|lia].
      unfold clearPixelAt.
      rewrite list_lookup_middle by reflexivity.
      rewrite (lookup_app_r pre _ (length pre + 1)) by lia.
      rewrite (lookup_app_r pre _ (length pre + 2)) by lia.
      replace (length pre + 1 - length pre)%nat with 1%nat by lia.
      replace (length pre + 2 - length pre)%nat with 2%nat by lia. simpl lookup.
      rewrite list_insert_ge by (rewrite length_app; simpl; lia).
      destruct (isSolidBackground _ _ _); apply clearFrom_done;
        rewrite length_app; simpl; lia.
    + rewrite length_app; simpl length.
      destruct (Nat.ltb_spec (length pre)
                  (length pre + S (S (S (S (length rest)))))); [|lia].
      unfold clearPixelAt.
      rewrite list_lookup_middle by reflexivity.
      rewrite (lookup_app_r pre _ (length pre + 1)) by lia.
      rewrite (lookup_app_r pre _ (length pre + 2)) by lia.
      replace (length pre + 1 - length pre)%nat with 1%nat by lia.
      replace (length pre + 2 - length pre)%nat with 2%nat by lia. simpl lookup.
      rewrite insert_app_r_alt by lia.
      replace (length pre + 3 - length pre)%nat with 3%nat by lia.
      simpl (<[_:=_]> _). simpl clearChunks.
      assert (Hsplit : forall a' : Z,
                 pre ++ r :: g :: b :: a' :: rest = (pre ++ [r; g; b; a']) ++ rest)
        by (intros; rewrite <- app_assoc; reflexivity).
      assert (Hlen : forall a' : Z,
                 (length pre + 4)%nat = length (pre ++ [r; g; b; a']))
        by (intros; rewrite length_app; reflexivity).
      simpl in Hfuel.
      destruct (isSolidBackground _ _ _).
      * rewrite (Hsplit 0%Z), (Hlen 0%Z), IH by lia.
        rewrite <- app_assoc. reflexivity.
      * rewrite (Hsplit a), (Hlen a), IH by lia.
        rewrite <- app_assoc. reflexivity.
Qed.

Lemma clearChunks_pixel (p : nat) :
  forall (data : list Z) (r g b a : Z),
    data !! (4 * p)%nat = Some r ->
    data !! (4 * p + 1)%nat = Some g ->
    data !! (4 * p + 2)%nat = Some b ->
    data !! (4 * p + 3)%nat = Some a ->
    clearChunks data !! (4 * p)%nat = Some r /\
    clearChunks data !! (4 * p + 1)%nat = Some g /\
    clearChunks data !! (4 * p + 2)%nat = Some b /\
    clearChunks data !! (4 * p + 3)%nat
      = Some (if isSolidBackground r g b then 0%Z else a).
Proof.
  induction p as [|p IH]; intros data r g b a Hr Hg Hb Ha.
  - destruct data as [|r' [|g' [|b' [|a' rest]]]]; simpl in *; try discriminate.
    inversion Hr; inversion Hg; inversion Hb; inversion Ha; subst. auto.
  - replace (4 * S p)%nat with (S (S (S (S (4 * p))))) in * by lia.
    destruct data as [|r' [|g' [|b' [|a' rest]]]]; simpl in *; try discriminate.
    apply IH; assumption.
Qed.

Lemma brightness_above_200 (r g b : Z) :
  Qgtb (brightness r g b) 200 = (600 <? r + g + b)%Z.
Proof.
  unfold Qgtb, brightness, Qle_bool, Qdiv, Qmult, Qinv, inject_Z; simpl.
  change (Z.pos (1 * 3)) with 3%Z.
  destruct (Z.ltb_spec 600 (r + g + b));
    destruct (Z.leb_spec ((r + g + b) * 1 * 1) (200 * 3)); simpl; try reflexivity; lia.
Qed.

(** The second compositor clears a solid background itself.  Its loop
    keeps the colour samples of every pixel and sets the alpha sample to 0
    exactly for the pixels that are very light ([r + g + b > 720]) or light
    and nearly grey ([|r - g| < 10], [|g - b| < 10], [r + g + b > 600]); it
    clears every pixel that the local fallback of the pipeline clears. *)
Theorem solid_background_rule :
  (forall (data : list Z) (p : nat) (r g b a : Z),
      data !! (4 * p)%nat = Some r ->
      data !! (4 * p + 1)%nat = Some g ->
      data !! (4 * p + 2)%nat = Some b ->
      data !! (4 * p + 3)%nat = Some a ->
      let out := removeSolidBackground data in
      out !! (4 * p)%nat = Some r
      /\ out !! (4 * p + 1)%nat = Some g
      /\ out !! (4 * p + 2)%nat = Some b
      /\ out !! (4 * p + 3)%nat = Some (if isSolidBackground r g b then 0%Z else a)
      /\ (makeLightPixelsTransparent data !! (4 * p + 3)%nat = Some 0%Z ->
          out !! (4 * p + 3)%nat = Some 0%Z))
  /\ (forall r g b : Z,
        isSolidBackground r g b
        = (720 <? r + g + b)%Z
          || ((Z.abs (r - g) <? 10)%Z && (Z.abs (g - b) <? 10)%Z
              && (600 <? r + g + b)%Z)).
Proof.
  split.
  - intros data p r g b a Hr Hg Hb Ha. cbv zeta.
    assert (Hchunks : removeSolidBackground data = clearChunks data)
      by (apply (clearFrom_chunks (length data) [] data); lia).
    rewrite Hchunks.
    destruct (clearChunks_pixel p data r g b a Hr Hg Hb Ha) as (H0 & H1 & H2 & H3).
    repeat (split; [assumption|]).
    rewrite makeLightPixelsTransparent_chunks.
    destruct (lightenChunks_pixel p data r g b a Hr Hg Hb Ha) as (_ & _ & _ & H3').
    rewrite H3, H3'. unfold isSolidBackground.
    destruct (Qgtb (brightness r g b) 240); simpl; [reflexivity|].
    intros [= ->]. destruct (_ && _); reflexivity.
  - intros r g b. unfold isSolidBackground.
    rewrite brightness_threshold, brightness_above_200. reflexivity.
Qed.

End SolidBackground.

(** ** The theorems at work in the sample browsers *)

Lemma sampleImage_decodes (url : string) (n : nat) :
  decodes onlineWorld url n sampleImage.
Proof. unfold decodes. simpl. repeat split; reflexivity. Qed.





Lemma detectSingleGarment_conservative_witness :
  exists n',
    GarmentSegmentation.detectSingleGarment offlineWorld "blob:7"
      GarmentSegmentation.bottom 0
    = (Normal {| GarmentSegmentation.isSingleGarment := false;
                 GarmentSegmentation.confidence := 0;
                 GarmentSegmentation.detectedType := None |}, n').
Proof.
  apply (detectSingleGarment_conservative offlineWorld "blob:7"
           GarmentSegmentation.bottom 0 (or_intror eq_refl)).
  intros img (Himg & _). simpl in Himg. discriminate Himg.
Defined.

Lemma single_garment_segmentation_identity_witness :
  exists r,
    GarmentSegmentation.segmentGarment onlineWorld "blob:7"
      GarmentSegmentation.top true 0 = (Normal r, 3%nat)
    /\ GarmentSegmentation.segmentedImageDataUrl r = "blob:7".
Proof.
  destruct (single_garment_segmentation_identity onlineWorld "blob:7"
              GarmentSegmentation.top 0 sampleImage
              (or_introl eq_refl) (sampleImage_decodes "blob:7" 0))
    as (r & d & Hrun & _ & Hu & _).
  exists r. split; assumption.
Defined.

Lemma removal_not_requested_never_succeeds_witness :
  exists r n',
    PreprocessingPipeline.preprocessImages onlineWorld samplePerson sampleGarment
      keepPersonBackground 0 = (Normal r, n')
    /\ PreprocessingPipeline.success r = false.
Proof.
  destruct (removal_not_requested_never_succeeds onlineWorld samplePerson sampleGarment
              keepPersonBackground 0 (or_introl eq_refl))
    as (r & n' & Hrun & Hs & _).
  exists r, n'. split; assumption.
Defined.


Lemma aspect_ratio_scale_invariant_witness :
  GarmentSegmentation.detectGarmentTypeByAspectRatio (of_Z 600) (of_Z 1200)
  = GarmentSegmentation.detectGarmentTypeByAspectRatio (of_Z 300) (of_Z 600).
Proof.
  exact (aspect_ratio_scale_invariant 2 300 600 ltac:(lia)).
Defined.

Lemma darkImage_decodes (url : string) (n : nat) :
  decodes darkWorld url n darkImage.
Proof. unfold decodes. simpl. repeat split; reflexivity. Qed.

(** The local fallback on a black image: success, and nothing removed. *)
Lemma local_fallback_keeps_dark_image_witness :
  makeLightPixelsTransparent (img_data darkImage) = img_data darkImage
  /\ exists res,
      removeBackgroundClientSide darkWorld samplePerson false 0 = (Normal res, 6%nat)
      /\ success res = true.
Proof.
  destruct (local_fallback_keeps_dark_image darkWorld samplePerson false 0 darkImage
              (darkImage_decodes _ 2)) as (Hsame & res & Hrun & Hs & _).
  - intros p r g b Hr Hg Hb. destruct p as [|p].
    + injection Hr as <-. injection Hg as <-. injection Hb as <-. lia.
    + apply lookup_lt_Some in Hr. simpl in Hr. lia.
  - split; [exact Hsame|]. exists res. split; assumption.
Defined.

(** A browser whose uploads reach a server without a token. *)
Lemma noTokenWorld_served : servedByRoute noTokenWorld noTokenServer.
Proof.
  intros m imageFile.
  exists noTokenResponse, 0%nat,
    (RemoveBackgroundRoute.json "Replicate API token not configured" 500), 0%nat.
  split; [reflexivity|]. split; [reflexivity|].
  repeat split.
Qed.

Lemma remote_attempt_through_route_witness :
  exists r n',
    removeBackgroundWithReplicate noTokenWorld samplePerson false 0 = (Normal r, n')
    /\ success r = false
    /\ error r = Some "Replicate API token not configured".
Proof.
  destruct (remote_attempt_through_route noTokenWorld noTokenServer samplePerson false 0
              noTokenWorld_served) as (r & n' & Hrun & _ & Hno).
  destruct (Hno eq_refl) as (Hs & He).
  exists r, n'. split; [exact Hrun|]. split; [exact Hs | exact (He eq_refl)].
Defined.

(** With [top] on the sample image, the pixel in the last row of the first
    column loses its alpha sample. *)
Lemma advanced_mask_pixel_rule_witness :
  AdvancedSegmentation.applyMask
    (AdvancedSegmentation.buildMask GarmentSegmentation.top 4 4)
    (img_data sampleImage) !! 51%nat = Some 0%Z.
Proof.
  exact (proj2 (proj2 (proj2 (proj2
           (advanced_mask_pixel_rule GarmentSegmentation.top 4 4 (img_data sampleImage)
              0 3 ltac:(lia) ltac:(lia)))))).
Defined.

(** Of 10 rows, row 5 is kept for [top] and for [bottom]. *)
Lemma advanced_regions_cover_image_witness :
  AdvancedSegmentation.topRegionEnd 10 = 6%Z
  /\ AdvancedSegmentation.bottomRegionStart 10 = 4%Z.
Proof.
  destruct (advanced_regions_cover_image 10 5 ltac:(lia)) as (Ht & Hb & _).
  split; [exact Ht | exact Hb].
Defined.

(** The sample image is opaque, so its background is removed first. *)
Lemma foreground_resolution_witness :
  exists fg n',
    BackgroundCompositing.resolveForeground onlineWorld "blob:7" 0 = (Normal fg, n').
Proof.
  destruct (foreground_resolution onlineWorld "blob:7" 0 sampleImage eq_refl
              ltac:(simpl; lia) ltac:(simpl; lia)) as (fg & n' & Hrun & _).
  exists fg, n'. exact Hrun.
Defined.

Lemma generative_part_round_trip_witness :
  DressYourselfPage.fileToGenerativePart onlineWorld samplePhoto 0
  = (Normal {| DressYourselfPage.data := "AAAA";
               DressYourselfPage.mimeType := "image/jpeg" |}, 1%nat).
Proof.
  apply (generative_part_round_trip onlineWorld samplePhoto 0 "AAAA" "image/jpeg");
    first [discriminate | reflexivity].
Defined.

Lemma fileToBase64_round_trip_witness :
  Base64Helpers.fileToBase64 onlineWorld samplePhoto 0 = (Normal (Some "AAAA"), 1%nat).
Proof.
  exact (proj1 (proj1 (fileToBase64_round_trip onlineWorld samplePhoto 0)
                  "AAAA" (Some "image/jpeg") eq_refl eq_refl) eq_refl).
Defined.

Lemma advanced_segmentation_runs_witness :
  exists r,
    AdvancedSegmentation.segmentGarmentAdvanced onlineWorld "blob:7"
      GarmentSegmentation.completeOutfit 0 = (Normal r, 4%nat)
    /\ GarmentSegmentation.success r = true.
Proof.
  destruct (proj2 (advanced_segmentation_runs onlineWorld "blob:7"
                     GarmentSegmentation.completeOutfit 0)
              sampleImage (sampleImage_decodes "blob:7" 0) eq_refl) as [_ Hfull].
  eexists. split; [exact (Hfull (or_intror eq_refl))|reflexivity].
Defined.
Lemma processed_files_are_png_witness :
  exists r n',
    PreprocessingPipeline.preprocessImages onlineWorld samplePerson sampleGarment
      (pageOptions GarmentSegmentation.top false) 0 = (Normal r, n')
    /\ PreprocessingPipeline.success r = true
    /\ file_type (PreprocessingPipeline.processedGarmentImage r) = "image/png".
Proof.
  destruct (processed_files_are_png onlineWorld samplePerson sampleGarment
              (pageOptions GarmentSegmentation.top false) 0)
    as (r & n' & Hrun & Hpng).
  exists r, n'. split; [exact Hrun|].
  assert (Hs : PreprocessingPipeline.success r = true)
    by (vm_compute in Hrun; injection Hrun as <- _; reflexivity).
  split; [exact Hs | exact (proj2 (proj2 (proj2 (Hpng Hs))))].
Defined.

Lemma processed_files_become_jpeg_witness :
  exists r n',
    PreprocessingPipeline.preprocessImages onlineWorld samplePerson sampleGarment
      (pageOptions GarmentSegmentation.top false) 0 = (Normal r, n')
    /\ PreprocessingPipeline.success r = true
    /\ DressYourselfPage.isPngOrPreprocessed
         (PreprocessingPipeline.processedPersonImage r) = true.
Proof.
  destruct (processed_files_become_jpeg onlineWorld samplePerson sampleGarment
              (pageOptions GarmentSegmentation.top false) 0)
    as (r & n' & Hrun & Hjpeg).
  exists r, n'. split; [exact Hrun|].
  assert (Hs : PreprocessingPipeline.success r = true)
    by (vm_compute in Hrun; injection Hrun as <- _; reflexivity).
  split; [exact Hs | exact (proj1 (Hjpeg Hs))].
Defined.

(** The sample image has 2 interior pixels in each half. *)
Lemma interior_pixel_counts_witness :
  let imageData := {| id_width := 4; id_height := 4; id_data := img_data sampleImage |} in
  GarmentSegmentation.topPixels (GarmentSegmentation.countEdges imageData) = 2%Z
  /\ GarmentSegmentation.bottomPixels (GarmentSegmentation.countEdges imageData) = 2%Z.
Proof.
  intros imageData.
  exact (proj1 (interior_pixel_counts imageData) ltac:(simpl; lia) ltac:(simpl; lia)).
Defined.

(** A pixel of brightness 250 loses its alpha sample. *)
Lemma solid_background_rule_witness :
  SolidBackgroundCompositing.removeSolidBackground [250; 250; 250; 255]%Z !! 3%nat
  = Some 0%Z.
Proof.
  exact (proj1 (proj2 (proj2 (proj2
           (proj1 solid_background_rule [250; 250; 250; 255]%Z 0%nat 250%Z 250%Z 250%Z 255%Z
              eq_refl eq_refl eq_refl eq_refl))))).
Defined.
Lemma dataUrlToFile_shape_witness :
  exists f,
    dataUrlToFile onlineWorld "blob:3" "garment.png" 0 = (Normal f, 1%nat)
    /\ file_name f = "garment.png" /\ file_type f <> "".
Proof.
  exists (new_File pngBlob "garment.png" "image/png").
  split; [reflexivity|].
  destruct (dataUrlToFile_shape onlineWorld "blob:3" "garment.png" 0 1
              (new_File pngBlob "garment.png" "image/png") eq_refl) as (Hn & Ht & _).
  split; assumption.
Defined.
